(** * samsip_BE: the order-management backend, embedded and verified

    A shallow embedding of [src/app/main.py], [src/app/models.py] and
    [src/app/database.py].  Python values are an inductive type, text is a
    byte string (UTF-8), a Python float is a binary64 value of the Standard
    Library's [SpecFloat], exceptions are values of [exn] threaded through a
    small state-and-exception monad over the SQLAlchemy session.

    Text is handled byte-wise: the digits and blanks the builtins recognise
    are the ASCII ones.  Python's [int], [float], [str.strip] and [strptime]
    also take the decimal digits and blanks beyond ASCII; a statement that
    depends on how a text is read is made of ASCII text ([Text.is_ascii]). *)

From Stdlib Require Import ZArith List String Ascii Bool Lia.
From Stdlib Require Import Floats.SpecFloat.
From Stdlib Require Import DecimalString.
Import ListNotations.
Open Scope string_scope.
Open Scope Z_scope.


(** ** Text primitives (methods of Python's [str]) *)

Module Text.

Definition code (c : ascii) : Z := Z.of_N (N_of_ascii c).

(** [str.isspace] on one ASCII character: TAB..CR, FS..US and the blank. *)
Definition is_space (c : ascii) : bool :=
  let n := code c in
  ((9 <=? n) && (n <=? 13)) || ((28 <=? n) && (n <=? 32)).

Definition is_digit (c : ascii) : bool :=
  let n := code c in (48 <=? n) && (n <=? 57).

Definition digit_val (c : ascii) : option Z :=
  if is_digit c then Some (code c - 48) else None.

Definition to_lower (c : ascii) : ascii :=
  let n := code c in
  if (65 <=? n) && (n <=? 90) then ascii_of_N (Z.to_N (n + 32)) else c.

Definition chars (s : string) : list ascii := list_ascii_of_string s.
Definition text (l : list ascii) : string := string_of_list_ascii l.

(** [s.isascii()] *)
Definition is_ascii (s : string) : bool := forallb (fun c => code c <? 128) (chars s).

(** The blanks [int] and [float] skip around a number: C's [isspace]. *)
Definition is_c_space (c : ascii) : bool :=
  let n := code c in
  ((9 <=? n) && (n <=? 13)) || (n =? 32).

Fixpoint lstrip_by (blank : ascii -> bool) (l : list ascii) : list ascii :=
  match l with
  | c :: l' => if blank c then lstrip_by blank l' else l
  | [] => []
  end.

Definition strip_by (blank : ascii -> bool) (l : list ascii) : list ascii :=
  rev (lstrip_by blank (rev (lstrip_by blank l))).

(** [s.strip()] *)
Definition strip_chars (l : list ascii) : list ascii := strip_by is_space l.

Definition strip (s : string) : string := text (strip_chars (chars s)).

(** [s.split(sep)] for a one-character separator: never an empty list. *)
Fixpoint split_chars (sep : ascii) (l : list ascii) : list (list ascii) :=
  match l with
  | [] => [[]]
  | c :: l' =>
      if Ascii.eqb c sep then [] :: split_chars sep l'
      else match split_chars sep l' with
           | p :: ps => (c :: p) :: ps
           | [] => [[c]]
           end
  end.

Definition split (sep : ascii) (s : string) : list string :=
  map text (split_chars sep (chars s)).

(** [s.startswith(p)] *)
Definition startswith (s p : string) : bool := String.prefix p s.

(** [s.endswith(p)] *)
Definition endswith (s p : string) : bool :=
  String.prefix (text (rev (chars p))) (text (rev (chars s))).

(** [sub in s] *)
Fixpoint contains (sub s : string) : bool :=
  String.prefix sub s ||
  match s with
  | EmptyString => false
  | String _ s' => contains sub s'
  end.

(** [s.replace(c, "")] for a one-character [c] *)
Definition remove (c : ascii) (s : string) : string :=
  text (filter (fun x => negb (Ascii.eqb x c)) (chars s)).

Definition of_Z (z : Z) : string := NilZero.string_of_int (Z.to_int z).

End Text.

(** ** Exceptions and results *)

Inductive exn : Type :=
| ValueError (msg : string)
| TypeError (msg : string)
| IndexError (msg : string)
| OverflowError (msg : string)
| IntegrityError (msg : string)
| InterfaceError (msg : string)
| BadZipFile (msg : string)
| HTTPException (status_code : Z) (detail : string).

(** [str(e)].  For an error of the database this is the message of the
    driver; the text SQLAlchemy gives its exception holds that message
    between the name of the driver's class and the statement with its
    parameters, which are not rendered here.  A handler is only ever asked
    whether the text holds the driver's message; a detail made of such a
    text is stated by what it holds, never by what it is. *)
Definition exn_str (e : exn) : string :=
  match e with
  | ValueError m | TypeError m | IndexError m | OverflowError m
  | IntegrityError m | InterfaceError m | BadZipFile m => m
  | HTTPException c d => Text.of_Z c ++ ": " ++ d
  end.

Definition is_HTTPException (e : exn) : bool :=
  match e with HTTPException _ _ => true | _ => false end.

Inductive result (A : Type) : Type :=
| Ok (a : A)
| Raise (e : exn).
Arguments Ok {A} a.
Arguments Raise {A} e.

Definition rbind {A B} (r : result A) (k : A -> result B) : result B :=
  match r with
  | Ok a => k a
  | Raise e => Raise e
  end.

Declare Scope result_scope.
Delimit Scope result_scope with result.
Notation "'let?' x ':=' c 'in' k" := (rbind c (fun x => k))
  (at level 10, x name, c at level 100, k at level 200) : result_scope.

(** ** Python numbers *)

Module Py.

(** A Python float: IEEE 754 binary64. *)
Definition float : Type := spec_float.
Definition prec : Z := 53.
Definition emax : Z := 1024.
Definition zero : float := S754_zero false.

Definition is_infinite (f : float) : bool :=
  match f with S754_infinity _ => true | _ => false end.

(** [float(n)] for an int [n]: nearest double, ties to even;
    [OverflowError] when [n] lies beyond the finite doubles. *)
Definition float_of_int (n : Z) : result float :=
  let f := binary_normalize prec emax n 0 false in
  if is_infinite f then Raise (OverflowError "int too large to convert to float")
  else Ok f.

(** The decimal [m * 10^e] of sign [s], correctly rounded. *)
Definition float_of_decimal (s : bool) (m e : Z) : float :=
  match m with
  | Zpos p =>
      if 0 <=? e then binary_normalize prec emax ((if s then -1 else 1) * (m * 10 ^ e)) 0 false
      else match 10 ^ (- e) with
           | Zpos q => SFdiv prec emax (S754_finite s p 0) (S754_finite false q 0)
           | _ => S754_nan
           end
  | _ => S754_zero s
  end.

(** digitpart ::= digit (["_"] digit)* ; the value read so far, the number
    of digits read so far, and the rest of the input. *)
Fixpoint digits_tail (v n : Z) (l : list ascii) : Z * Z * list ascii :=
  match l with
  | c :: l' =>
      match Text.digit_val c with
      | Some d => digits_tail (10 * v + d) (n + 1) l'
      | None =>
          if Ascii.eqb c "_" then
            match l' with
            | c2 :: l'' =>
                match Text.digit_val c2 with
                | Some d => digits_tail (10 * v + d) (n + 1) l''
                | None => (v, n, l)
                end
            | [] => (v, n, l)
            end
          else (v, n, l)
      end
  | [] => (v, n, [])
  end.

(** An optional digitpart continuing the value [v]: value, digits read, rest. *)
Definition digitpart (v : Z) (l : list ascii) : Z * Z * list ascii :=
  match l with
  | c :: l' =>
      match Text.digit_val c with
      | Some d => digits_tail (10 * v + d) 1 l'
      | None => (v, 0, l)
      end
  | [] => (v, 0, [])
  end.

(** An optional sign: [true] for "-". *)
Definition sign (l : list ascii) : bool * list ascii :=
  match l with
  | c :: l' =>
      if Ascii.eqb c "-" then (true, l')
      else if Ascii.eqb c "+" then (false, l')
      else (false, l)
  | [] => (false, [])
  end.

(** [int(s)] for a str [s] of ASCII characters, base ten; [None] is
    [ValueError]. *)
Definition int_of_str (s : string) : option Z :=
  let '(neg, l) := sign (Text.strip_by Text.is_c_space (Text.chars s)) in
  match digitpart 0 l with
  | (v, n, []) => if 0 <? n then Some (if neg then - v else v) else None
  | _ => None
  end.

(** exponent ::= ("e" | "E") [sign] digitpart, then the end of the text. *)
Definition exponent (l : list ascii) : option Z :=
  match l with
  | [] => Some 0
  | c :: l' =>
      if Ascii.eqb (Text.to_lower c) "e" then
        let '(neg, l'') := sign l' in
        match digitpart 0 l'' with
        | (v, n, []) => if 0 <? n then Some (if neg then - v else v) else None
        | _ => None
        end
      else None
  end.

(** [float(s)] for a str [s] of ASCII characters; [None] is [ValueError].
    floatvalue ::= [sign] (floatnumber | "inf" | "infinity" | "nan") *)
Definition float_of_str (s : string) : option float :=
  let '(neg, l) := sign (Text.strip_by Text.is_c_space (Text.chars s)) in
  let word := Text.text (map Text.to_lower l) in
  if String.eqb word "inf" || String.eqb word "infinity" then Some (S754_infinity neg)
  else if String.eqb word "nan" then Some S754_nan
  else
    let '(ip, ni, l1) := digitpart 0 l in
    let '(m, nf, l2) :=
      match l1 with
      | c :: l1' => if Ascii.eqb c "." then digitpart ip l1' else (ip, 0, l1)
      | [] => (ip, 0, [])
      end in
    if 0 <? ni + nf then
      match exponent l2 with
      | Some e => Some (float_of_decimal neg m (e - nf))
      | None => None
      end
    else None.

End Py.

(** ** Calendar dates ([datetime.date]) *)

Record date : Type := mkdate { year : Z; month : Z; day : Z }.

Definition is_leap (y : Z) : bool :=
  ((y mod 4 =? 0) && negb (y mod 100 =? 0)) || (y mod 400 =? 0).

Definition days_in_month (y m : Z) : Z :=
  if m =? 2 then (if is_leap y then 29 else 28)
  else if (m =? 4) || (m =? 6) || (m =? 9) || (m =? 11) then 30
  else 31.

(** What [datetime.date] accepts: MINYEAR..MAXYEAR, a month, a day of it. *)
Definition valid_date (d : date) : bool :=
  (1 <=? year d) && (year d <=? 9999) &&
  (1 <=? month d) && (month d <=? 12) &&
  (1 <=? day d) && (day d <=? days_in_month (year d) (month d)).

Definition fits_c_int (z : Z) : bool := (- 2 ^ 31 <=? z) && (z <? 2 ^ 31).

(** [datetime(year, month, day).date()]: arguments beyond a C int raise
    [OverflowError], a date that does not exist raises [ValueError]. *)
Definition datetime_ymd (y m d : Z) : result date :=
  if negb (fits_c_int y && fits_c_int m && fits_c_int d)
  then Raise (OverflowError "signed integer is greater than maximum")
  else if valid_date (mkdate y m d) then Ok (mkdate y m d)
  else Raise (ValueError "date value out of range").

(** ** [datetime.strptime] for the three formats of the upload handler

    The directives compile to the regular expressions of [_strptime]:
    %Y = \d\d\d\d, %m = 1[0-2]|0[1-9]|[1-9],
    %d = 3[0-1]|[1-2]\d|0[1-9]|[1-9]| [1-9]; alternatives are tried in this
    order, and text left over after the match is an error. *)

Module Strptime.

Definition expect (c : ascii) (l : list ascii) : option (list ascii) :=
  match l with
  | x :: l' => if Ascii.eqb x c then Some l' else None
  | [] => None
  end.

Definition digit_in (lo hi : Z) (l : list ascii) : option (Z * list ascii) :=
  match l with
  | x :: l' =>
      match Text.digit_val x with
      | Some d => if (lo <=? d) && (d <=? hi) then Some (d, l') else None
      | None => None
      end
  | [] => None
  end.

(** Two digits, the first in [lo1..hi1], the second in [lo2..hi2]. *)
Definition two_digits (lo1 hi1 lo2 hi2 : Z) (l : list ascii) : option (Z * list ascii) :=
  match digit_in lo1 hi1 l with
  | Some (a, l') =>
      match digit_in lo2 hi2 l' with
      | Some (b, l'') => Some (10 * a + b, l'')
      | None => None
      end
  | None => None
  end.

Definition year4 (l : list ascii) : option (Z * list ascii) :=
  match two_digits 0 9 0 9 l with
  | Some (hi, l') =>
      match two_digits 0 9 0 9 l' with
      | Some (lo, l'') => Some (100 * hi + lo, l'')
      | None => None
      end
  | None => None
  end.

Definition somes {A} (l : list (option A)) : list A :=
  flat_map (fun o => match o with Some a => [a] | None => [] end) l.

Definition month_alts (l : list ascii) : list (Z * list ascii) :=
  somes [two_digits 1 1 0 2 l; two_digits 0 0 1 9 l; digit_in 1 9 l].

Definition day_alts (l : list ascii) : list (Z * list ascii) :=
  somes [two_digits 3 3 0 1 l; two_digits 1 2 0 9 l; two_digits 0 0 1 9 l;
         digit_in 1 9 l;
         match expect " " l with Some l' => digit_in 1 9 l' | None => None end].

Fixpoint first_some {A B} (f : A -> option B) (l : list A) : option B :=
  match l with
  | a :: l' => match f a with Some b => Some b | None => first_some f l' end
  | [] => None
  end.

(** The first match of the pattern %Y c1 %m c2 %d at the start of [l]. *)
Definition re_match (c1 c2 : ascii) (l : list ascii) : option (Z * Z * Z * list ascii) :=
  match year4 l with
  | Some (y, l1) =>
      match expect c1 l1 with
      | Some l2 =>
          first_some
            (fun ml =>
               match expect c2 (snd ml) with
               | Some l4 =>
                   match day_alts l4 with
                   | (d, l5) :: _ => Some (y, fst ml, d, l5)
                   | [] => None
                   end
               | None => None
               end)
            (month_alts l2)
      | None => None
      end
  | None => None
  end.

(** [datetime.strptime(s, fmt).date()] for a format "%Y c1 %m c2 %d". *)
Definition strptime (s fmt : string) : result date :=
  match Text.chars fmt with
  | [p1; dY; c1; p2; dm; c2; p3; dd] =>
      if String.eqb (Text.text [p1; dY; p2; dm; p3; dd]) "%Y%m%d" then
        match re_match c1 c2 (Text.chars s) with
        | Some (y, m, d, []) =>
            if valid_date (mkdate y m d) then Ok (mkdate y m d)
            else Raise (ValueError "day is out of range for month")
        | Some _ => Raise (ValueError "unconverted data remains")
        | None => Raise (ValueError "time data does not match format")
        end
      else Raise (ValueError "unsupported format")
  | _ => Raise (ValueError "unsupported format")
  end.

End Strptime.

(** ** Python values: spreadsheet cells and constructor arguments

    A float carries the text Python prints for it and the text SQLite
    stores for it in a text column; a datetime, which is a naive one,
    carries the text both give it; an object of any other class carries its
    truth value, its text and, when SQLAlchemy has a type for its class (a
    time, a timedelta), the text that type renders it as in a comparison. *)

Inductive pyval : Type :=
| PNone
| PBool (b : bool)
| PInt (n : Z)
| PFloat (f : Py.float) (repr : string) (sql : string)
| PStr (s : string)
| PDateTime (d : date) (repr : string)
| PDate (d : date)
| PObject (truth : bool) (repr : string) (lookup : option string).

Definition pad (width : nat) (z : Z) : string :=
  let s := Text.of_Z z in
  Text.text (repeat "0"%char (width - String.length s)) ++ s.

Definition isoformat (d : date) : string :=
  pad 4 (year d) ++ "-" ++ pad 2 (month d) ++ "-" ++ pad 2 (day d).

(** [str(v)] *)
Definition py_str (v : pyval) : string :=
  match v with
  | PNone => "None"
  | PBool b => if b then "True" else "False"
  | PInt n => Text.of_Z n
  | PFloat _ r _ => r
  | PStr s => s
  | PDateTime _ r => r
  | PDate d => isoformat d
  | PObject _ r _ => r
  end.

Definition float_is_zero (f : Py.float) : bool :=
  match f with S754_zero _ => true | _ => false end.

(** [bool(v)] *)
Definition truthy (v : pyval) : bool :=
  match v with
  | PNone => false
  | PBool b => b
  | PInt n => negb (n =? 0)
  | PFloat f _ _ => negb (float_is_zero f)
  | PStr s => negb (String.eqb s "")
  | PDateTime _ _ => true
  | PDate _ => true
  | PObject t _ _ => t
  end.

(** [str(v or default)] *)
Definition str_or (v : pyval) (default : string) : string :=
  if truthy v then py_str v else default.

Definition is_ValueError (e : exn) : bool :=
  match e with ValueError _ => true | _ => false end.
Definition is_TypeError (e : exn) : bool :=
  match e with TypeError _ => true | _ => false end.
Definition is_IndexError (e : exn) : bool :=
  match e with IndexError _ => true | _ => false end.

(** [try: body except classes: handler] *)
Definition try_except {A} (body : result A) (classes : exn -> bool)
    (handler : exn -> result A) : result A :=
  match body with
  | Ok a => Ok a
  | Raise e => if classes e then handler e else Raise e
  end.

Definition py_int (s : string) : result Z :=
  match Py.int_of_str s with
  | Some z => Ok z
  | None => Raise (ValueError "invalid literal for int() with base 10")
  end.

Definition py_float (s : string) : result Py.float :=
  match Py.float_of_str s with
  | Some f => Ok f
  | None => Raise (ValueError "could not convert string to float")
  end.

(** ** [get_float_value] (main.py, lines 167-179) *)

Definition get_float_value (value : pyval) : result Py.float :=
  if negb (truthy value) then Ok Py.zero
  else match value with
       | PBool b => Py.float_of_int (if b then 1 else 0)
       | PInt n => Py.float_of_int n
       | PFloat f _ _ => Ok f
       | PStr s =>
           if Text.startswith s "=" then Ok Py.zero
           else try_except (py_float (Text.remove "," s)) is_ValueError
                  (fun _ => Ok Py.zero)
       | _ => Ok Py.zero
       end.

(** ** Date normalisation of [upload_orders] (main.py, lines 486-522) *)

Definition date_formats : list string := ["%Y.%m.%d"; "%Y-%m-%d"; "%Y/%m/%d"].

(** Lines 495-500: the text split on "." *)
Definition date_of_parts (date_str : string) : result (option date) :=
  let parts := Text.split "." (Text.strip date_str) in
  if (List.length parts =? 3)%nat then
    (let? year := py_int (nth 0 parts "") in
     let? month := py_int (nth 1 parts "") in
     let? day := py_int (nth 2 parts "") in
     let? d := datetime_ymd year month day in
     Ok (Some d))%result
  else Ok None.

(** Lines 507-514: the first format that parses. *)
Fixpoint try_formats (date_str : string) (formats : list string) : option date :=
  match formats with
  | date_format :: rest =>
      match Strptime.strptime (Text.strip date_str) date_format with
      | Ok d => Some d
      | Raise _ => try_formats date_str rest
      end
  | [] => None
  end.

(** Lines 492-502: the text is split only when it holds a "."; the three
    exception classes of the inner handler leave the date unset. *)
Definition split_step (date_str : string) : result (option date) :=
  if Text.contains "." date_str then
    try_except (date_of_parts date_str)
      (fun e => is_ValueError e || is_TypeError e || is_IndexError e)
      (fun _ => Ok None)
  else Ok None.

Definition normalize_date (today : date) (cell : pyval) : date :=
  let date_str := py_str cell in
  let body : result date :=
    (let? order_date :=
       match cell with
       | PDateTime d _ => Ok (Some d)
       | _ => split_step date_str
       end in
     let order_date :=
       match order_date with
       | None => try_formats date_str date_formats
       | Some d => Some d
       end in
     Ok (match order_date with
         | None => today
         | Some d => d
         end))%result in
  match body with
  | Ok d => d
  | Raise _ => today
  end.

(** A cell as the worksheet reader builds it: a datetime is a real one. *)
Definition wf_cell (cell : pyval) : Prop :=
  match cell with
  | PDateTime d _ => valid_date d = true
  | _ => True
  end.

(** ** The mapped classes (models.py) *)

Module Supplier.
Record t : Type := Build
  { id : option Z; name : option string; contact : option string;
    address : option string; is_deleted : bool }.
Definition attrs : list string :=
  ["id"; "name"; "contact"; "address"; "is_deleted"; "orders"].
End Supplier.

Module Item.
Record t : Type := Build
  { id : option Z; name : option string; description : option string;
    price : option Py.float; vat_excluded : bool; is_deleted : bool }.
Definition attrs : list string :=
  ["id"; "name"; "description"; "price"; "vat_excluded"; "is_deleted"; "orders"].
End Item.

Module Unit.
Record t : Type := Build
  { id : option Z; name : option string; description : option string;
    is_deleted : bool }.
Definition attrs : list string :=
  ["id"; "name"; "description"; "is_deleted"; "orders"].
End Unit.

Module Order.
Record t : Type := Build
  { id : option Z; supplier_id : option Z; item_id : option Z; unit_id : option Z;
    quantity : option Py.float; price : option Py.float; total : option Py.float;
    payment_cycle : option string; payment_method : option string;
    client : option string; notes : option string; date : option string;
    is_deleted : bool;
    approval_status : option string; approved_by : option string;
    approved_at : option string; rejection_reason : option string }.
Definition attrs : list string :=
  ["id"; "supplier_id"; "item_id"; "unit_id"; "quantity"; "price"; "total";
   "payment_cycle"; "payment_method"; "client"; "notes"; "date"; "is_deleted";
   "approval_status"; "approved_by"; "approved_at"; "rejection_reason";
   "supplier"; "item"; "unit"].

Definition set_supplier_id (v : option Z) (o : t) : t :=
  Build (id o) v (item_id o) (unit_id o) (quantity o) (price o) (total o)
    (payment_cycle o) (payment_method o) (client o) (notes o) (date o)
    (is_deleted o) (approval_status o) (approved_by o) (approved_at o)
    (rejection_reason o).
Definition set_item_id (v : option Z) (o : t) : t :=
  Build (id o) (supplier_id o) v (unit_id o) (quantity o) (price o) (total o)
    (payment_cycle o) (payment_method o) (client o) (notes o) (date o)
    (is_deleted o) (approval_status o) (approved_by o) (approved_at o)
    (rejection_reason o).
Definition set_unit_id (v : option Z) (o : t) : t :=
  Build (id o) (supplier_id o) (item_id o) v (quantity o) (price o) (total o)
    (payment_cycle o) (payment_method o) (client o) (notes o) (date o)
    (is_deleted o) (approval_status o) (approved_by o) (approved_at o)
    (rejection_reason o).
Definition set_approval_status (v : option string) (o : t) : t :=
  Build (id o) (supplier_id o) (item_id o) (unit_id o) (quantity o) (price o)
    (total o) (payment_cycle o) (payment_method o) (client o) (notes o) (date o)
    (is_deleted o) v (approved_by o) (approved_at o) (rejection_reason o).
Definition set_approved_by (v : option string) (o : t) : t :=
  Build (id o) (supplier_id o) (item_id o) (unit_id o) (quantity o) (price o)
    (total o) (payment_cycle o) (payment_method o) (client o) (notes o) (date o)
    (is_deleted o) (approval_status o) v (approved_at o) (rejection_reason o).
Definition set_approved_at (v : option string) (o : t) : t :=
  Build (id o) (supplier_id o) (item_id o) (unit_id o) (quantity o) (price o)
    (total o) (payment_cycle o) (payment_method o) (client o) (notes o) (date o)
    (is_deleted o) (approval_status o) (approved_by o) v (rejection_reason o).
Definition set_rejection_reason (v : option string) (o : t) : t :=
  Build (id o) (supplier_id o) (item_id o) (unit_id o) (quantity o) (price o)
    (total o) (payment_cycle o) (payment_method o) (client o) (notes o) (date o)
    (is_deleted o) (approval_status o) (approved_by o) (approved_at o) v.
End Order.

(** The constructor every class inherits from the declarative base: a
    keyword that is not an attribute of the class is a [TypeError]; [obj] is
    the instance with the keywords set. *)
Definition declarative_init {A} (cls_name : string) (attrs kwargs : list string)
    (obj : A) : result A :=
  match find (fun k => negb (existsb (String.eqb k) attrs)) kwargs with
  | Some k =>
      Raise (TypeError ("'" ++ k ++ "' is an invalid keyword argument for " ++ cls_name))
  | None => Ok obj
  end.

(** The value SQLite holds in a text column for a Python value written to
    it: the value goes to the driver as it is.  A bool is bound as the int 0
    or 1, an int must fit 64 bits, a date and a datetime go through the
    default adapters ([isoformat], for a datetime with a blank between date
    and time, the microseconds left out when they are zero), other classes
    are refused. *)
Definition bind_text (v : pyval) : result (option string) :=
  match v with
  | PNone => Ok None
  | PBool b => Ok (Some (if b then "1" else "0"))
  | PInt n =>
      if (- 2 ^ 63 <=? n) && (n <? 2 ^ 63) then Ok (Some (Text.of_Z n))
      else Raise (OverflowError "Python int too large to convert to SQLite INTEGER")
  | PFloat _ _ q => Ok (Some q)
  | PStr s => Ok (Some s)
  | PDateTime _ r => Ok (Some r)
  | PDate d => Ok (Some (isoformat d))
  | PObject _ _ _ => Raise (InterfaceError "Error binding parameter: type not supported")
  end.

(** The text a name column is compared with in [column == value].  The
    comparison takes its type from the Python value; for a datetime that is
    the DateTime type, which writes the microseconds always, six digits,
    where the INSERT above leaves them out when they are zero.  The text of
    a datetime is 'YYYY-MM-DD HH:MM:SS', followed by '.ffffff' when the
    microseconds are not zero.  An object of another class is compared as
    the text its type renders, when it has one, and is handed to the driver
    otherwise.  Every other value is compared as the text it is stored as. *)
Definition lookup_text (v : pyval) : result (option string) :=
  match v with
  | PDateTime _ r => Ok (Some (if Text.contains "." r then r else r ++ ".000000"))
  | PObject _ _ (Some t) => Ok (Some t)
  | _ => bind_text v
  end.

(** The cells that are looked up under the text they are stored as: all but
    a datetime and an object of another class. *)
Definition same_text (v : pyval) : bool :=
  match v with
  | PDateTime _ _ | PObject _ _ _ => false
  | _ => true
  end.

(** ** The database and the session (database.py) *)

Record tables : Type := mktables
  { suppliers : list Supplier.t; items : list Item.t;
    units : list Unit.t; orders : list Order.t }.

Inductive relation : Type := RSupplier | RItem | RUnit.

(** What the session holds back until the next flush. *)
Inductive change : Type :=
| AddSupplier (s : Supplier.t)
| AddItem (i : Item.t)
| AddUnit (u : Unit.t)
| AddOrder (o : Order.t)
| SetOrder (o : Order.t)
| Relink (order_id : option Z) (rel : relation) (target : option Z).

(** [committed]: the database file; [working]: the tables as the open
    transaction sees them; [pending]: changes not flushed yet. *)
Record session : Type := mksession
  { committed : tables; working : tables; pending : list change }.

(** [SessionLocal()] *)
Definition SessionLocal (store : tables) : session := mksession store store [].

Definition opt_Z_eqb (a b : option Z) : bool :=
  match a, b with
  | Some x, Some y => x =? y
  | None, None => true
  | _, _ => false
  end.

(** [column == value] as SQLAlchemy renders it: [IS NULL] for [None]. *)
Definition opt_str_eqb (a b : option string) : bool :=
  match a, b with
  | Some x, Some y => String.eqb x y
  | None, None => true
  | _, _ => false
  end.

(** The rowid SQLite gives a new row: one more than the largest in use. *)
Definition next_id (ids : list (option Z)) : Z :=
  match flat_map (fun i => match i with Some k => [k] | None => [] end) ids with
  | [] => 1
  | k :: ks => fold_left Z.max ks k + 1
  end.

(** The primary key of a new row: the one given, if free. *)
Definition new_key (table : string) (given : option Z) (ids : list (option Z)) : result Z :=
  match given with
  | Some k =>
      if existsb (opt_Z_eqb (Some k)) ids
      then Raise (IntegrityError ("UNIQUE constraint failed: " ++ table ++ ".id"))
      else Ok k
  | None => Ok (next_id ids)
  end.

(** [name = Column(String, unique=True)]: NULLs do not collide. *)
Definition unique_name (table : string) (nm : option string) (names : list (option string))
    : result unit :=
  match nm with
  | Some _ =>
      if existsb (opt_str_eqb nm) names
      then Raise (IntegrityError ("UNIQUE constraint failed: " ++ table ++ ".name"))
      else Ok tt
  | None => Ok tt
  end.

Definition insert_supplier (s : Supplier.t) (t : tables) : result (Supplier.t * tables) :=
  (let? k := new_key "suppliers" (Supplier.id s) (map Supplier.id (suppliers t)) in
   let? _ := unique_name "suppliers" (Supplier.name s) (map Supplier.name (suppliers t)) in
   let row := Supplier.Build (Some k) (Supplier.name s) (Supplier.contact s)
                (Supplier.address s) (Supplier.is_deleted s) in
   Ok (row, mktables (suppliers t ++ [row]) (items t) (units t) (orders t)))%result.

Definition insert_item (i : Item.t) (t : tables) : result (Item.t * tables) :=
  (let? k := new_key "items" (Item.id i) (map Item.id (items t)) in
   let? _ := unique_name "items" (Item.name i) (map Item.name (items t)) in
   let row := Item.Build (Some k) (Item.name i) (Item.description i) (Item.price i)
                (Item.vat_excluded i) (Item.is_deleted i) in
   Ok (row, mktables (suppliers t) (items t ++ [row]) (units t) (orders t)))%result.

Definition insert_unit (u : Unit.t) (t : tables) : result (Unit.t * tables) :=
  (let? k := new_key "units" (Unit.id u) (map Unit.id (units t)) in
   let? _ := unique_name "units" (Unit.name u) (map Unit.name (units t)) in
   let row := Unit.Build (Some k) (Unit.name u) (Unit.description u) (Unit.is_deleted u) in
   Ok (row, mktables (suppliers t) (items t) (units t ++ [row]) (orders t)))%result.

Definition insert_order (o : Order.t) (t : tables) : result (Order.t * tables) :=
  (let? k := new_key "orders" (Order.id o) (map Order.id (orders t)) in
   let row := Order.Build (Some k) (Order.supplier_id o) (Order.item_id o)
                (Order.unit_id o) (Order.quantity o) (Order.price o) (Order.total o)
                (Order.payment_cycle o) (Order.payment_method o) (Order.client o)
                (Order.notes o) (Order.date o) (Order.is_deleted o)
                (Order.approval_status o) (Order.approved_by o) (Order.approved_at o)
                (Order.rejection_reason o) in
   Ok (row, mktables (suppliers t) (items t) (units t) (orders t ++ [row])))%result.

(** UPDATE orders SET ... WHERE id = [key]: the row of that key. *)
Fixpoint update_order (key : option Z) (f : Order.t -> Order.t) (l : list Order.t)
    : list Order.t :=
  match l with
  | o :: l' =>
      if opt_Z_eqb (Order.id o) key then f o :: l' else o :: update_order key f l'
  | [] => []
  end.

Definition relink (rel : relation) (target : option Z) (o : Order.t) : Order.t :=
  match rel with
  | RSupplier => Order.set_supplier_id target o
  | RItem => Order.set_item_id target o
  | RUnit => Order.set_unit_id target o
  end.

Definition with_orders (t : tables) (l : list Order.t) : tables :=
  mktables (suppliers t) (items t) (units t) l.

Definition apply_change (c : change) (t : tables) : result tables :=
  match c with
  | AddSupplier s => (let? r := insert_supplier s t in Ok (snd r))%result
  | AddItem i => (let? r := insert_item i t in Ok (snd r))%result
  | AddUnit u => (let? r := insert_unit u t in Ok (snd r))%result
  | AddOrder o => (let? r := insert_order o t in Ok (snd r))%result
  | SetOrder o => Ok (with_orders t (update_order (Order.id o) (fun _ => o) (orders t)))
  | Relink key rel target =>
      Ok (with_orders t (update_order key (relink rel target) (orders t)))
  end.

Fixpoint apply_changes (cs : list change) (t : tables) : result tables :=
  match cs with
  | c :: cs' => (let? t' := apply_change c t in apply_changes cs' t')%result
  | [] => Ok t
  end.

(** The session monad: a handler step returns a value or raises, and leaves
    a session either way. *)
Definition M (A : Type) : Type := session -> result A * session.

Definition ret {A} (a : A) : M A := fun db => (Ok a, db).
Definition raise {A} (e : exn) : M A := fun db => (Raise e, db).
Definition lift {A} (r : result A) : M A := fun db => (r, db).
Definition bind {A B} (m : M A) (k : A -> M B) : M B :=
  fun db =>
    match m db with
    | (Ok a, db') => k a db'
    | (Raise e, db') => (Raise e, db')
    end.

Declare Scope session_scope.
Delimit Scope session_scope with session.
Notation "x <- c ;; k" := (bind c (fun x => k))
  (at level 61, c at next level, right associativity) : session_scope.
Notation "c ;;; k" := (bind c (fun _ => k))
  (at level 61, right associativity) : session_scope.
Open Scope session_scope.

(** [try: body except Exception as e: handler(e)] *)
Definition try_catch {A} (body : M A) (handler : exn -> M A) : M A :=
  fun db =>
    match body db with
    | (Ok a, db') => (Ok a, db')
    | (Raise e, db') => handler e db'
    end.

(** [db.rollback()] *)
Definition db_rollback : M unit :=
  fun db => (Ok tt, mksession (committed db) (committed db) []).

(** [db.close()] in [get_db]: the open transaction is abandoned. *)
Definition db_close (db : session) : session :=
  mksession (committed db) (committed db) [].

(** [db.add(obj)] and the cascade of an assignment to a relationship. *)
Definition db_add (c : change) : M unit :=
  fun db => (Ok tt, mksession (committed db) (working db) (pending db ++ [c])).

(** [db.flush()]: a statement that fails takes the transaction with it. *)
Definition db_flush : M unit :=
  fun db =>
    match apply_changes (pending db) (working db) with
    | Ok t => (Ok tt, mksession (committed db) t [])
    | Raise e => (Raise e, mksession (committed db) (committed db) [])
    end.

(** [db.commit()] *)
Definition db_commit : M unit :=
  db_flush ;;;
  fun db => (Ok tt, mksession (working db) (working db) []).

(** [db.add(obj); db.flush()]: [obj] comes back with its key. *)
Definition flush_new {A} (insert : A -> tables -> result (A * tables)) (obj : A) : M A :=
  db_flush ;;;
  fun db =>
    match insert obj (working db) with
    | Ok (row, t) => (Ok row, mksession (committed db) t [])
    | Raise e => (Raise e, mksession (committed db) (committed db) [])
    end.

(** [db.query(cls).filter(p).first()] *)
Definition query_first {A} (table : tables -> list A) (p : A -> bool) : M (option A) :=
  fun db => (Ok (find p (table (working db))), db).

(** [get_db]: one session per request, closed when the handler is done. *)
Definition get_db {A} (handler : M A) (store : tables) : result A * tables :=
  let db := SessionLocal store in
  let '(r, db') := handler db in
  (r, committed (db_close db')).

(** ** Request bodies *)

Module SupplierBase.
Record t : Type := Build
  { name : string; contact : option string; address : option string }.
End SupplierBase.

(** An uploaded file: its name, and the rows of the active sheet as
    [load_workbook] yields them (or the exception it raises). *)
Module UploadFile.
Record t : Type := Build
  { filename : string; workbook : result (list (list pyval)) }.
End UploadFile.

(** ** [create_supplier] (main.py, lines 185-218) *)

(** [models.Supplier.is_deleted is False]: the identity of the column
    attribute with the constant, a Python bool computed before the query
    is built. *)
Definition is_deleted_is_False : bool := false.

Definition create_supplier (supplier : SupplierBase.t) : M Supplier.t :=
  try_catch
    (existing_supplier <-
       query_first suppliers
         (fun s => opt_str_eqb (Supplier.name s) (Some (SupplierBase.name supplier))
                   && is_deleted_is_False) ;;
     match existing_supplier with
     | Some _ => raise (HTTPException 400 "already_exists")
     | None =>
         db_supplier <-
           lift (declarative_init "Supplier" Supplier.attrs
                   ["name"; "contact"; "address"; "is_deleted"]
                   (Supplier.Build None (Some (SupplierBase.name supplier))
                      (SupplierBase.contact supplier)
                      (SupplierBase.address supplier) false)) ;;
         db_supplier <- flush_new insert_supplier db_supplier ;;
         db_commit ;;;
         ret db_supplier
     end)
    (fun e =>
       db_rollback ;;;
       if is_HTTPException e then raise e
       else if Text.contains "UNIQUE constraint failed" (exn_str e)
            then raise (HTTPException 400 "already_exists")
            else raise (HTTPException 500 (exn_str e))).

(** ** [read_orders] (main.py, lines 350-376) *)

Definition deleted_name : string := "삭제됨".

(** An [Order] with its three relationships loaded. *)
Module Loaded.
Record t : Type := Build
  { row : Order.t; supplier : option Supplier.t;
    item : option Item.t; unit : option Unit.t }.
End Loaded.

Definition find_by_id {A} (id : A -> option Z) (key : option Z) (l : list A) : option A :=
  match key with
  | Some _ => find (fun r => opt_Z_eqb (id r) key) l
  | None => None
  end.

Definition joinedload (t : tables) (o : Order.t) : Loaded.t :=
  Loaded.Build o
    (find_by_id Supplier.id (Order.supplier_id o) (suppliers t))
    (find_by_id Item.id (Order.item_id o) (items t))
    (find_by_id Unit.id (Order.unit_id o) (units t)).

(** [not rel or rel.is_deleted] *)
Definition gone {A} (is_deleted : A -> bool) (rel : option A) : bool :=
  match rel with
  | Some r => is_deleted r
  | None => true
  end.

Definition placeholder_supplier : Supplier.t :=
  Supplier.Build (Some 0) (Some deleted_name) None None false.
Definition placeholder_item : Item.t :=
  Item.Build (Some 0) (Some deleted_name) None None false false.
Definition placeholder_unit : Unit.t :=
  Unit.Build (Some 0) (Some deleted_name) None false.

(** The body of the loop, lines 366-371.  Assigning a new object to a
    relationship puts it in the session and marks the order changed. *)
Definition mask_deleted (order : Loaded.t) : M Loaded.t :=
  order <-
    (if gone Supplier.is_deleted (Loaded.supplier order) then
       db_add (AddSupplier placeholder_supplier) ;;;
       db_add (Relink (Order.id (Loaded.row order)) RSupplier (Some 0)) ;;;
       ret (Loaded.Build (Loaded.row order) (Some placeholder_supplier) (Loaded.item order) (Loaded.unit order))
     else ret order) ;;
  order <-
    (if gone Item.is_deleted (Loaded.item order) then
       db_add (AddItem placeholder_item) ;;;
       db_add (Relink (Order.id (Loaded.row order)) RItem (Some 0)) ;;;
       ret (Loaded.Build (Loaded.row order) (Loaded.supplier order) (Some placeholder_item) (Loaded.unit order))
     else ret order) ;;
  if gone Unit.is_deleted (Loaded.unit order) then
    db_add (AddUnit placeholder_unit) ;;;
    db_add (Relink (Order.id (Loaded.row order)) RUnit (Some 0)) ;;;
    ret (Loaded.Build (Loaded.row order) (Loaded.supplier order) (Loaded.item order) (Some placeholder_unit))
  else ret order.

Fixpoint for_each {A B} (f : A -> M B) (l : list A) : M (list B) :=
  match l with
  | a :: l' => b <- f a ;; bs <- for_each f l' ;; ret (b :: bs)
  | [] => ret []
  end.

Definition query_orders : M (list Loaded.t) :=
  fun db =>
    (Ok (map (joinedload (working db))
           (filter (fun o => negb (Order.is_deleted o)) (orders (working db)))),
     db).

Definition read_orders : M (list Loaded.t) :=
  try_catch
    (orders <- query_orders ;;
     for_each mask_deleted orders)
    (fun e => raise (HTTPException 500 (exn_str e))).

(** ** The response of GET /orders/ (main.py, lines 57-131 and 350)

    [response_model=List[OrderResponse]]: what the handler returns is
    validated against the response model, every field read off the object
    as an attribute ([from_attributes]).  A field without a default whose
    attribute the object does not have, or holds None, fails the
    validation. *)

Module SupplierResponse.
Record t : Type := Build
  { name : string; contact : option string; address : option string; id : Z }.
End SupplierResponse.

Module ItemResponse.
Record t : Type := Build
  { name : string; description : option string; price : option Py.float;
    vat_excluded : option bool; id : Z }.
End ItemResponse.

Module UnitResponse.
Record t : Type := Build { name : string; description : option string; id : Z }.
End UnitResponse.

Module OrderResponse.
Record t : Type := Build
  { id : Z; date : option string;
    supplier_id : Z; item_id : Z; unit_id : Z;
    quantity : Py.float; price : Py.float; total : Py.float;
    payment_schedule : string; purchase_cycle : string; client : string;
    notes : option string;
    supplier : SupplierResponse.t; item : ItemResponse.t; unit : UnitResponse.t;
    approval_status : option string; approved_by : option string;
    approved_at : option string; rejection_reason : option string }.
End OrderResponse.

(** [getattr(order, name)] for the attributes of [models.Order] that hold a
    text; the outer [None] is the attribute the class does not have. *)
Definition getattr_str (o : Order.t) (name : string) : option (option string) :=
  if String.eqb name "payment_cycle" then Some (Order.payment_cycle o)
  else if String.eqb name "payment_method" then Some (Order.payment_method o)
  else if String.eqb name "client" then Some (Order.client o)
  else if String.eqb name "notes" then Some (Order.notes o)
  else if String.eqb name "date" then Some (Order.date o)
  else if String.eqb name "approval_status" then Some (Order.approval_status o)
  else if String.eqb name "approved_by" then Some (Order.approved_by o)
  else if String.eqb name "approved_at" then Some (Order.approved_at o)
  else if String.eqb name "rejection_reason" then Some (Order.rejection_reason o)
  else None.

(** A field without a default: the attribute is there and is not None. *)
Definition required {A} (attr : option (option A)) : option A :=
  match attr with
  | Some (Some a) => Some a
  | _ => None
  end.

(** A field [Optional[...] = None]: a missing attribute is the default. *)
Definition optional {A} (attr : option (option A)) : option A :=
  match attr with
  | Some a => a
  | None => None
  end.

Definition obind {A B} (o : option A) (k : A -> option B) : option B :=
  match o with
  | Some a => k a
  | None => None
  end.

Notation "'let!' x ':=' c 'in' k" := (obind c (fun x => k))
  (at level 10, x name, c at level 200, k at level 200).

(** [SupplierResponse], [ItemResponse] and [UnitResponse] read off a row;
    [None] is the validation error. *)
Definition supplier_response (s : Supplier.t) : option SupplierResponse.t :=
  let! name := Supplier.name s in
  let! id := Supplier.id s in
  Some (SupplierResponse.Build name (Supplier.contact s) (Supplier.address s) id).

Definition item_response (i : Item.t) : option ItemResponse.t :=
  let! name := Item.name i in
  let! id := Item.id i in
  Some (ItemResponse.Build name (Item.description i) (Item.price i)
          (Some (Item.vat_excluded i)) id).

Definition unit_response (u : Unit.t) : option UnitResponse.t :=
  let! name := Unit.name u in
  let! id := Unit.id u in
  Some (UnitResponse.Build name (Unit.description u) id).

(** [OrderResponse] read off an order as the handler returns it, the fields
    in the order of the class (lines 109-131). *)
Definition order_response (order : Loaded.t) : option OrderResponse.t :=
  let o := Loaded.row order in
  let! id := Order.id o in
  let date := optional (getattr_str o "date") in
  let! supplier_id := Order.supplier_id o in
  let! item_id := Order.item_id o in
  let! unit_id := Order.unit_id o in
  let! quantity := Order.quantity o in
  let! price := Order.price o in
  let! total := Order.total o in
  let! payment_schedule := required (getattr_str o "payment_schedule") in
  let! purchase_cycle := required (getattr_str o "purchase_cycle") in
  let! client := required (getattr_str o "client") in
  let notes := optional (getattr_str o "notes") in
  let! supplier := obind (Loaded.supplier order) supplier_response in
  let! item := obind (Loaded.item order) item_response in
  let! unit := obind (Loaded.unit order) unit_response in
  Some (OrderResponse.Build id date supplier_id item_id unit_id quantity price total
          payment_schedule purchase_cycle client notes supplier item unit
          (optional (getattr_str o "approval_status"))
          (optional (getattr_str o "approved_by"))
          (optional (getattr_str o "approved_at"))
          (optional (getattr_str o "rejection_reason"))).

(** [List[OrderResponse]]: every element validates, or the list does not. *)
Fixpoint orders_response (orders : list Loaded.t) : option (list OrderResponse.t) :=
  match orders with
  | order :: rest =>
      let! r := order_response order in
      let! rs := orders_response rest in
      Some (r :: rs)
  | [] => Some []
  end.

(** What the client is answered: the body, the status and detail of an
    [HTTPException], or 500 Internal Server Error. *)
Inductive response (A : Type) : Type :=
| Answer (body : A)
| Error (status_code : Z) (detail : string)
| InternalServerError.
Arguments Answer {A} body.
Arguments Error {A} status_code detail.
Arguments InternalServerError {A}.

(** A route with a response model: the handler runs in a session of its
    own; what it returns is validated, and a result that does not validate
    is answered like any exception that is not an [HTTPException]. *)
Definition route {A B} (response_model : A -> option B) (handler : M A) (store : tables)
    : response B * tables :=
  let '(r, store') := get_db handler store in
  (match r with
   | Ok a =>
       match response_model a with
       | Some b => Answer b
       | None => InternalServerError
       end
   | Raise (HTTPException status_code detail) => Error status_code detail
   | Raise _ => InternalServerError
   end,
   store').

(** ** [approve_order] and [reject_order] (main.py, lines 652-684)

    [now] is [datetime.now().strftime("%y-%m-%d %H:%M")]. *)

Definition approver : string := "이지은".

Definition approve_order (now : string) (order_id : Z) (password : string) : M string :=
  if negb (String.eqb password "admin") then raise (HTTPException 401 "Invalid password")
  else
    order <- query_first orders (fun o => opt_Z_eqb (Order.id o) (Some order_id)) ;;
    match order with
    | None => raise (HTTPException 404 "Order not found")
    | Some order =>
        let order := Order.set_approval_status (Some "approved") order in
        let order := Order.set_approved_by (Some approver) order in
        let order := Order.set_approved_at (Some now) order in
        db_add (SetOrder order) ;;;
        db_commit ;;;
        ret "Order approved successfully"
    end.

Definition reject_order (now : string) (order_id : Z) (reason : string) : M string :=
  order <- query_first orders (fun o => opt_Z_eqb (Order.id o) (Some order_id)) ;;
  match order with
  | None => raise (HTTPException 404 "Order not found")
  | Some order =>
      let order := Order.set_approval_status (Some "rejected") order in
      let order := Order.set_rejection_reason (Some reason) order in
      let order := Order.set_approved_at (Some now) order in
      db_add (SetOrder order) ;;;
      db_commit ;;;
      ret "Order rejected successfully"
  end.

(** ** [upload_orders] (main.py, lines 469-578) *)

(** [row[i]] *)
Definition index (row : list pyval) (i : nat) : M pyval :=
  match nth_error row i with
  | Some v => ret v
  | None => raise (IndexError "tuple index out of range")
  end.

Definition vat_marker : string := "부가세별도".

(** Lines 524-531 *)
Definition reconcile_supplier (row : list pyval) : M Supplier.t :=
  cell <- index row 1 ;;
  key <- lift (lookup_text cell) ;;
  supplier <- query_first suppliers (fun s => opt_str_eqb (Supplier.name s) key) ;;
  match supplier with
  | Some supplier => ret supplier
  | None =>
      contact <- index row 9 ;;
      name <- lift (bind_text cell) ;;
      contact <- lift (bind_text contact) ;;
      supplier <- lift (declarative_init "Supplier" Supplier.attrs ["name"; "contact"]
                          (Supplier.Build None name contact None false)) ;;
      flush_new insert_supplier supplier
  end.

(** Lines 533-545 *)
Definition reconcile_item (row : list pyval) : M Item.t :=
  cell <- index row 2 ;;
  key <- lift (lookup_text cell) ;;
  item <- query_first items (fun i => opt_str_eqb (Item.name i) key) ;;
  match item with
  | Some item => ret item
  | None =>
      notes <- index row 10 ;;
      let notes := str_or notes "" in
      let vat_excluded := Text.contains vat_marker notes in
      price <- index row 3 ;;
      price <- lift (get_float_value price) ;;
      name <- lift (bind_text cell) ;;
      item <- lift (declarative_init "Item" Item.attrs
                      ["name"; "price"; "vat_excluded"; "description"]
                      (Item.Build None name
                         (if vat_excluded then Some vat_marker else None)
                         (Some price) vat_excluded false)) ;;
      flush_new insert_item item
  end.

(** Lines 547-553; a new unit gets the server default of [description]. *)
Definition reconcile_unit (row : list pyval) : M Unit.t :=
  unit_name <- index row 4 ;;
  let unit_name := str_or unit_name "개" in
  unit <- query_first units (fun u => opt_str_eqb (Unit.name u) (Some unit_name)) ;;
  match unit with
  | Some unit => ret unit
  | None =>
      unit <- lift (declarative_init "Unit" Unit.attrs ["name"]
                      (Unit.Build None (Some unit_name) (Some "") false)) ;;
      flush_new insert_unit unit
  end.

(** The keywords of the [models.Order(...)] call, lines 556-568. *)
Definition order_kwargs : list string :=
  ["date"; "supplier_id"; "item_id"; "unit_id"; "price"; "quantity"; "total";
   "payment_schedule"; "purchase_cycle"; "client"; "notes"].

(** One data row, lines 486-569. *)
Definition upload_row (today : date) (row : list pyval) : M Order.t :=
  date_cell <- index row 0 ;;
  let order_date := normalize_date today date_cell in
  supplier <- reconcile_supplier row ;;
  item <- reconcile_item row ;;
  unit <- reconcile_unit row ;;
  price <- index row 3 ;;
  price <- lift (get_float_value price) ;;
  quantity <- index row 5 ;;
  quantity <- lift (get_float_value quantity) ;;
  total <- index row 6 ;;
  total <- lift (get_float_value total) ;;
  payment_schedule <- index row 7 ;;
  purchase_cycle <- index row 8 ;;
  client <- index row 9 ;;
  notes <- index row 10 ;;
  lift (declarative_init "Order" Order.attrs order_kwargs
          (Order.Build None (Supplier.id supplier) (Item.id item) (Unit.id unit)
             (Some quantity) (Some price) (Some total)
             None (Some "계좌이체")
             (Some (str_or client "")) (Some (str_or notes ""))
             (Some (isoformat order_date)) false None None None None)).

(** The loop of lines 482-569: [any(row)] skips the empty rows. *)
Fixpoint upload_rows (today : date) (rows : list (list pyval)) (orders : list Order.t)
    : M (list Order.t) :=
  match rows with
  | row :: rest =>
      if negb (existsb truthy row) then upload_rows today rest orders
      else
        order <- upload_row today row ;;
        upload_rows today rest (orders ++ [order])
  | [] => ret orders
  end.

(** [db.add_all(orders)] *)
Fixpoint db_add_all (orders : list Order.t) : M unit :=
  match orders with
  | o :: rest => db_add (AddOrder o) ;;; db_add_all rest
  | [] => ret tt
  end.

Definition uploaded (n : nat) : string :=
  "Successfully uploaded " ++ Text.of_Z (Z.of_nat n) ++ " orders".

(** [iter_rows(min_row=2)]: the sheet without its first row. *)
Definition data_rows (sheet : list (list pyval)) : list (list pyval) := tl sheet.

Definition upload_orders (today : date) (file : UploadFile.t) : M string :=
  if negb (Text.endswith (UploadFile.filename file) ".xlsx")
  then raise (HTTPException 400 "Only .xlsx files are allowed")
  else
    try_catch
      (ws <- lift (UploadFile.workbook file) ;;
       orders <- upload_rows today (data_rows ws) [] ;;
       db_add_all orders ;;;
       db_commit ;;;
       ret (uploaded (List.length orders)))
      (fun e =>
         db_rollback ;;;
         raise (HTTPException 500 (exn_str e))).

(** ** What the list handler is to return, in the words of the specification

    Every order that is not soft-deleted, each relation that is missing or
    soft-deleted replaced by the placeholder of id 0. *)

Definition or_placeholder {A} (is_deleted : A -> bool) (placeholder : A) (rel : option A) : A :=
  match rel with
  | Some r => if is_deleted r then placeholder else r
  | None => placeholder
  end.

Definition masked_view (t : tables) (o : Order.t) : Loaded.t :=
  Loaded.Build o
    (Some (or_placeholder Supplier.is_deleted placeholder_supplier
             (find_by_id Supplier.id (Order.supplier_id o) (suppliers t))))
    (Some (or_placeholder Item.is_deleted placeholder_item
             (find_by_id Item.id (Order.item_id o) (items t))))
    (Some (or_placeholder Unit.is_deleted placeholder_unit
             (find_by_id Unit.id (Order.unit_id o) (units t)))).

Definition listing_spec (t : tables) : list Loaded.t :=
  map (masked_view t) (filter (fun o => negb (Order.is_deleted o)) (orders t)).

(** The order of a given key, as the handlers look it up. *)
Definition order_of (order_id : Z) (t : tables) : option Order.t :=
  find (fun o => opt_Z_eqb (Order.id o) (Some order_id)) (orders t).

(** The fields an approval or a rejection does not mention. *)
Definition same_payload (a b : Order.t) : Prop :=
  Order.id a = Order.id b /\ Order.supplier_id a = Order.supplier_id b /\
  Order.item_id a = Order.item_id b /\ Order.unit_id a = Order.unit_id b /\
  Order.quantity a = Order.quantity b /\ Order.price a = Order.price b /\
  Order.total a = Order.total b /\ Order.payment_cycle a = Order.payment_cycle b /\
  Order.payment_method a = Order.payment_method b /\ Order.client a = Order.client b /\
  Order.notes a = Order.notes b /\ Order.date a = Order.date b /\
  Order.is_deleted a = Order.is_deleted b.

(** The row an approval, and a rejection, writes back. *)
Definition approved (now : string) (o : Order.t) : Order.t :=
  Order.set_approved_at (Some now)
    (Order.set_approved_by (Some approver)
       (Order.set_approval_status (Some "approved") o)).

Definition rejected (now reason : string) (o : Order.t) : Order.t :=
  Order.set_approved_at (Some now)
    (Order.set_rejection_reason (Some reason)
       (Order.set_approval_status (Some "rejected") o)).

(** The fallback chain on the text of a cell that is not a datetime, in the
    words of the specification and over the text primitives alone.

    First the split on ".": the text holds a ".", and stripped and split
    there it has three parts, each an integer literal, that make a date of
    the calendar. *)
Definition date_between_dots (date_str : string) : option date :=
  if Text.contains "." date_str then
    match Text.split "." (Text.strip date_str) with
    | [y; m; d] =>
        match Py.int_of_str y, Py.int_of_str m, Py.int_of_str d with
        | Some y, Some m, Some d =>
            if valid_date (mkdate y m d) then Some (mkdate y m d) else None
        | _, _, _ => None
        end
    | _ => None
    end
  else None.

(** The stripped text parsed under one format. *)
Definition parsed_as (date_format date_str : string) : option date :=
  match Strptime.strptime (Text.strip date_str) date_format with
  | Ok d => Some d
  | Raise _ => None
  end.

(** Then "YYYY.MM.DD", then "YYYY-MM-DD", then "YYYY/MM/DD", then today. *)
Definition date_chain (today : date) (date_str : string) : date :=
  match date_between_dots date_str with
  | Some d => d
  | None =>
      match parsed_as "%Y.%m.%d" date_str with
      | Some d => d
      | None =>
          match parsed_as "%Y-%m-%d" date_str with
          | Some d => d
          | None =>
              match parsed_as "%Y/%m/%d" date_str with
              | Some d => d
              | None => today
              end
          end
      end
  end.

(** Find-or-create by name: the first row whose name is the text looked up,
    as it stands, or a new last row, named by the text the cell is stored
    as, when the table has no row of the text looked up. *)
Definition resolved_by_name {A} (name_of : A -> option string) (key : option string)
    (stored : result (option string)) (before after : list A) (r : A) : Prop :=
  (find (fun x => opt_str_eqb (name_of x) key) before = Some r /\ after = before) \/
  ((forall x, In x before -> name_of x <> key) /\
   after = (before ++ [r])%list /\ stored = Ok (name_of r)).

(** Steps that never touch the database file. *)
Definition keeps_committed {A} (m : M A) : Prop :=
  forall db, committed (snd (m db)) = committed db.

(** Steps that leave the database file alone whenever they raise. *)
Definition raises_clean {A} (m : M A) : Prop :=
  forall db e db', m db = (Raise e, db') -> committed db' = committed db.

(** Steps that raise on every session. *)
Definition always_raises {A} (m : M A) : Prop :=
  forall db, exists e db', m db = (Raise e, db').

(** A data row the handler can work through up to the order itself: eleven
    cells, each of a type SQLite can bind, and a price that converts. *)
Definition bindable (c : pyval) : bool :=
  match bind_text c with Ok _ => true | Raise _ => false end.

Definition data_row_ok (row : list pyval) : bool :=
  (List.length row =? 11)%nat && forallb bindable row &&
  match get_float_value (nth 3 row PNone) with Ok _ => true | Raise _ => false end.

(** The characters of the parts of a split, separators not counted. *)
Fixpoint total_length (parts : list (list ascii)) : nat :=
  match parts with
  | p :: ps => List.length p + total_length ps
  | [] => 0
  end.

(** ** Sample data *)

Module Sample.

Definition today : date := mkdate 2026 11 4.

Definition empty_store : tables := mktables [] [] [] [].

Definition deleted_acme : Supplier.t :=
  Supplier.Build (Some 1) (Some "ACME") None None true.

(** A store whose only supplier is soft-deleted. *)
Definition store_deleted_acme : tables := mktables [deleted_acme] [] [] [].

Definition header : list pyval :=
  [PStr "date"; PStr "supplier"; PStr "item"; PStr "price"; PStr "unit";
   PStr "quantity"; PStr "total"; PStr "schedule"; PStr "cycle"; PStr "client";
   PStr "notes"].

Definition acme_row : list pyval :=
  [PStr "2024.03.05"; PStr "ACME"; PStr "bolt"; PStr "1,234"; PStr "box";
   PInt 2; PInt 2468; PNone; PNone; PStr "010"; PNone].

Definition blank_row : list pyval :=
  [PNone; PNone; PStr ""; PInt 0; PNone; PNone; PNone; PNone; PNone; PNone; PNone].

Definition one_row_file : UploadFile.t :=
  UploadFile.Build "orders.xlsx" (Ok [header; blank_row; acme_row]).

Definition plain_order : Order.t :=
  Order.Build (Some 7) (Some 1) (Some 3) None None None None None
    (Some "계좌이체") None None None false None None None None.

Definition bolt : Item.t :=
  Item.Build (Some 3) (Some "bolt") None None false false.

(** Order 7 points at a soft-deleted supplier, a live item and no unit. *)
Definition store_order7 : tables :=
  mktables [deleted_acme] [bolt] [] [plain_order].

(** Order 8 has every column set and points at rows that are all there. *)
Definition acme : Supplier.t := Supplier.Build (Some 1) (Some "ACME") None None false.
Definition piece : Unit.t := Unit.Build (Some 1) (Some "개") (Some "") false.

Definition full_order : Order.t :=
  Order.Build (Some 8) (Some 1) (Some 3) (Some 1)
    (Some (S754_finite false 4503599627370496 (-51)))
    (Some (S754_finite false 4503599627370496 (-51)))
    (Some (S754_finite false 4503599627370496 (-50)))
    (Some "monthly") (Some "계좌이체") (Some "010") (Some "") (Some "2024-03-05")
    false None None None None.

Definition store_order8 : tables := mktables [acme] [bolt] [piece] [full_order].

End Sample.

(** ** The other request bodies of main.py *)

Module ItemBase.
Record t : Type := Build
  { name : string; description : option string; price : option Py.float;
    vat_excluded : option bool }.
End ItemBase.

Module UnitBase.
Record t : Type := Build { name : string; description : option string }.
End UnitBase.

Module OrderBase.
Record t : Type := Build
  { supplier_id : Z; item_id : Z; unit_id : Z;
    quantity : Py.float; price : Py.float; total : Py.float;
    payment_schedule : string; purchase_cycle : string; client : string;
    notes : option string; date : option string }.
End OrderBase.

Module OrderCreate.
Record t : Type := Build
  { supplier_name : string; item_name : string; unit_name : string;
    quantity : Py.float; price : Py.float; total : Py.float;
    payment_schedule : string; purchase_cycle : string; client : string;
    notes : option string; date : option string }.
End OrderCreate.

(** ** Writes the handlers below make besides inserts *)

(** [column.in_(ids)] *)
Definition id_in (ids : list Z) (key : option Z) : bool :=
  existsb (fun k => opt_Z_eqb key (Some k)) ids.

(** DELETE FROM table WHERE id IN (ids) *)
Definition delete_ids {A} (id : A -> option Z) (ids : list Z) (l : list A) : list A :=
  filter (fun r => negb (id_in ids (id r))) l.

(** DELETE FROM orders WHERE id = key, once for each object marked by
    [db.delete]. *)
Definition delete_marked (marked : list Order.t) (l : list Order.t) : list Order.t :=
  filter (fun r => negb (existsb (fun o => opt_Z_eqb (Order.id r) (Order.id o)) marked)) l.

(** Another row already carries the name: what UNIQUE refuses on UPDATE. *)
Definition name_taken {A} (id : A -> option Z) (name : A -> option string)
    (key : option Z) (nm : option string) (l : list A) : bool :=
  match nm with
  | Some _ => existsb (fun r => negb (opt_Z_eqb (id r) key) && opt_str_eqb (name r) nm) l
  | None => false
  end.

(** The row of key [key] replaced by [f] of it. *)
Fixpoint update_row {A} (id : A -> option Z) (key : option Z) (f : A -> A) (l : list A)
    : list A :=
  match l with
  | r :: l' => if opt_Z_eqb (id r) key then f r :: l' else r :: update_row id key f l'
  | [] => []
  end.

(** UPDATE suppliers SET name, contact, address WHERE id = the row's.  The
    exception carries the message of the driver (see [exn_str]). *)
Definition write_supplier (row : Supplier.t) (t : tables) : result tables :=
  if name_taken Supplier.id Supplier.name (Supplier.id row) (Supplier.name row) (suppliers t)
  then Raise (IntegrityError "UNIQUE constraint failed: suppliers.name")
  else Ok (mktables (update_row Supplier.id (Supplier.id row) (fun _ => row) (suppliers t))
             (items t) (units t) (orders t)).

(** UPDATE units SET name, description WHERE id = the row's.  The exception
    carries the message of the driver (see [exn_str]). *)
Definition write_unit (row : Unit.t) (t : tables) : result tables :=
  if name_taken Unit.id Unit.name (Unit.id row) (Unit.name row) (units t)
  then Raise (IntegrityError "UNIQUE constraint failed: units.name")
  else Ok (mktables (suppliers t) (items t)
             (update_row Unit.id (Unit.id row) (fun _ => row) (units t)) (orders t)).

(** A statement run in the open transaction, after what is pending: a
    statement that fails takes the transaction with it. *)
Definition execute (write : tables -> result tables) : M unit :=
  db_flush ;;;
  fun db =>
    match write (working db) with
    | Ok t => (Ok tt, mksession (committed db) t [])
    | Raise e => (Raise e, mksession (committed db) (committed db) [])
    end.

(** ** The remaining handlers of main.py *)

Module Api.

(** Lines 221-224, 277-280, 331-334: [db.query(cls).all()] *)
Definition read_suppliers : M (list Supplier.t) :=
  fun db => (Ok (suppliers (working db)), db).
Definition read_items : M (list Item.t) :=
  fun db => (Ok (items (working db)), db).
Definition read_units : M (list Unit.t) :=
  fun db => (Ok (units (working db)), db).

(** Lines 227-238 *)
Definition bulk_delete_suppliers (supplier_ids : list Z) : M string :=
  try_catch
    (execute (fun t => Ok (mktables (delete_ids Supplier.id supplier_ids (suppliers t))
                             (items t) (units t) (orders t))) ;;;
     db_commit ;;;
     ret "Suppliers deleted successfully")
    (fun e => db_rollback ;;; raise (HTTPException 400 (exn_str e))).

(** Lines 283-293 *)
Definition bulk_delete_items (item_ids : list Z) : M string :=
  try_catch
    (execute (fun t => Ok (mktables (suppliers t)
                             (delete_ids Item.id item_ids (items t))
                             (units t) (orders t))) ;;;
     db_commit ;;;
     ret "Items deleted successfully")
    (fun e => db_rollback ;;; raise (HTTPException 400 (exn_str e))).

(** Lines 337-347 *)
Definition bulk_delete_units (unit_ids : list Z) : M string :=
  try_catch
    (execute (fun t => Ok (mktables (suppliers t) (items t)
                             (delete_ids Unit.id unit_ids (units t)) (orders t))) ;;;
     db_commit ;;;
     ret "Units deleted successfully")
    (fun e => db_rollback ;;; raise (HTTPException 400 (exn_str e))).

(** Lines 241-274.  [vat_excluded] of the request is not passed on; the
    column default stands. *)
Definition create_item (item : ItemBase.t) : M Item.t :=
  try_catch
    (existing_item <-
       query_first items
         (fun i => opt_str_eqb (Item.name i) (Some (ItemBase.name item))
                   && is_deleted_is_False) ;;
     match existing_item with
     | Some _ => raise (HTTPException 400 "already_exists")
     | None =>
         db_item <-
           lift (declarative_init "Item" Item.attrs
                   ["name"; "description"; "price"; "is_deleted"]
                   (Item.Build None (Some (ItemBase.name item))
                      (ItemBase.description item) (ItemBase.price item) false false)) ;;
         db_item <- flush_new insert_item db_item ;;
         db_commit ;;;
         ret db_item
     end)
    (fun e =>
       db_rollback ;;;
       if is_HTTPException e then raise e
       else if Text.contains "UNIQUE constraint failed" (exn_str e)
            then raise (HTTPException 400 "already_exists")
            else raise (HTTPException 500 (exn_str e))).

(** [description]: a None is left out of the INSERT, so that the server
    default "" is stored. *)
Definition or_server_default (description : option string) : option string :=
  match description with
  | Some d => Some d
  | None => Some ""
  end.

(** Lines 296-328 *)
Definition create_unit (unit : UnitBase.t) : M Unit.t :=
  try_catch
    (existing_unit <-
       query_first units
         (fun u => opt_str_eqb (Unit.name u) (Some (UnitBase.name unit))
                   && is_deleted_is_False) ;;
     match existing_unit with
     | Some _ => raise (HTTPException 400 "already_exists")
     | None =>
         db_unit <-
           lift (declarative_init "Unit" Unit.attrs
                   ["name"; "description"; "is_deleted"]
                   (Unit.Build None (Some (UnitBase.name unit))
                      (or_server_default (UnitBase.description unit)) false)) ;;
         db_unit <- flush_new insert_unit db_unit ;;
         db_commit ;;;
         ret db_unit
     end)
    (fun e =>
       db_rollback ;;;
       if is_HTTPException e then raise e
       else if Text.contains "UNIQUE constraint failed" (exn_str e)
            then raise (HTTPException 400 "already_exists")
            else raise (HTTPException 500 (exn_str e))).

(** The keywords of the [models.Order(...)] call, lines 382-394. *)
Definition create_order_kwargs : list string :=
  ["supplier_id"; "item_id"; "unit_id"; "quantity"; "price"; "total";
   "payment_schedule"; "purchase_cycle"; "client"; "notes"; "date"].

(** Lines 379-402 *)
Definition create_order (order : OrderBase.t) : M Order.t :=
  try_catch
    (db_order <-
       lift (declarative_init "Order" Order.attrs create_order_kwargs
               (Order.Build None (Some (OrderBase.supplier_id order))
                  (Some (OrderBase.item_id order)) (Some (OrderBase.unit_id order))
                  (Some (OrderBase.quantity order)) (Some (OrderBase.price order))
                  (Some (OrderBase.total order)) None (Some "계좌이체")
                  (Some (OrderBase.client order)) (OrderBase.notes order)
                  (OrderBase.date order) false None None None None)) ;;
     db_order <- flush_new insert_order db_order ;;
     db_commit ;;;
     ret db_order)
    (fun e => db_rollback ;;; raise (HTTPException 500 (exn_str e))).

(** The order after lines 437-448: [payment_schedule] and [purchase_cycle]
    are not columns, so the two assignments stay on the Python object. *)
Definition updated_order (order : OrderCreate.t) (supplier : Supplier.t) (item : Item.t)
    (unit : Unit.t) (db_order : Order.t) : Order.t :=
  Order.Build (Order.id db_order)
    (Supplier.id supplier) (Item.id item) (Unit.id unit)
    (Some (OrderCreate.quantity order)) (Some (OrderCreate.price order))
    (Some (OrderCreate.total order))
    (Order.payment_cycle db_order) (Order.payment_method db_order)
    (Some (OrderCreate.client order)) (OrderCreate.notes order) (OrderCreate.date order)
    (Order.is_deleted db_order)
    (Order.approval_status db_order) (Order.approved_by db_order)
    (Order.approved_at db_order) (Order.rejection_reason db_order).

(** Lines 405-452 *)
Definition update_order (order_id : Z) (order : OrderCreate.t) : M Order.t :=
  db_order <- query_first orders (fun o => opt_Z_eqb (Order.id o) (Some order_id)) ;;
  match db_order with
  | None => raise (HTTPException 404 "Order not found")
  | Some db_order =>
      supplier <- query_first suppliers
                    (fun s => opt_str_eqb (Supplier.name s)
                                (Some (OrderCreate.supplier_name order))) ;;
      supplier <-
        match supplier with
        | Some supplier => ret supplier
        | None =>
            supplier <- lift (declarative_init "Supplier" Supplier.attrs ["name"]
                                (Supplier.Build None
                                   (Some (OrderCreate.supplier_name order))
                                   None None false)) ;;
            flush_new insert_supplier supplier
        end ;;
      item <- query_first items
                (fun i => opt_str_eqb (Item.name i) (Some (OrderCreate.item_name order))) ;;
      item <-
        match item with
        | Some item => ret item
        | None =>
            item <- lift (declarative_init "Item" Item.attrs ["name"]
                            (Item.Build None (Some (OrderCreate.item_name order))
                               None None false false)) ;;
            flush_new insert_item item
        end ;;
      unit <- query_first units
                (fun u => opt_str_eqb (Unit.name u) (Some (OrderCreate.unit_name order))) ;;
      unit <-
        match unit with
        | Some unit => ret unit
        | None =>
            unit <- lift (declarative_init "Unit" Unit.attrs ["name"]
                            (Unit.Build None (Some (OrderCreate.unit_name order))
                               (Some "") false)) ;;
            flush_new insert_unit unit
        end ;;
      let db_order := updated_order order supplier item unit db_order in
      db_add (SetOrder db_order) ;;;
      db_commit ;;;
      ret db_order
  end.

(** The loop of lines 458-461: the orders found are marked for deletion. *)
Fixpoint mark_orders (ids : list Z) (marked : list Order.t) : M (list Order.t) :=
  match ids with
  | order_id :: rest =>
      order <- query_first orders (fun o => opt_Z_eqb (Order.id o) (Some order_id)) ;;
      match order with
      | Some order => mark_orders rest (marked ++ [order])
      | None => mark_orders rest marked
      end
  | [] => ret marked
  end.

(** Lines 455-466: the marks are written by the flush of the commit. *)
Definition delete_orders (ids : list Z) : M string :=
  try_catch
    (marked <- mark_orders ids [] ;;
     execute (fun t => Ok (with_orders t (delete_marked marked (orders t)))) ;;;
     db_commit ;;;
     ret "Orders deleted successfully")
    (fun e => db_rollback ;;; raise (HTTPException 500 (exn_str e))).

(** Lines 581-596: the three fields of the body are written over the row;
    the exception of a failing commit is not handled here. *)
Definition update_supplier (supplier_id : Z) (supplier : SupplierBase.t) : M Supplier.t :=
  db_supplier <- query_first suppliers
                   (fun s => opt_Z_eqb (Supplier.id s) (Some supplier_id)) ;;
  match db_supplier with
  | None => raise (HTTPException 404 "Supplier not found")
  | Some db_supplier =>
      let db_supplier :=
        Supplier.Build (Supplier.id db_supplier) (Some (SupplierBase.name supplier))
          (SupplierBase.contact supplier) (SupplierBase.address supplier)
          (Supplier.is_deleted db_supplier) in
      execute (write_supplier db_supplier) ;;;
      db_commit ;;;
      ret db_supplier
  end.

(** Lines 634-636: a missing description becomes the empty text. *)
Definition or_empty (description : option string) : option string :=
  match description with
  | Some d => Some d
  | None => Some ""
  end.

(** Lines 613-649 *)
Definition update_unit (unit_id : Z) (unit : UnitBase.t) : M Unit.t :=
  fun db =>
    match
      (db_unit <- query_first units (fun u => opt_Z_eqb (Unit.id u) (Some unit_id)) ;;
       match db_unit with
       | None => raise (HTTPException 404 "Unit not found")
       | Some db_unit =>
           existing_unit <-
             query_first units
               (fun u => opt_str_eqb (Unit.name u) (Some (UnitBase.name unit))
                         && negb (opt_Z_eqb (Unit.id u) (Some unit_id))
                         && is_deleted_is_False) ;;
           match existing_unit with
           | Some _ => raise (HTTPException 400 "already_exists")
           | None =>
               let db_unit :=
                 Unit.Build (Unit.id db_unit) (Some (UnitBase.name unit))
                   (or_empty (UnitBase.description unit))
                   (Unit.is_deleted db_unit) in
               execute (write_unit db_unit) ;;;
               db_commit ;;;
               ret db_unit
           end
       end) db
    with
    | (Ok u, db') => (Ok u, db')
    | (Raise e, db') =>
        if is_HTTPException e then (Raise e, db')
        else (db_rollback ;;; raise (HTTPException 500 (exn_str e))) db'
    end.

End Api.

(** ** Integrity of a store *)

(** Primary keys: every row has one and no two rows share one. *)
Fixpoint keys_ok (ids : list (option Z)) : bool :=
  match ids with
  | Some k :: rest => negb (existsb (opt_Z_eqb (Some k)) rest) && keys_ok rest
  | None :: _ => false
  | [] => true
  end.

(** UNIQUE on a name column: no two rows share a name, NULLs apart. *)
Fixpoint names_ok (names : list (option string)) : bool :=
  match names with
  | n :: rest =>
      match n with
      | Some _ => negb (existsb (opt_str_eqb n) rest)
      | None => true
      end && names_ok rest
  | [] => true
  end.

(** What the schema of models.py guarantees of the four tables. *)
Definition integrity (t : tables) : bool :=
  keys_ok (map Supplier.id (suppliers t)) && names_ok (map Supplier.name (suppliers t)) &&
  keys_ok (map Item.id (items t)) && names_ok (map Item.name (items t)) &&
  keys_ok (map Unit.id (units t)) && names_ok (map Unit.name (units t)) &&
  keys_ok (map Order.id (orders t)).

(** ** More sample data *)

Module Sample2.

Definition beta : Supplier.t := Supplier.Build (Some 2) (Some "Beta") (Some "02-123") None false.
Definition box : Unit.t := Unit.Build (Some 1) (Some "box") (Some "") false.
Definition kg : Unit.t := Unit.Build (Some 2) (Some "kg") None false.

Definition order9 : Order.t :=
  Order.Build (Some 9) (Some 2) (Some 3) (Some 1) None None None None
    (Some "계좌이체") None None None false (Some "approved") (Some "이지은")
    (Some "26-11-01 09:00") None.

(** Two suppliers (one soft-deleted), one item, two units, orders 7 and 9. *)
Definition store : tables :=
  mktables [Sample.deleted_acme; beta] [Sample.bolt] [box; kg]
    [Sample.plain_order; order9].

Definition nuts : OrderCreate.t :=
  OrderCreate.Build "Beta" "nut" "kg" Py.zero Py.zero Py.zero
    "monthly" "weekly" "010" None (Some "2024-03-05").

End Sample2.

(** The supplier, and the unit, of a given key, as the handlers look them up. *)
Definition supplier_of (supplier_id : Z) (t : tables) : option Supplier.t :=
  find (fun s => opt_Z_eqb (Supplier.id s) (Some supplier_id)) (suppliers t).

Definition unit_of (unit_id : Z) (t : tables) : option Unit.t :=
  find (fun u => opt_Z_eqb (Unit.id u) (Some unit_id)) (units t).

(** ** Find-or-create as a function of the tables

    What the three lookups of [update_order] come to: the first row of the
    name, or a new last row under the next key. *)

Definition find_or_new_supplier (name : string) (t : tables) : Supplier.t * tables :=
  match find (fun s => opt_str_eqb (Supplier.name s) (Some name)) (suppliers t) with
  | Some s => (s, t)
  | None =>
      let row := Supplier.Build (Some (next_id (map Supplier.id (suppliers t))))
                   (Some name) None None false in
      (row, mktables (suppliers t ++ [row]) (items t) (units t) (orders t))
  end.

Definition find_or_new_item (name : string) (t : tables) : Item.t * tables :=
  match find (fun i => opt_str_eqb (Item.name i) (Some name)) (items t) with
  | Some i => (i, t)
  | None =>
      let row := Item.Build (Some (next_id (map Item.id (items t))))
                   (Some name) None None false false in
      (row, mktables (suppliers t) (items t ++ [row]) (units t) (orders t))
  end.

Definition find_or_new_unit (name : string) (t : tables) : Unit.t * tables :=
  match find (fun u => opt_str_eqb (Unit.name u) (Some name)) (units t) with
  | Some u => (u, t)
  | None =>
      let row := Unit.Build (Some (next_id (map Unit.id (units t))))
                   (Some name) (Some "") false in
      (row, mktables (suppliers t) (items t) (units t ++ [row]) (orders t))
  end.

(** The answer and the store [update_order] leaves for an order [o] found. *)
Definition update_order_result (order_id : Z) (order : OrderCreate.t) (o : Order.t)
    (t : tables) : Order.t * tables :=
  let '(s, t1) := find_or_new_supplier (OrderCreate.supplier_name order) t in
  let '(i, t2) := find_or_new_item (OrderCreate.item_name order) t1 in
  let '(u, t3) := find_or_new_unit (OrderCreate.unit_name order) t2 in
  let o' := Api.updated_order order s i u o in
  (o', with_orders t3 (update_order (Some order_id) (fun _ => o') (orders t3))).

(** ** The endpoints together *)

(** A request to one of the endpoints modelled above: every route of
    main.py but PUT /items/{item_id}.  [today] and [now] are what the
    handler reads off the clock. *)
Inductive request : Type :=
| POST_suppliers (supplier : SupplierBase.t)
| GET_suppliers
| DELETE_suppliers (supplier_ids : list Z)
| POST_items (item : ItemBase.t)
| GET_items
| DELETE_items (item_ids : list Z)
| POST_units (unit : UnitBase.t)
| GET_units
| DELETE_units (unit_ids : list Z)
| GET_orders
| POST_orders (order : OrderBase.t)
| PUT_orders (order_id : Z) (order : OrderCreate.t)
| DELETE_orders (ids : list Z)
| POST_orders_upload (today : date) (file : UploadFile.t)
| PUT_suppliers (supplier_id : Z) (supplier : SupplierBase.t)
| PUT_units (unit_id : Z) (unit : UnitBase.t)
| POST_orders_approve (now : string) (order_id : Z) (password : string)
| POST_orders_reject (now : string) (order_id : Z) (reason : string).

(** The store a request leaves: its handler run in a session of its own. *)
Definition serve (r : request) (store : tables) : tables :=
  match r with
  | POST_suppliers supplier => snd (get_db (create_supplier supplier) store)
  | GET_suppliers => snd (get_db Api.read_suppliers store)
  | DELETE_suppliers ids => snd (get_db (Api.bulk_delete_suppliers ids) store)
  | POST_items item => snd (get_db (Api.create_item item) store)
  | GET_items => snd (get_db Api.read_items store)
  | DELETE_items ids => snd (get_db (Api.bulk_delete_items ids) store)
  | POST_units unit => snd (get_db (Api.create_unit unit) store)
  | GET_units => snd (get_db Api.read_units store)
  | DELETE_units ids => snd (get_db (Api.bulk_delete_units ids) store)
  | GET_orders => snd (get_db read_orders store)
  | POST_orders order => snd (get_db (Api.create_order order) store)
  | PUT_orders order_id order => snd (get_db (Api.update_order order_id order) store)
  | DELETE_orders ids => snd (get_db (Api.delete_orders ids) store)
  | POST_orders_upload today file => snd (get_db (upload_orders today file) store)
  | PUT_suppliers supplier_id supplier =>
      snd (get_db (Api.update_supplier supplier_id supplier) store)
  | PUT_units unit_id unit => snd (get_db (Api.update_unit unit_id unit) store)
  | POST_orders_approve now order_id password =>
      snd (get_db (approve_order now order_id password) store)
  | POST_orders_reject now order_id reason =>
      snd (get_db (reject_order now order_id reason) store)
  end.

(** Requests served one after the other. *)
Definition serve_all (rs : list request) (store : tables) : tables :=
  fold_left (fun t r => serve r t) rs store.

(** The single writes a store can undergo: a new last row under the next key
    and a free name, rows deleted by key, a row written over under its own
    key and deleted flag. *)
Inductive step (t : tables) : tables -> Prop :=
| step_new_supplier name contact address :
    existsb (opt_str_eqb (Some name)) (map Supplier.name (suppliers t)) = false ->
    step t (mktables
              (suppliers t ++
               [Supplier.Build (Some (next_id (map Supplier.id (suppliers t))))
                  (Some name) contact address false])
              (items t) (units t) (orders t))
| step_new_item name description price :
    existsb (opt_str_eqb (Some name)) (map Item.name (items t)) = false ->
    step t (mktables (suppliers t)
              (items t ++
               [Item.Build (Some (next_id (map Item.id (items t))))
                  (Some name) description price false false])
              (units t) (orders t))
| step_new_unit name description :
    existsb (opt_str_eqb (Some name)) (map Unit.name (units t)) = false ->
    step t (mktables (suppliers t) (items t)
              (units t ++
               [Unit.Build (Some (next_id (map Unit.id (units t))))
                  (Some name) description false])
              (orders t))
| step_delete_suppliers ids :
    step t (mktables (delete_ids Supplier.id ids (suppliers t))
              (items t) (units t) (orders t))
| step_delete_items ids :
    step t (mktables (suppliers t) (delete_ids Item.id ids (items t))
              (units t) (orders t))
| step_delete_units ids :
    step t (mktables (suppliers t) (items t)
              (delete_ids Unit.id ids (units t)) (orders t))
| step_delete_orders ids :
    step t (with_orders t (delete_ids Order.id ids (orders t)))
| step_set_supplier k s row :
    supplier_of k t = Some s ->
    Supplier.id row = Some k ->
    Supplier.is_deleted row = Supplier.is_deleted s ->
    name_taken Supplier.id Supplier.name (Some k) (Supplier.name row) (suppliers t) = false ->
    step t (mktables (update_row Supplier.id (Some k) (fun _ => row) (suppliers t))
              (items t) (units t) (orders t))
| step_set_unit k u row :
    unit_of k t = Some u ->
    Unit.id row = Some k ->
    Unit.is_deleted row = Unit.is_deleted u ->
    name_taken Unit.id Unit.name (Some k) (Unit.name row) (units t) = false ->
    step t (mktables (suppliers t) (items t)
              (update_row Unit.id (Some k) (fun _ => row) (units t)) (orders t))
| step_set_order k o row :
    order_of k t = Some o ->
    Order.id row = Some k ->
    Order.is_deleted row = Order.is_deleted o ->
    step t (with_orders t (update_order (Some k) (fun _ => row) (orders t))).

Inductive steps : tables -> tables -> Prop :=
| steps_refl t : steps t t
| steps_cons t u v : step t u -> steps u v -> steps t v.

(** No row of the store is soft-deleted. *)
Definition all_live (t : tables) : bool :=
  forallb (fun s => negb (Supplier.is_deleted s)) (suppliers t) &&
  forallb (fun i => negb (Item.is_deleted i)) (items t) &&
  forallb (fun u => negb (Unit.is_deleted u)) (units t) &&
  forallb (fun o => negb (Order.is_deleted o)) (orders t).

(** ** Dates as texts *)

(** A date written year first, zero-padded, with [sep] between the fields:
    [isoformat] is [written "-"]. *)
Definition written (sep : string) (d : date) : string :=
  pad 4 (year d) ++ sep ++ pad 2 (month d) ++ sep ++ pad 2 (day d).

(** The integers [lo], [lo + 1], ... , [n] of them. *)
Fixpoint Zrange (lo : Z) (n : nat) : list Z :=
  match n with
  | O => []
  | S n' => lo :: Zrange (lo + 1) n'
  end.

(** The part of [Strptime.re_match] after the year and its separator. *)
Definition month_day (c2 : ascii) (l : list ascii) : option (Z * Z * list ascii) :=
  Strptime.first_some
    (fun ml =>
       match Strptime.expect c2 (snd ml) with
       | Some l4 =>
           match Strptime.day_alts l4 with
           | (d, l5) :: _ => Some (fst ml, d, l5)
           | [] => None
           end
       | None => None
       end)
    (Strptime.month_alts l).

(** Checks on the padded decimals, run over all years, months and days:
    the text is made of digits, [int] reads it back and so does the pattern
    of [strptime]. *)
Definition digits_ok (width : nat) (z : Z) : bool :=
  let l := Text.chars (pad width z) in
  forallb Text.is_digit l && negb (List.length l =? 0)%nat &&
  match Py.int_of_str (pad width z) with
  | Some v => v =? z
  | None => false
  end.

Definition year_text_ok (y : Z) : bool :=
  digits_ok 4 y &&
  match Strptime.year4 (Text.chars (pad 4 y)) with
  | Some (v, []) => v =? y
  | _ => false
  end.

Definition month_day_text_ok (c : ascii) (m d : Z) : bool :=
  digits_ok 2 m && digits_ok 2 d &&
  match month_day c (Text.chars (pad 2 m) ++ c :: Text.chars (pad 2 d)) with
  | Some (m', d', []) => (m' =? m) && (d' =? d)
  | _ => false
  end.

(** * Theorems *)

(** ** Equality tests *)

Lemma opt_Z_eqb_eq a b : opt_Z_eqb a b = true <-> a = b.
Proof.
  destruct a, b; simpl; split; try congruence; try discriminate.
  - intros H. apply Z.eqb_eq in H. congruence.
  - intros [= ->]. apply Z.eqb_refl.
Qed.

Lemma opt_str_eqb_eq a b : opt_str_eqb a b = true <-> a = b.
Proof.
  destruct a, b; simpl; split; try congruence; try discriminate.
  - intros H. apply String.eqb_eq in H. congruence.
  - intros [= ->]. apply String.eqb_refl.
Qed.

Lemma opt_str_eqb_sym a b : opt_str_eqb a b = opt_str_eqb b a.
Proof. destruct a, b; simpl; auto using String.eqb_sym. Qed.

(** ** Numeric normalisation *)

(** A float passes through unchanged, zero included. *)
Lemma get_float_value_float f r q :
  get_float_value (PFloat f r q) = Ok f \/
  (float_is_zero f = true /\ get_float_value (PFloat f r q) = Ok Py.zero).
Proof.
  unfold get_float_value. simpl.
  destruct (float_is_zero f) eqn:Z; simpl; auto.
Qed.

(** Text never raises: a formula or an unreadable number is 0.0. *)
Lemma get_float_value_str s :
  get_float_value (PStr s) =
    Ok (if String.eqb s "" then Py.zero
        else if Text.startswith s "=" then Py.zero
        else match Py.float_of_str (Text.remove "," s) with
             | Some f => f
             | None => Py.zero
             end).
Proof.
  unfold get_float_value, truthy, try_except, py_float.
  destruct (String.eqb s ""); simpl; [reflexivity|].
  destruct (Text.startswith s "="); [reflexivity|].
  destruct (Py.float_of_str _); reflexivity.
Qed.

(** Only an int can make [get_float_value] raise. *)
Lemma get_float_value_raises_only_on_int v e :
  get_float_value v = Raise e -> exists n, v = PInt n.
Proof.
  destruct v as [|b|n|f r q|s|d r|d|t r k]; try (eexists; reflexivity).
  - discriminate.
  - destruct b; vm_compute; discriminate.
  - destruct (get_float_value_float f r q) as [H|[_ H]]; rewrite H; discriminate.
  - rewrite get_float_value_str. discriminate.
  - discriminate.
  - discriminate.
  - unfold get_float_value. simpl. destruct t; discriminate.
Qed.

(** The values the specification lists: empty and missing cells, a
    formula, a number with a thousands separator, an int. *)
Lemma get_float_value_examples :
  get_float_value PNone = Ok Py.zero /\
  get_float_value (PStr "") = Ok Py.zero /\
  get_float_value (PStr "=SUM(A1:A2)") = Ok Py.zero /\
  get_float_value (PStr "1,234") = Py.float_of_int 1234 /\
  get_float_value (PInt 42) = Ok (S754_finite false 5910974510923776 (-47)) /\
  get_float_value (PStr "n/a") = Ok Py.zero.
Proof. vm_compute. repeat split. Qed.

(** C4 (the code departs from it): numeric normalisation is to be total and
    never raise, but an int beyond the range of a double reaches [float]
    unguarded and raises [OverflowError]; 2^1024 is such an int. *)
Theorem get_float_value_overflows :
  get_float_value (PInt (2 ^ 1024)) =
    Raise (OverflowError "int too large to convert to float").
Proof. vm_compute. reflexivity. Qed.

(** ** Date normalisation *)

Lemma datetime_ymd_valid y m d dt :
  datetime_ymd y m d = Ok dt -> valid_date dt = true.
Proof.
  unfold datetime_ymd.
  destruct (negb _); [discriminate|].
  destruct (valid_date (mkdate y m d)) eqn:V; [|discriminate].
  intros [= <-]. exact V.
Qed.

Lemma strptime_valid s fmt d :
  Strptime.strptime s fmt = Ok d -> valid_date d = true.
Proof.
  unfold Strptime.strptime.
  destruct (Text.chars fmt) as [|p1 [|dY [|c1 [|p2 [|dm [|c2 [|p3 [|dd [|? ?]]]]]]]]];
    try discriminate.
  destruct (String.eqb _ _); [|discriminate].
  destruct (Strptime.re_match _ _ _) as [[[[y m] d0] [|? ?]]|]; try discriminate.
  destruct (valid_date (mkdate y m d0)) eqn:V; [|discriminate].
  intros [= <-]. exact V.
Qed.

Lemma try_formats_valid s fmts d :
  try_formats s fmts = Some d -> valid_date d = true.
Proof.
  induction fmts as [|f fmts IH]; simpl; [discriminate|].
  destruct (Strptime.strptime _ f) eqn:E.
  - intros [= <-]. eapply strptime_valid; eauto.
  - exact IH.
Qed.

Lemma date_of_parts_valid s d :
  date_of_parts s = Ok (Some d) -> valid_date d = true.
Proof.
  unfold date_of_parts.
  destruct (_ =? _)%nat; [|discriminate].
  unfold rbind.
  do 3 (destruct (py_int _); [|discriminate]).
  destruct (datetime_ymd _ _ _) eqn:E; [|discriminate].
  intros [= <-]. eapply datetime_ymd_valid; eauto.
Qed.

Lemma split_step_valid s d :
  split_step s = Ok (Some d) -> valid_date d = true.
Proof.
  unfold split_step, try_except.
  destruct (Text.contains _ _); [|discriminate].
  destruct (date_of_parts s) as [o|e] eqn:E.
  - intros [= ->]. eapply date_of_parts_valid; eauto.
  - destruct (_ || _); discriminate.
Qed.


(** ** Lengths: a text one of the formats accepts is too short to overflow *)

Lemma chars_text l : Text.chars (Text.text l) = l.
Proof. apply list_ascii_of_string_of_list_ascii. Qed.

Lemma digit_val_range c d : Text.digit_val c = Some d -> 0 <= d <= 9.
Proof.
  unfold Text.digit_val, Text.is_digit.
  destruct (_ && _) eqn:E; [|discriminate].
  intros [= <-]. apply andb_prop in E. destruct E as [A B].
  apply Z.leb_le in A. apply Z.leb_le in B. lia.
Qed.

Lemma digits_tail_bound k : forall l v n v' n' rest,
  (List.length l <= k)%nat ->
  Py.digits_tail v n l = (v', n', rest) ->
  0 <= v < 10 ^ n -> 0 <= n ->
  0 <= v' < 10 ^ n' /\ n <= n' /\ n' <= n + Z.of_nat (List.length l).
Proof.
  induction k as [|k IH]; intros l v n v' n' rest L E V N.
  - destruct l; [|simpl in L; lia]. simpl in E. injection E as <- <- <-. simpl. lia.
  - destruct l as [|c l]; [simpl in E; injection E as <- <- <-; simpl; lia|].
    simpl in E. simpl in L.
    assert (S : forall d, 0 <= d <= 9 -> 0 <= 10 * v + d < 10 ^ (n + 1)).
    { intros d D. rewrite Z.pow_add_r by lia. lia. }
    destruct (Text.digit_val c) as [d|] eqn:D.
    + apply digit_val_range in D.
      apply IH in E; [|lia|auto|lia]. simpl List.length. lia.
    + destruct (Ascii.eqb c "_").
      * destruct l as [|c2 l]; [injection E as <- <- <-; simpl; lia|].
        destruct (Text.digit_val c2) as [d|] eqn:D2.
        -- apply digit_val_range in D2. simpl in L.
           apply IH in E; [|lia|auto|lia]. simpl List.length. lia.
        -- injection E as <- <- <-. simpl List.length. lia.
      * injection E as <- <- <-. simpl List.length. lia.
Qed.

Lemma digitpart_bound l v' n' rest :
  Py.digitpart 0 l = (v', n', rest) ->
  0 <= v' < 10 ^ n' /\ 0 <= n' <= Z.of_nat (List.length l).
Proof.
  unfold Py.digitpart. destruct l as [|c l].
  - intros [= <- <- <-]. simpl. lia.
  - destruct (Text.digit_val c) as [d|] eqn:D.
    + apply digit_val_range in D. intros E.
      apply (digits_tail_bound (List.length l)) in E; [|lia| simpl; lia | lia].
      simpl List.length. lia.
    + intros [= <- <- <-]. simpl List.length. simpl. lia.
Qed.

Lemma lstrip_by_length blank l :
  (List.length (Text.lstrip_by blank l) <= List.length l)%nat.
Proof.
  induction l as [|c l IH]; simpl; [lia|].
  destruct (blank c); simpl; lia.
Qed.

Lemma strip_by_length blank l :
  (List.length (Text.strip_by blank l) <= List.length l)%nat.
Proof.
  unfold Text.strip_by. rewrite length_rev.
  etransitivity; [apply lstrip_by_length|]. rewrite length_rev.
  apply lstrip_by_length.
Qed.

Lemma sign_length l b l' : Py.sign l = (b, l') -> (List.length l' <= List.length l)%nat.
Proof.
  unfold Py.sign. destruct l as [|c l]; [intros [= <- <-]; simpl; lia|].
  destruct (Ascii.eqb c "-"); [intros [= <- <-]; simpl; lia|].
  destruct (Ascii.eqb c "+"); intros [= <- <-]; simpl; lia.
Qed.

(** [int] of a text of [n] characters is below 10^n in absolute value. *)
Lemma int_of_str_bound p v :
  Py.int_of_str p = Some v -> Z.abs v < 10 ^ Z.of_nat (List.length (Text.chars p)).
Proof.
  unfold Py.int_of_str.
  destruct (Py.sign _) as [neg l] eqn:S.
  apply sign_length in S.
  pose proof (strip_by_length Text.is_c_space (Text.chars p)) as T.
  destruct (Py.digitpart 0 l) as [[v0 n] rest] eqn:E.
  apply digitpart_bound in E.
  destruct rest; [|discriminate].
  destruct (0 <? n); [|discriminate].
  intros [= <-].
  assert (10 ^ n <= 10 ^ Z.of_nat (List.length (Text.chars p)))
    by (apply Z.pow_le_mono_r; lia).
  destruct neg; lia.
Qed.

Lemma short_int_fits p v :
  (List.length (Text.chars p) <= 8)%nat -> Py.int_of_str p = Some v -> fits_c_int v = true.
Proof.
  intros L E. apply int_of_str_bound in E.
  assert (10 ^ Z.of_nat (List.length (Text.chars p)) <= 10 ^ 8)
    by (apply Z.pow_le_mono_r; lia).
  unfold fits_c_int. apply andb_true_intro. split; [apply Z.leb_le | apply Z.ltb_lt]; lia.
Qed.

Lemma split_chars_length sep l :
  (total_length (Text.split_chars sep l) + List.length (Text.split_chars sep l)
   = List.length l + 1)%nat.
Proof.
  induction l as [|c l IH]; simpl; [reflexivity|].
  destruct (Ascii.eqb c sep); simpl; [lia|].
  destruct (Text.split_chars sep l) as [|p ps]; simpl in *; lia.
Qed.

Lemma digit_in_length lo hi l v l' :
  Strptime.digit_in lo hi l = Some (v, l') -> List.length l = S (List.length l').
Proof.
  unfold Strptime.digit_in. destruct l as [|x l]; [discriminate|].
  destruct (Text.digit_val x); [|discriminate].
  destruct (_ && _); [|discriminate].
  intros [= <- <-]. reflexivity.
Qed.

Lemma two_digits_length a b c d l v l' :
  Strptime.two_digits a b c d l = Some (v, l') -> List.length l = S (S (List.length l')).
Proof.
  unfold Strptime.two_digits.
  destruct (Strptime.digit_in a b l) as [[x l1]|] eqn:E1; [|discriminate].
  destruct (Strptime.digit_in c d l1) as [[y l2]|] eqn:E2; [|discriminate].
  intros [= <- <-].
  apply digit_in_length in E1. apply digit_in_length in E2. lia.
Qed.

Lemma expect_length c l l' :
  Strptime.expect c l = Some l' -> List.length l = S (List.length l').
Proof.
  unfold Strptime.expect. destruct l as [|x l]; [discriminate|].
  destruct (Ascii.eqb x c); [|discriminate]. intros [= <-]. reflexivity.
Qed.

Lemma year4_length l y l' :
  Strptime.year4 l = Some (y, l') -> List.length l = (4 + List.length l')%nat.
Proof.
  unfold Strptime.year4.
  destruct (Strptime.two_digits 0 9 0 9 l) as [[a l1]|] eqn:E1; [|discriminate].
  destruct (Strptime.two_digits 0 9 0 9 l1) as [[b l2]|] eqn:E2; [|discriminate].
  intros [= <- <-].
  apply two_digits_length in E1. apply two_digits_length in E2. lia.
Qed.

Lemma in_somes {A} (a : A) l : In a (Strptime.somes l) -> In (Some a) l.
Proof.
  unfold Strptime.somes. intros H. apply in_flat_map in H.
  destruct H as [[x|] [I H]]; simpl in H; [|contradiction].
  destruct H as [<-|[]]. exact I.
Qed.

Lemma month_alts_length l m l' :
  In (m, l') (Strptime.month_alts l) -> (List.length l <= 2 + List.length l')%nat.
Proof.
  unfold Strptime.month_alts. intros H. apply in_somes in H. simpl in H.
  destruct H as [H|[H|[H|[]]]].
  - apply two_digits_length in H. lia.
  - apply two_digits_length in H. lia.
  - apply digit_in_length in H. lia.
Qed.

Lemma day_alts_length l d l' :
  In (d, l') (Strptime.day_alts l) -> (List.length l <= 2 + List.length l')%nat.
Proof.
  unfold Strptime.day_alts. intros H. apply in_somes in H. simpl in H.
  destruct H as [H|[H|[H|[H|[H|[]]]]]].
  - apply two_digits_length in H. lia.
  - apply two_digits_length in H. lia.
  - apply two_digits_length in H. lia.
  - apply digit_in_length in H. lia.
  - destruct (Strptime.expect " " l) as [l1|] eqn:E; [|discriminate].
    apply expect_length in E. apply digit_in_length in H. lia.
Qed.

Lemma first_some_in {A B} (f : A -> option B) l b :
  Strptime.first_some f l = Some b -> exists a, In a l /\ f a = Some b.
Proof.
  induction l as [|a l IH]; simpl; [discriminate|].
  destruct (f a) eqn:E.
  - intros [= <-]. eauto.
  - intros H. destruct (IH H) as [a' [I F]]. eauto.
Qed.

(** A full match of year, month and day is ten characters at most. *)
Lemma re_match_length c1 c2 l y m d :
  Strptime.re_match c1 c2 l = Some (y, m, d, []) -> (List.length l <= 10)%nat.
Proof.
  unfold Strptime.re_match.
  destruct (Strptime.year4 l) as [[y0 l1]|] eqn:Y; [|discriminate].
  destruct (Strptime.expect c1 l1) as [l2|] eqn:E1; [|discriminate].
  intros H. apply first_some_in in H. destruct H as [[m0 l3] [I H]].
  simpl in H.
  destruct (Strptime.expect c2 l3) as [l4|] eqn:E2; [|discriminate].
  destruct (Strptime.day_alts l4) as [|[d0 l5] rest] eqn:D; [discriminate|].
  injection H as <- <- <- ->.
  apply year4_length in Y. apply expect_length in E1. apply expect_length in E2.
  apply month_alts_length in I.
  assert (In (d0, []) (Strptime.day_alts l4)) as J by (rewrite D; left; reflexivity).
  apply day_alts_length in J. simpl in J. lia.
Qed.

Lemma strptime_length s fmt d :
  Strptime.strptime s fmt = Ok d -> (List.length (Text.chars s) <= 10)%nat.
Proof.
  unfold Strptime.strptime.
  destruct (Text.chars fmt) as [|p1 [|dY [|c1 [|p2 [|dm [|c2 [|p3 [|dd [|? ?]]]]]]]]];
    try discriminate.
  destruct (String.eqb _ _); [|discriminate].
  destruct (Strptime.re_match _ _ _) as [[[[y m] d0] [|? ?]]|] eqn:R; try discriminate.
  intros _. eapply re_match_length; eauto.
Qed.

(** When the split step lets an exception through, an int was too large
    for the date constructor; then the text is too long for any format. *)
Lemma split_step_raise_long s e :
  split_step s = Raise e ->
  (10 < List.length (Text.chars (Text.strip s)))%nat.
Proof.
  unfold split_step, try_except.
  destruct (Text.contains "." s); [|discriminate].
  destruct (date_of_parts s) as [o|e0] eqn:E; [discriminate|].
  destruct (_ || _) eqn:C; [discriminate|]. intros _.
  revert E. unfold date_of_parts, Text.split.
  set (l := Text.chars (Text.strip s)).
  pose proof (split_chars_length "." l) as T.
  destruct (Text.split_chars "." l) as [|p0 [|p1 [|p2 [|? ?]]]]; try discriminate.
  cbn [map List.length Nat.eqb nth rbind]. unfold rbind, py_int.
  cbn [total_length List.length] in T.
  destruct (Py.int_of_str (Text.text p0)) as [y|] eqn:Y;
    [|intros [= <-]; discriminate].
  destruct (Py.int_of_str (Text.text p1)) as [m|] eqn:Mo;
    [|intros [= <-]; discriminate].
  destruct (Py.int_of_str (Text.text p2)) as [d|] eqn:D;
    [|intros [= <-]; discriminate].
  unfold datetime_ymd.
  destruct (negb _) eqn:F.
  - intros _.
    destruct (Nat.leb (List.length l) 10) eqn:L; [|apply Nat.leb_gt in L; exact L].
    apply Nat.leb_le in L. exfalso.
    assert (L0 : (List.length (Text.chars (Text.text p0)) <= 8)%nat)
      by (rewrite chars_text; lia).
    assert (L1 : (List.length (Text.chars (Text.text p1)) <= 8)%nat)
      by (rewrite chars_text; lia).
    assert (L2 : (List.length (Text.chars (Text.text p2)) <= 8)%nat)
      by (rewrite chars_text; lia).
    rewrite (short_int_fits _ _ L0 Y), (short_int_fits _ _ L1 Mo),
      (short_int_fits _ _ L2 D) in F.
    discriminate.
  - destruct (valid_date _); [discriminate|]. intros [= <-]. discriminate.
Qed.

Lemma split_step_raise_formats_fail s e fmts :
  split_step s = Raise e -> try_formats s fmts = None.
Proof.
  intros H. apply split_step_raise_long in H.
  induction fmts as [|f fmts IH]; simpl; [reflexivity|].
  destruct (Strptime.strptime (Text.strip s) f) eqn:E; [|exact IH].
  apply strptime_length in E. lia.
Qed.

(** What the split step of the handler gives is the date between the dots;
    an exception it lets through (an int beyond a C int) is no date. *)
Lemma valid_date_fits y m d :
  valid_date (mkdate y m d) = true ->
  fits_c_int y && fits_c_int m && fits_c_int d = true.
Proof.
  unfold valid_date, fits_c_int. cbn [year month day].
  rewrite !andb_true_iff, !Z.leb_le, !Z.ltb_lt.
  assert (days_in_month y m <= 31).
  { unfold days_in_month. destruct (m =? 2); [destruct (is_leap y); lia|].
    destruct (_ || _); lia. }
  lia.
Qed.

Lemma split_step_between_dots s :
  date_between_dots s =
  match split_step s with
  | Ok (Some d) => Some d
  | _ => None
  end.
Proof.
  unfold date_between_dots, split_step, try_except, date_of_parts.
  destruct (Text.contains "." s); [|reflexivity].
  destruct (Text.split "." (Text.strip s)) as [|y [|m [|d [|? ?]]]]; try reflexivity.
  cbn [List.length Nat.eqb nth rbind]. unfold rbind, py_int.
  destruct (Py.int_of_str y) as [y'|]; [|reflexivity].
  destruct (Py.int_of_str m) as [m'|]; [|reflexivity].
  destruct (Py.int_of_str d) as [d'|]; [|reflexivity].
  unfold datetime_ymd.
  destruct (valid_date (mkdate y' m' d')) eqn:V.
  - now rewrite (valid_date_fits _ _ _ V).
  - destruct (negb _); reflexivity.
Qed.

Lemma try_formats_parsed s :
  try_formats s date_formats =
  match parsed_as "%Y.%m.%d" s with
  | Some d => Some d
  | None =>
      match parsed_as "%Y-%m-%d" s with
      | Some d => Some d
      | None => parsed_as "%Y/%m/%d" s
      end
  end.
Proof.
  unfold date_formats, try_formats, parsed_as.
  repeat (destruct (Strptime.strptime (Text.strip s) _); try reflexivity).
Qed.

(** The handler computes the chain of the specification: an exception the
    split step lets through ends in today, which is where the chain ends as
    well, no format accepting such a text. *)
Lemma normalize_date_chain today cell :
  (forall d r, cell <> PDateTime d r) ->
  normalize_date today cell = date_chain today (py_str cell).
Proof.
  intros H.
  assert (G : forall s,
    match (let? order_date := split_step s in
           Ok (match match order_date with
                     | None => try_formats s date_formats
                     | Some d => Some d
                     end with
               | None => today
               | Some d => d
               end))%result with
    | Ok d => d
    | Raise _ => today
    end = date_chain today s).
  { intros s. unfold date_chain, rbind. rewrite split_step_between_dots.
    destruct (split_step s) as [[d|]|e] eqn:E; try reflexivity.
    - rewrite try_formats_parsed.
      repeat (destruct (parsed_as _ s); try reflexivity).
    - pose proof (split_step_raise_formats_fail s e date_formats E) as F.
      rewrite try_formats_parsed in F.
      repeat (destruct (parsed_as _ s); try discriminate). reflexivity. }
  destruct cell; try apply G.
  exfalso. eapply H; reflexivity.
Qed.

Lemma parsed_as_valid fmt s d : parsed_as fmt s = Some d -> valid_date d = true.
Proof.
  unfold parsed_as. destruct (Strptime.strptime _ _) eqn:E; [|discriminate].
  intros [= <-]. eapply strptime_valid; eauto.
Qed.

Lemma date_chain_valid today s :
  valid_date today = true -> valid_date (date_chain today s) = true.
Proof.
  intros T. unfold date_chain.
  destruct (date_between_dots s) as [d|] eqn:B.
  - rewrite split_step_between_dots in B.
    destruct (split_step s) as [[d'|]|e] eqn:E; try discriminate.
    injection B as <-. eapply split_step_valid; eauto.
  - repeat (match goal with
            | |- context [parsed_as ?f s] =>
                let P := fresh "P" in
                destruct (parsed_as f s) eqn:P; [eapply parsed_as_valid; eauto|]
            end).
    exact T.
Qed.

(** C3: date normalisation never fails and always yields a valid date; a
    datetime cell is used as it is, and the ASCII text of any other cell
    goes through the chain of the specification: the date between the dots,
    then the formats dot, dash, slash, then today.  "2024.03.05" and
    "2024-03-05" are March 5 2024, "24.03.05" is March 5 of the year 24 (the
    split comes before the formats, none of which reads it), and
    "not-a-date" is today. *)
Theorem normalize_date_total today cell :
  valid_date today = true ->
  wf_cell cell ->
  valid_date (normalize_date today cell) = true /\
  (forall d r, cell = PDateTime d r -> normalize_date today cell = d) /\
  ((forall d r, cell <> PDateTime d r) ->
   Text.is_ascii (py_str cell) = true ->
   normalize_date today cell = date_chain today (py_str cell)) /\
  normalize_date today (PStr "2024.03.05") = mkdate 2024 3 5 /\
  normalize_date today (PStr "2024-03-05") = mkdate 2024 3 5 /\
  normalize_date today (PStr "2024/03/05") = mkdate 2024 3 5 /\
  normalize_date today (PStr "24.03.05") = mkdate 24 3 5 /\
  normalize_date today (PStr "2024.02.30") = today /\
  normalize_date today (PStr "not-a-date") = today.
Proof.
  intros T W. split; [|split; [|split; [|repeat split]]].
  - destruct cell as [|b|n|f r q|s|d r|d|t r k];
      try (rewrite normalize_date_chain by discriminate; apply date_chain_valid; exact T).
    exact W.
  - intros d r ->. reflexivity.
  - intros N _. now apply normalize_date_chain.
Qed.

Lemma normalize_date_total_witness :
  valid_date (normalize_date Sample.today (PStr "2024/3/5")) = true /\
  normalize_date Sample.today (PStr "2024/3/5") =
    date_chain Sample.today "2024/3/5" /\
  date_chain Sample.today "2024/3/5" = mkdate 2024 3 5.
Proof.
  destruct (normalize_date_total Sample.today (PStr "2024/3/5") eq_refl I)
    as (V & _ & C & _).
  split; [exact V|]. split; [|reflexivity].
  apply C; [discriminate | reflexivity].
Defined.

(** ** Approval and rejection *)

Lemma order_of_id order_id t o :
  order_of order_id t = Some o -> Order.id o = Some order_id.
Proof.
  unfold order_of. intros H. apply find_some in H. apply opt_Z_eqb_eq, H.
Qed.

Lemma find_update_order key f l o :
  find (fun x => opt_Z_eqb (Order.id x) key) l = Some o ->
  Order.id (f o) = key ->
  find (fun x => opt_Z_eqb (Order.id x) key) (update_order key f l) = Some (f o).
Proof.
  intros H K. induction l as [|x l IH]; simpl in *; [discriminate|].
  destruct (opt_Z_eqb (Order.id x) key) eqn:E.
  - injection H as ->. simpl. rewrite K.
    replace (opt_Z_eqb key key) with true; [reflexivity|].
    symmetry. now apply opt_Z_eqb_eq.
  - simpl. rewrite E. auto.
Qed.

Lemma order_of_updated order_id store o o' :
  order_of order_id store = Some o ->
  Order.id o' = Some order_id ->
  order_of order_id
    (with_orders store (update_order (Some order_id) (fun _ => o') (orders store)))
  = Some o'.
Proof.
  intros H K. unfold order_of, with_orders. simpl.
  apply (find_update_order (Some order_id) (fun _ => o') (orders store) o H K).
Qed.

(** A wrong secret ends the handler before the session is used. *)
Lemma approve_wrong_password now order_id password db :
  password <> "admin" ->
  approve_order now order_id password db =
    (Raise (HTTPException 401 "Invalid password"), db).
Proof.
  intros H. unfold approve_order.
  destruct (String.eqb password "admin") eqn:E.
  - apply String.eqb_eq in E. contradiction.
  - reflexivity.
Qed.

Lemma approve_missing now order_id db :
  order_of order_id (working db) = None ->
  approve_order now order_id "admin" db =
    (Raise (HTTPException 404 "Order not found"), db).
Proof.
  intros H. unfold approve_order, bind, query_first. simpl.
  unfold order_of in H. rewrite H. reflexivity.
Qed.

Lemma approve_existing now order_id store o :
  order_of order_id store = Some o ->
  get_db (approve_order now order_id "admin") store =
    (Ok "Order approved successfully",
     with_orders store
       (update_order (Some order_id) (fun _ => approved now o) (orders store))).
Proof.
  intros H. pose proof (order_of_id _ _ _ H) as K.
  unfold get_db, approve_order, bind, query_first, db_add, db_commit, db_flush,
    bind, SessionLocal.
  simpl. unfold order_of in H. rewrite H. simpl. rewrite K. reflexivity.
Qed.

Lemma reject_existing now order_id reason store o :
  order_of order_id store = Some o ->
  get_db (reject_order now order_id reason) store =
    (Ok "Order rejected successfully",
     with_orders store
       (update_order (Some order_id) (fun _ => rejected now reason o) (orders store))).
Proof.
  intros H. pose proof (order_of_id _ _ _ H) as K.
  unfold get_db, reject_order, bind, query_first, db_add, db_commit, db_flush,
    bind, SessionLocal.
  simpl. unfold order_of in H. rewrite H. simpl. rewrite K. reflexivity.
Qed.

Lemma reject_missing now order_id reason db :
  order_of order_id (working db) = None ->
  reject_order now order_id reason db =
    (Raise (HTTPException 404 "Order not found"), db).
Proof.
  intros H. unfold reject_order, bind, query_first. simpl.
  unfold order_of in H. rewrite H. reflexivity.
Qed.

(** C7: a wrong secret is answered 401 and the store, so the order's
    approval_status, stays as it was; the right secret on an existing order
    stores "approved", the fixed approver and the current time stamp; the
    right secret on an unknown order is answered 404. *)
Theorem approve_order_outcomes now order_id password store :
  (password <> "admin" ->
   get_db (approve_order now order_id password) store =
     (Raise (HTTPException 401 "Invalid password"), store)) /\
  (forall o, order_of order_id store = Some o ->
     exists o' store',
       get_db (approve_order now order_id "admin") store =
         (Ok "Order approved successfully", store') /\
       order_of order_id store' = Some o' /\
       Order.approval_status o' = Some "approved" /\
       Order.approved_by o' = Some "이지은" /\
       Order.approved_at o' = Some now) /\
  (order_of order_id store = None ->
   get_db (approve_order now order_id "admin") store =
     (Raise (HTTPException 404 "Order not found"), store)).
Proof.
  repeat split.
  - intros H. unfold get_db. rewrite approve_wrong_password by assumption. reflexivity.
  - intros o H. exists (approved now o). eexists.
    split; [apply approve_existing; exact H|].
    split; [|repeat split].
    apply order_of_updated with (o := o); [exact H|].
    simpl. eapply order_of_id; eauto.
  - intros H. unfold get_db. rewrite approve_missing by exact H. reflexivity.
Qed.

Lemma approve_order_outcomes_witness :
  get_db (approve_order "26-11-04 10:00" 7 "guess") Sample.store_order7 =
    (Raise (HTTPException 401 "Invalid password"), Sample.store_order7) /\
  (exists o' store',
     get_db (approve_order "26-11-04 10:00" 7 "admin") Sample.store_order7 =
       (Ok "Order approved successfully", store') /\
     order_of 7 store' = Some o' /\
     Order.approval_status o' = Some "approved" /\
     Order.approved_by o' = Some "이지은" /\
     Order.approved_at o' = Some "26-11-04 10:00") /\
  get_db (approve_order "26-11-04 10:00" 8 "admin") Sample.store_order7 =
    (Raise (HTTPException 404 "Order not found"), Sample.store_order7).
Proof.
  destruct (approve_order_outcomes "26-11-04 10:00" 7 "guess" Sample.store_order7)
    as [H1 [H2 _]].
  destruct (approve_order_outcomes "26-11-04 10:00" 8 "guess" Sample.store_order7)
    as [_ [_ H3]].
  split; [apply H1; discriminate|].
  split; [apply (H2 Sample.plain_order); reflexivity | apply H3; reflexivity].
Defined.

(** C9: the secret is checked before the order is looked up.  With a wrong
    secret the answer is 401 whatever the order id and whatever the session
    holds, and the session is handed back untouched; 404 is only ever
    answered to the right secret. *)
Theorem approve_checks_secret_first now order_id password db :
  (password <> "admin" ->
   approve_order now order_id password db =
     (Raise (HTTPException 401 "Invalid password"), db) /\
   forall order_id' db',
     fst (approve_order now order_id' password db') =
     fst (approve_order now order_id password db)) /\
  (forall detail db',
     approve_order now order_id password db = (Raise (HTTPException 404 detail), db') ->
     password = "admin").
Proof.
  split.
  - intros H. split; [now apply approve_wrong_password|].
    intros. now rewrite !approve_wrong_password.
  - intros detail db' H.
    destruct (String.eqb password "admin") eqn:E; [now apply String.eqb_eq|].
    unfold approve_order in H. rewrite E in H. discriminate.
Qed.

Lemma approve_checks_secret_first_witness :
  approve_order "26-11-04 10:00" 7 "guess" (SessionLocal Sample.store_order7) =
    (Raise (HTTPException 401 "Invalid password"), SessionLocal Sample.store_order7) /\
  fst (approve_order "26-11-04 10:00" 8 "guess" (SessionLocal Sample.empty_store)) =
  fst (approve_order "26-11-04 10:00" 7 "guess" (SessionLocal Sample.store_order7)).
Proof.
  destruct (approve_checks_secret_first "26-11-04 10:00" 7 "guess"
              (SessionLocal Sample.store_order7)) as [H _].
  destruct H as [H1 H2]; [discriminate|].
  split; [exact H1 | apply H2].
Defined.

(** C10: a rejection stores "rejected", the caller's reason and the current
    time stamp in approved_at and leaves approved_by alone; an approval
    leaves rejection_reason alone.  So an order approved and then rejected
    still names its approver, and an order rejected and then approved still
    carries the reason. *)
Theorem decisions_leave_stale_fields now now' order_id reason store o :
  order_of order_id store = Some o ->
  (exists o1 s1,
     get_db (reject_order now order_id reason) store =
       (Ok "Order rejected successfully", s1) /\
     order_of order_id s1 = Some o1 /\
     Order.approval_status o1 = Some "rejected" /\
     Order.rejection_reason o1 = Some reason /\
     Order.approved_at o1 = Some now /\
     Order.approved_by o1 = Order.approved_by o /\
     same_payload o o1 /\
     exists o2 s2,
       get_db (approve_order now' order_id "admin") s1 =
         (Ok "Order approved successfully", s2) /\
       order_of order_id s2 = Some o2 /\
       Order.approval_status o2 = Some "approved" /\
       Order.rejection_reason o2 = Some reason) /\
  (exists o1 s1,
     get_db (approve_order now order_id "admin") store =
       (Ok "Order approved successfully", s1) /\
     order_of order_id s1 = Some o1 /\
     Order.approval_status o1 = Some "approved" /\
     Order.rejection_reason o1 = Order.rejection_reason o /\
     same_payload o o1 /\
     exists o2 s2,
       get_db (reject_order now' order_id reason) s1 =
         (Ok "Order rejected successfully", s2) /\
       order_of order_id s2 = Some o2 /\
       Order.approval_status o2 = Some "rejected" /\
       Order.approved_at o2 = Some now' /\
       Order.approved_by o2 = Some "이지은").
Proof.
  intros H. pose proof (order_of_id _ _ _ H) as K.
  assert (R : order_of order_id
                (with_orders store (update_order (Some order_id)
                   (fun _ => rejected now reason o) (orders store)))
              = Some (rejected now reason o))
    by (apply order_of_updated with (o := o); [exact H | exact K]).
  assert (A : order_of order_id
                (with_orders store (update_order (Some order_id)
                   (fun _ => approved now o) (orders store)))
              = Some (approved now o))
    by (apply order_of_updated with (o := o); [exact H | exact K]).
  split.
  - exists (rejected now reason o). eexists.
    split; [apply reject_existing; exact H|].
    split; [exact R|].
    do 4 (split; [reflexivity|]).
    split; [unfold same_payload; simpl; repeat split|].
    exists (approved now' (rejected now reason o)). eexists.
    split; [apply approve_existing; exact R|].
    split; [|split; reflexivity].
    apply order_of_updated with (o := rejected now reason o); [exact R | exact K].
  - exists (approved now o). eexists.
    split; [apply approve_existing; exact H|].
    split; [exact A|].
    do 2 (split; [reflexivity|]).
    split; [unfold same_payload; simpl; repeat split|].
    exists (rejected now' reason (approved now o)). eexists.
    split; [apply reject_existing; exact A|].
    split; [|repeat split].
    apply order_of_updated with (o := approved now o); [exact A | exact K].
Qed.

Lemma decisions_leave_stale_fields_witness :
  exists o1 s1,
    get_db (approve_order "26-11-04 10:00" 7 "admin") Sample.store_order7 =
      (Ok "Order approved successfully", s1) /\
    order_of 7 s1 = Some o1 /\
    exists o2 s2,
      get_db (reject_order "26-11-05 09:30" 7 "too dear") s1 =
        (Ok "Order rejected successfully", s2) /\
      order_of 7 s2 = Some o2 /\
      Order.approval_status o2 = Some "rejected" /\
      Order.approved_by o2 = Some "이지은".
Proof.
  destruct (decisions_leave_stale_fields "26-11-04 10:00" "26-11-05 09:30" 7
              "too dear" Sample.store_order7 Sample.plain_order eq_refl)
    as [_ (o1 & s1 & E1 & F1 & _ & _ & _ & o2 & s2 & E2 & F2 & S2 & _ & B2)].
  exists o1, s1. split; [exact E1|]. split; [exact F1|].
  exists o2, s2. repeat split; assumption.
Defined.

(** ** Listing orders *)

(** One turn of the loop: the order comes out masked, the tables of the
    transaction are not written, the substitutions wait in the session. *)
Lemma mask_deleted_spec t o db :
  exists changes,
    mask_deleted (joinedload t o) db =
      (Ok (masked_view t o), mksession (committed db) (working db) changes).
Proof.
  destruct db as [c w p].
  unfold mask_deleted, masked_view, joinedload, gone, or_placeholder, bind, db_add, ret.
  simpl.
  destruct (find_by_id Supplier.id _ _) as [s|];
    destruct (find_by_id Item.id _ _) as [i|];
    destruct (find_by_id Unit.id _ _) as [u|];
    repeat (cbn;
            match goal with
            | |- context [Supplier.is_deleted ?x] => destruct (Supplier.is_deleted x)
            | |- context [Item.is_deleted ?x] => destruct (Item.is_deleted x)
            | |- context [Unit.is_deleted ?x] => destruct (Unit.is_deleted x)
            end);
    cbn; eexists; reflexivity.
Qed.

Lemma for_each_mask_deleted t l db :
  exists changes,
    for_each mask_deleted (map (joinedload t) l) db =
      (Ok (map (masked_view t) l), mksession (committed db) (working db) changes).
Proof.
  revert db. induction l as [|o l IH]; intros db.
  - destruct db as [c w p]. simpl. eexists. reflexivity.
  - simpl. unfold bind at 1.
    destruct (mask_deleted_spec t o db) as [p1 ->].
    unfold bind at 1.
    destruct (IH (mksession (committed db) (working db) p1)) as [p2 ->].
    simpl. eexists. reflexivity.
Qed.

Lemma read_orders_spec db :
  exists changes,
    read_orders db =
      (Ok (listing_spec (working db)), mksession (committed db) (working db) changes).
Proof.
  unfold read_orders, try_catch, bind, query_orders, listing_spec.
  destruct (for_each_mask_deleted (working db)
              (filter (fun o => negb (Order.is_deleted o)) (orders (working db))) db)
    as [p ->].
  eexists. reflexivity.
Qed.

(** What the handler returns: every order that is not soft-deleted; a
    relation whose row is missing or soft-deleted comes back as the
    placeholder of id 0 named "삭제됨"; the substitution stays in the
    session: neither the tables of the transaction nor the store behind the
    request change. *)
Lemma read_orders_returns_masked store :
  get_db read_orders store = (Ok (listing_spec store), store) /\
  (forall o, In o (orders store) -> Order.is_deleted o = false ->
     exists v, In v (listing_spec store) /\ Loaded.row v = o) /\
  (forall v, In v (listing_spec store) ->
     In (Loaded.row v) (orders store) /\ Order.is_deleted (Loaded.row v) = false /\
     v = masked_view store (Loaded.row v)) /\
  (forall o,
     (gone Supplier.is_deleted
        (find_by_id Supplier.id (Order.supplier_id o) (suppliers store)) = true ->
      Loaded.supplier (masked_view store o) =
        Some (Supplier.Build (Some 0) (Some "삭제됨") None None false)) /\
     (gone Item.is_deleted
        (find_by_id Item.id (Order.item_id o) (items store)) = true ->
      Loaded.item (masked_view store o) =
        Some (Item.Build (Some 0) (Some "삭제됨") None None false false)) /\
     (gone Unit.is_deleted
        (find_by_id Unit.id (Order.unit_id o) (units store)) = true ->
      Loaded.unit (masked_view store o) =
        Some (Unit.Build (Some 0) (Some "삭제됨") None false))) /\
  (forall o,
     (forall s, find_by_id Supplier.id (Order.supplier_id o) (suppliers store) = Some s ->
        Supplier.is_deleted s = false -> Loaded.supplier (masked_view store o) = Some s) /\
     (forall i, find_by_id Item.id (Order.item_id o) (items store) = Some i ->
        Item.is_deleted i = false -> Loaded.item (masked_view store o) = Some i) /\
     (forall u, find_by_id Unit.id (Order.unit_id o) (units store) = Some u ->
        Unit.is_deleted u = false -> Loaded.unit (masked_view store o) = Some u)).
Proof.
  split; [|split; [|split; [|split]]].
  - unfold get_db. destruct (read_orders_spec (SessionLocal store)) as [p ->].
    reflexivity.
  - intros o I D. exists (masked_view store o). split; [|reflexivity].
    unfold listing_spec. apply in_map, filter_In. split; [exact I|].
    now rewrite D.
  - intros v I. unfold listing_spec in I. apply in_map_iff in I.
    destruct I as [o [<- I]]. apply filter_In in I. destruct I as [I D].
    simpl. repeat split; [exact I|].
    now destruct (Order.is_deleted o).
  - intros o. unfold masked_view, gone, or_placeholder. simpl.
    repeat split; intros H.
    + destruct (find_by_id Supplier.id _ _) as [s|]; [rewrite H|]; reflexivity.
    + destruct (find_by_id Item.id _ _) as [i|]; [rewrite H|]; reflexivity.
    + destruct (find_by_id Unit.id _ _) as [u|]; [rewrite H|]; reflexivity.
  - intros o. unfold masked_view, or_placeholder. simpl.
    repeat split; intros x -> ->; reflexivity.
Qed.

(** No order validates against [OrderResponse]: the mapped class has no
    attribute payment_schedule. *)
Lemma order_response_none order : order_response order = None.
Proof.
  unfold order_response, obind.
  destruct (Order.id _); [|reflexivity].
  destruct (Order.supplier_id _); [|reflexivity].
  destruct (Order.item_id _); [|reflexivity].
  destruct (Order.unit_id _); [|reflexivity].
  destruct (Order.quantity _); [|reflexivity].
  destruct (Order.price _); [|reflexivity].
  destruct (Order.total _); reflexivity.
Qed.

Lemma orders_response_listing orders :
  orders_response orders = match orders with [] => Some [] | _ :: _ => None end.
Proof.
  destruct orders as [|order rest]; [reflexivity|].
  simpl. now rewrite order_response_none.
Qed.

Lemma filter_nil_existsb {A} (p : A -> bool) l :
  filter p l = [] <-> existsb p l = false.
Proof.
  induction l as [|x l IH]; simpl; [tauto|].
  destruct (p x); simpl; [split; discriminate | exact IH].
Qed.

(** The route, for every store: an empty list when no order is to be
    listed, 500 otherwise; the store is left as it was. *)
Lemma read_orders_route store :
  route orders_response read_orders store =
    (if existsb (fun o => negb (Order.is_deleted o)) (orders store)
     then InternalServerError
     else Answer [],
     store).
Proof.
  unfold route. rewrite (proj1 (read_orders_returns_masked store)).
  rewrite orders_response_listing. unfold listing_spec.
  destruct (existsb _ (orders store)) eqn:E.
  - destruct (filter _ (orders store)) eqn:F; [|reflexivity].
    apply filter_nil_existsb in F. congruence.
  - apply filter_nil_existsb in E. now rewrite E.
Qed.

(** C8 (the code departs from it): listing is to answer every order that is
    not soft-deleted, with the placeholder in place of a missing or
    soft-deleted relation, and to persist nothing.  The handler builds that
    list and the store is left as it was, but the list never reaches the
    client: the response model asks each order for payment_schedule and
    purchase_cycle, which the mapped class does not have, so that every
    listing with an order in it is answered 500.  Order 8 of the sample
    store, with every column set and its supplier, item and unit in place,
    is answered so, and so is order 7, whose supplier is soft-deleted. *)
Theorem read_orders_answers_500 :
  get_db read_orders Sample.store_order8 =
    (Ok [Loaded.Build Sample.full_order (Some Sample.acme) (Some Sample.bolt)
           (Some Sample.piece)],
     Sample.store_order8) /\
  route orders_response read_orders Sample.store_order8 =
    (InternalServerError, Sample.store_order8) /\
  get_db read_orders Sample.store_order7 =
    (Ok [Loaded.Build Sample.plain_order (Some placeholder_supplier)
           (Some Sample.bolt) (Some placeholder_unit)],
     Sample.store_order7) /\
  route orders_response read_orders Sample.store_order7 =
    (InternalServerError, Sample.store_order7) /\
  (forall store,
     route orders_response read_orders store =
       (if existsb (fun o => negb (Order.is_deleted o)) (orders store)
        then InternalServerError
        else Answer [],
        store)).
Proof.
  split; [reflexivity|]. split; [reflexivity|]. split; [reflexivity|].
  split; [reflexivity|]. apply read_orders_route.
Qed.

(** The substitutions are real changes held by the session: flushed, they
    would have written the placeholder rows and re-pointed the order. *)
Example read_orders_holds_changes_back :
  pending (snd (read_orders (SessionLocal Sample.store_order7))) =
    [AddSupplier placeholder_supplier; Relink (Some 7) RSupplier (Some 0);
     AddUnit placeholder_unit; Relink (Some 7) RUnit (Some 0)] /\
  apply_changes (pending (snd (read_orders (SessionLocal Sample.store_order7))))
    Sample.store_order7 =
    Ok (mktables [Sample.deleted_acme; placeholder_supplier] [Sample.bolt]
          [placeholder_unit]
          [Order.set_unit_id (Some 0) (Order.set_supplier_id (Some 0) Sample.plain_order)]).
Proof. split; reflexivity. Qed.

(** ** The session monad: what a step does to the database file *)

Create HintDb session.

Lemma kc_ret {A} (a : A) : keeps_committed (ret a).
Proof. intros db. reflexivity. Qed.

Lemma kc_raise {A} e : keeps_committed (@raise A e).
Proof. intros db. reflexivity. Qed.

Lemma kc_lift {A} (r : result A) : keeps_committed (lift r).
Proof. intros db. reflexivity. Qed.

Lemma kc_bind {A B} (m : M A) (k : A -> M B) :
  keeps_committed m -> (forall a, keeps_committed (k a)) -> keeps_committed (bind m k).
Proof.
  intros Hm Hk db. unfold bind.
  specialize (Hm db). destruct (m db) as [[a|e] db1]; simpl in *.
  - rewrite Hk. exact Hm.
  - exact Hm.
Qed.

Lemma kc_index row i : keeps_committed (index row i).
Proof. unfold index. destruct (nth_error row i); [apply kc_ret | apply kc_raise]. Qed.

Lemma kc_query_first {A} (table : tables -> list A) p : keeps_committed (query_first table p).
Proof. intros db. reflexivity. Qed.

Lemma kc_db_add c : keeps_committed (db_add c).
Proof. intros db. reflexivity. Qed.

Lemma kc_db_flush : keeps_committed db_flush.
Proof. intros db. unfold db_flush. destruct (apply_changes _ _); reflexivity. Qed.

Lemma kc_db_rollback : keeps_committed db_rollback.
Proof. intros db. reflexivity. Qed.

Lemma kc_flush_new {A} (insert : A -> tables -> result (A * tables)) obj :
  keeps_committed (flush_new insert obj).
Proof.
  unfold flush_new. apply kc_bind; [apply kc_db_flush|].
  intros _ db. destruct (insert obj (working db)) as [[row t]|e]; reflexivity.
Qed.

#[local] Hint Resolve kc_ret kc_raise kc_lift kc_index kc_query_first kc_db_add
  kc_db_flush kc_db_rollback kc_flush_new : session.

Ltac keeps :=
  repeat first
    [ solve [auto with session]
    | match goal with
      | |- keeps_committed (match ?x with _ => _ end) => destruct x
      end
    | apply kc_bind; [|intros ?] ].

Lemma kc_reconcile_supplier row : keeps_committed (reconcile_supplier row).
Proof. unfold reconcile_supplier. keeps. Qed.

Lemma kc_reconcile_item row : keeps_committed (reconcile_item row).
Proof. unfold reconcile_item. keeps. Qed.

Lemma kc_reconcile_unit row : keeps_committed (reconcile_unit row).
Proof. unfold reconcile_unit. keeps. Qed.

#[local] Hint Resolve kc_reconcile_supplier kc_reconcile_item kc_reconcile_unit : session.

Lemma kc_upload_row today row : keeps_committed (upload_row today row).
Proof. unfold upload_row. keeps. Qed.

Lemma kc_upload_rows today rows : forall orders, keeps_committed (upload_rows today rows orders).
Proof.
  induction rows as [|row rest IH]; intros orders; simpl.
  - apply kc_ret.
  - destruct (negb _); [apply IH|].
    apply kc_bind; [apply kc_upload_row | intros o; apply IH].
Qed.

Lemma kc_db_add_all orders : keeps_committed (db_add_all orders).
Proof. induction orders; simpl; keeps. Qed.

#[local] Hint Resolve kc_upload_row kc_upload_rows kc_db_add_all : session.

Lemma rc_keeps {A} (m : M A) : keeps_committed m -> raises_clean m.
Proof. intros H db e db' E. specialize (H db). rewrite E in H. exact H. Qed.

Lemma rc_bind {A B} (m : M A) (k : A -> M B) :
  keeps_committed m -> (forall a, raises_clean (k a)) -> raises_clean (bind m k).
Proof.
  intros Hm Hk db e db' E. unfold bind in E.
  specialize (Hm db). destruct (m db) as [[a|e1] db1]; simpl in *.
  - rewrite (Hk a db1 e db' E). exact Hm.
  - injection E as <- <-. exact Hm.
Qed.

(** A commit that raises has written nothing. *)
Lemma rc_commit_then {A} (a : A) : raises_clean (db_commit ;;; ret a).
Proof.
  intros db e db' E. unfold db_commit, bind, db_flush, ret in E.
  destruct (apply_changes (pending db) (working db)); simpl in E.
  - discriminate.
  - injection E as <- <-. reflexivity.
Qed.

(** ** Reference reconciliation *)

Lemma find_none_names {A} (name_of : A -> option string) key l :
  find (fun x => opt_str_eqb (name_of x) key) l = None ->
  (forall x, In x l -> name_of x <> key) /\
  existsb (opt_str_eqb key) (map name_of l) = false.
Proof.
  intros H. split.
  - intros x I E. apply (find_none _ _ H) in I. apply opt_str_eqb_eq in E. congruence.
  - induction l as [|x l IH]; simpl in *; [reflexivity|].
    destruct (opt_str_eqb (name_of x) key) eqn:E; [discriminate|].
    rewrite opt_str_eqb_sym, E. simpl. auto.
Qed.

Lemma unique_name_free table key names :
  existsb (opt_str_eqb key) names = false -> unique_name table key names = Ok tt.
Proof. intros H. unfold unique_name. rewrite H. destruct key; reflexivity. Qed.

(** But for a datetime and an object of another class, a cell is looked up
    under the text it is stored as. *)
Lemma lookup_text_same cell : same_text cell = true -> lookup_text cell = bind_text cell.
Proof. destruct cell; try reflexivity; discriminate. Qed.

Lemma reconcile_supplier_spec row db s db' :
  pending db = [] ->
  reconcile_supplier row db = (Ok s, db') ->
  exists cell key,
    nth_error row 1 = Some cell /\ lookup_text cell = Ok key /\
    (same_text cell = true -> bind_text cell = Ok key) /\
    resolved_by_name Supplier.name key (bind_text cell)
      (suppliers (working db)) (suppliers (working db')) s.
Proof.
  intros P. unfold reconcile_supplier, bind, index, lift, query_first, ret, raise.
  destruct (nth_error row 1) as [cell|] eqn:C; [|discriminate].
  destruct (lookup_text cell) as [key|] eqn:K; [|discriminate].
  assert (E : same_text cell = true -> bind_text cell = Ok key)
    by (intros T; now rewrite <- (lookup_text_same cell T)).
  destruct (find _ (suppliers (working db))) as [s0|] eqn:F.
  - intros [= <- <-]. exists cell, key.
    do 3 (split; [reflexivity || assumption|]). left. auto.
  - destruct (nth_error row 9) as [c9|]; [|discriminate].
    destruct (bind_text cell) as [name|] eqn:B; [|discriminate].
    destruct (bind_text c9) as [contact|]; [|discriminate].
    cbn [declarative_init find existsb Supplier.attrs String.eqb Ascii.eqb Bool.eqb negb orb].
    unfold flush_new, bind, db_flush. rewrite P. cbn [apply_changes working].
    unfold insert_supplier, rbind, new_key. cbn [Supplier.id Supplier.name].
    destruct (find_none_names Supplier.name key _ F) as [N _].
    destruct (unique_name "suppliers" name _); [|discriminate].
    intros [= <- <-]. exists cell, key. rewrite B.
    do 3 (split; [reflexivity || assumption|]). right. auto.
Qed.

Lemma reconcile_item_spec row db i db' :
  pending db = [] ->
  reconcile_item row db = (Ok i, db') ->
  exists cell key,
    nth_error row 2 = Some cell /\ lookup_text cell = Ok key /\
    (same_text cell = true -> bind_text cell = Ok key) /\
    resolved_by_name Item.name key (bind_text cell)
      (items (working db)) (items (working db')) i.
Proof.
  intros P. unfold reconcile_item, bind, index, lift, query_first, ret, raise.
  destruct (nth_error row 2) as [cell|] eqn:C; [|discriminate].
  destruct (lookup_text cell) as [key|] eqn:K; [|discriminate].
  assert (E : same_text cell = true -> bind_text cell = Ok key)
    by (intros T; now rewrite <- (lookup_text_same cell T)).
  destruct (find _ (items (working db))) as [i0|] eqn:F.
  - intros [= <- <-]. exists cell, key.
    do 3 (split; [reflexivity || assumption|]). left. auto.
  - destruct (nth_error row 10) as [c10|]; [|discriminate].
    destruct (nth_error row 3) as [c3|]; [|discriminate].
    destruct (get_float_value c3) as [price|]; [|discriminate].
    destruct (bind_text cell) as [name|] eqn:B; [|discriminate].
    cbn [declarative_init find existsb Item.attrs String.eqb Ascii.eqb Bool.eqb negb orb].
    unfold flush_new, bind, db_flush. rewrite P. cbn [apply_changes working].
    unfold insert_item, rbind, new_key. cbn [Item.id Item.name].
    destruct (find_none_names Item.name key _ F) as [N _].
    destruct (unique_name "items" name _); [|discriminate].
    intros [= <- <-]. exists cell, key. rewrite B.
    do 3 (split; [reflexivity || assumption|]). right. auto.
Qed.

Lemma reconcile_unit_spec row db u db' :
  pending db = [] ->
  reconcile_unit row db = (Ok u, db') ->
  exists cell,
    nth_error row 4 = Some cell /\
    resolved_by_name Unit.name (Some (str_or cell "개")) (Ok (Some (str_or cell "개")))
      (units (working db)) (units (working db')) u.
Proof.
  intros P. unfold reconcile_unit, bind, index, lift, query_first, ret, raise.
  destruct (nth_error row 4) as [cell|] eqn:C; [|discriminate].
  destruct (find _ (units (working db))) as [u0|] eqn:F.
  - intros [= <- <-]. exists cell. split; [reflexivity|]. left. auto.
  - cbn [declarative_init find existsb Unit.attrs String.eqb Ascii.eqb Bool.eqb negb orb].
    unfold flush_new, bind, db_flush. rewrite P. cbn [apply_changes working].
    unfold insert_unit, rbind, new_key. cbn [Unit.id Unit.name].
    destruct (find_none_names Unit.name (Some (str_or cell "개")) _ F) as [N U].
    rewrite (unique_name_free "units" _ _ U).
    intros [= <- <-]. exists cell. split; [reflexivity|]. right. auto.
Qed.

Lemma data_row_ok_cells row :
  data_row_ok row = true ->
  exists c0 c1 c2 c3 c4 c5 c6 c7 c8 c9 c10,
    row = [c0; c1; c2; c3; c4; c5; c6; c7; c8; c9; c10] /\
    forallb bindable row = true /\
    (exists price, get_float_value c3 = Ok price).
Proof.
  unfold data_row_ok. intros H.
  apply andb_prop in H. destruct H as [H F]. apply andb_prop in H. destruct H as [L B].
  destruct row as [|c0 [|c1 [|c2 [|c3 [|c4 [|c5 [|c6 [|c7 [|c8 [|c9 [|c10 [|? ?]]]]]]]]]]]];
    try discriminate.
  exists c0, c1, c2, c3, c4, c5, c6, c7, c8, c9, c10.
  split; [reflexivity|]. split; [exact B|].
  simpl in F. destruct (get_float_value c3) as [price|]; [eauto | discriminate].
Qed.

Lemma bindable_text c : bindable c = true -> exists t, bind_text c = Ok t.
Proof. unfold bindable. destruct (bind_text c); [eauto | discriminate]. Qed.

Ltac bound c :=
  match goal with
  | B : forallb bindable _ = true |- _ =>
      let H := fresh "H" in
      assert (H : bindable c = true)
        by (simpl in B; repeat (apply andb_prop in B; destruct B as [? B]); assumption);
      apply bindable_text in H; destruct H as [? H]; rewrite H
  end.

Lemma reconcile_supplier_total row db :
  pending db = [] -> data_row_ok row = true -> same_text (nth 1 row PNone) = true ->
  exists s db', reconcile_supplier row db = (Ok s, db').
Proof.
  intros P R D. apply data_row_ok_cells in R.
  destruct R as (c0 & c1 & c2 & c3 & c4 & c5 & c6 & c7 & c8 & c9 & c10 & -> & B & _).
  cbn [nth] in D.
  unfold reconcile_supplier, bind, index, lift, query_first, ret, raise.
  cbn [nth_error]. rewrite (lookup_text_same c1 D).
  assert (H1 : bindable c1 = true)
    by (simpl in B; repeat (apply andb_prop in B; destruct B as [? B]); assumption).
  apply bindable_text in H1. destruct H1 as [key H1]. rewrite H1.
  destruct (find _ (suppliers (working db))) as [s0|] eqn:F; [eauto|].
  bound c9.
  cbn [declarative_init find existsb Supplier.attrs String.eqb Ascii.eqb Bool.eqb negb orb].
  unfold flush_new, bind, db_flush. rewrite P. cbn [apply_changes working].
  unfold insert_supplier, rbind, new_key. cbn [Supplier.id Supplier.name].
  destruct (find_none_names Supplier.name _ _ F) as [_ U].
  rewrite (unique_name_free "suppliers" _ _ U). eauto.
Qed.

Lemma reconcile_item_total row db :
  pending db = [] -> data_row_ok row = true -> same_text (nth 2 row PNone) = true ->
  exists i db', reconcile_item row db = (Ok i, db').
Proof.
  intros P R D. apply data_row_ok_cells in R.
  destruct R as (c0 & c1 & c2 & c3 & c4 & c5 & c6 & c7 & c8 & c9 & c10 & -> & B & [price G]).
  cbn [nth] in D.
  unfold reconcile_item, bind, index, lift, query_first, ret, raise.
  cbn [nth_error]. rewrite (lookup_text_same c2 D).
  assert (H2 : bindable c2 = true)
    by (simpl in B; repeat (apply andb_prop in B; destruct B as [? B]); assumption).
  apply bindable_text in H2. destruct H2 as [key H2]. rewrite H2.
  destruct (find _ (items (working db))) as [i0|] eqn:F; [eauto|].
  rewrite G.
  cbn [declarative_init find existsb Item.attrs String.eqb Ascii.eqb Bool.eqb negb orb].
  unfold flush_new, bind, db_flush. rewrite P. cbn [apply_changes working].
  unfold insert_item, rbind, new_key. cbn [Item.id Item.name].
  destruct (find_none_names Item.name _ _ F) as [_ U].
  rewrite (unique_name_free "items" _ _ U). eauto.
Qed.

Lemma reconcile_unit_total row db :
  pending db = [] -> data_row_ok row = true ->
  exists u db', reconcile_unit row db = (Ok u, db').
Proof.
  intros P R. apply data_row_ok_cells in R.
  destruct R as (c0 & c1 & c2 & c3 & c4 & c5 & c6 & c7 & c8 & c9 & c10 & -> & B & _).
  unfold reconcile_unit, bind, index, lift, query_first, ret, raise.
  cbn [nth_error].
  destruct (find _ (units (working db))) as [u0|] eqn:F; [eauto|].
  cbn [declarative_init find existsb Unit.attrs String.eqb Ascii.eqb Bool.eqb negb orb].
  unfold flush_new, bind, db_flush. rewrite P. cbn [apply_changes working].
  unfold insert_unit, rbind, new_key. cbn [Unit.id Unit.name].
  destruct (find_none_names Unit.name _ _ F) as [_ U].
  rewrite (unique_name_free "units" _ _ U). eauto.
Qed.

(** C1 (as amended): for every data row the reconciliation of supplier, item
    and unit looks up the first existing row whose name is the text of the
    cell, whatever its deleted flag, and creates a new reference row only
    when the table holds no row of that text at all, deleted or not.  The
    text looked up is the text stored, except for a datetime cell, which is
    looked up with its microseconds written and stored without them when
    they are zero, and for an object of another class, which is not stored
    at all.  On a row of eleven bindable cells whose name cells are looked up
    as they are stored each of the three does return a row. *)
Theorem reconcile_by_name_whatever_the_flag row db :
  pending db = [] ->
  ((forall s db', reconcile_supplier row db = (Ok s, db') ->
      exists cell key,
        nth_error row 1 = Some cell /\ lookup_text cell = Ok key /\
        (same_text cell = true -> bind_text cell = Ok key) /\
        resolved_by_name Supplier.name key (bind_text cell)
          (suppliers (working db)) (suppliers (working db')) s) /\
   (data_row_ok row = true -> same_text (nth 1 row PNone) = true ->
    exists s db', reconcile_supplier row db = (Ok s, db'))) /\
  ((forall i db', reconcile_item row db = (Ok i, db') ->
      exists cell key,
        nth_error row 2 = Some cell /\ lookup_text cell = Ok key /\
        (same_text cell = true -> bind_text cell = Ok key) /\
        resolved_by_name Item.name key (bind_text cell)
          (items (working db)) (items (working db')) i) /\
   (data_row_ok row = true -> same_text (nth 2 row PNone) = true ->
    exists i db', reconcile_item row db = (Ok i, db'))) /\
  ((forall u db', reconcile_unit row db = (Ok u, db') ->
      exists cell,
        nth_error row 4 = Some cell /\
        resolved_by_name Unit.name (Some (str_or cell "개")) (Ok (Some (str_or cell "개")))
          (units (working db)) (units (working db')) u) /\
   (data_row_ok row = true -> exists u db', reconcile_unit row db = (Ok u, db'))).
Proof.
  intros P. repeat split.
  - intros s db'. now apply reconcile_supplier_spec.
  - now apply reconcile_supplier_total.
  - intros i db'. now apply reconcile_item_spec.
  - now apply reconcile_item_total.
  - intros u db'. now apply reconcile_unit_spec.
  - now apply reconcile_unit_total.
Qed.

Lemma reconcile_by_name_whatever_the_flag_witness :
  (exists cell key,
     nth_error Sample.acme_row 1 = Some cell /\ lookup_text cell = Ok key /\
     (same_text cell = true -> bind_text cell = Ok key) /\
     resolved_by_name Supplier.name key (bind_text cell)
       [Sample.deleted_acme] [Sample.deleted_acme] Sample.deleted_acme) /\
  (exists i db',
     reconcile_item Sample.acme_row (SessionLocal Sample.store_deleted_acme) = (Ok i, db')).
Proof.
  destruct (reconcile_by_name_whatever_the_flag Sample.acme_row
              (SessionLocal Sample.store_deleted_acme) eq_refl)
    as [[S _] [[_ T] _]].
  split.
  - exact (S Sample.deleted_acme (SessionLocal Sample.store_deleted_acme) eq_refl).
  - exact (T eq_refl eq_refl).
Defined.

(** A datetime in the name cell: the row stored under its text is missed by
    the lookup, and the insertion that follows runs into it. *)
Example reconcile_supplier_misses_datetime_name :
  let stored := Supplier.Build (Some 1) (Some "2024-03-05 00:00:00") None None false in
  let row := [PNone; PDateTime (mkdate 2024 3 5) "2024-03-05 00:00:00";
              PNone; PNone; PNone; PNone; PNone; PNone; PNone; PNone; PNone] in
  lookup_text (PDateTime (mkdate 2024 3 5) "2024-03-05 00:00:00") =
    Ok (Some "2024-03-05 00:00:00.000000") /\
  reconcile_supplier row (SessionLocal (mktables [stored] [] [] [])) =
    (Raise (IntegrityError "UNIQUE constraint failed: suppliers.name"),
     SessionLocal (mktables [stored] [] [] [])).
Proof. split; reflexivity. Qed.

(** C1 as first stated does not hold: where the only supplier of the name
    is soft-deleted, so that no non-deleted row matches, the lookup still
    resolves to that deleted row and nothing is created. *)
Lemma reconcile_supplier_resolves_deleted_row :
  reconcile_supplier Sample.acme_row (SessionLocal Sample.store_deleted_acme) =
    (Ok Sample.deleted_acme, SessionLocal Sample.store_deleted_acme) /\
  Supplier.is_deleted Sample.deleted_acme = true /\
  find (fun s => opt_str_eqb (Supplier.name s) (Some "ACME")
                 && negb (Supplier.is_deleted s))
    (suppliers Sample.store_deleted_acme) = None.
Proof. repeat split. Qed.

(** ** Spreadsheet ingestion *)

Lemma rc_upload_body today file :
  raises_clean
    (ws <- lift (UploadFile.workbook file) ;;
     orders <- upload_rows today (data_rows ws) [] ;;
     db_add_all orders ;;;
     db_commit ;;;
     ret (uploaded (List.length orders))).
Proof.
  apply rc_bind; [apply kc_lift | intros ws].
  apply rc_bind; [apply kc_upload_rows | intros orders].
  apply rc_bind; [apply kc_db_add_all | intros _].
  apply rc_commit_then.
Qed.

(** Whatever session the handler is given, a request it answers with an
    exception has not touched the database file. *)
Lemma upload_orders_raise_keeps_file today file db e db' :
  upload_orders today file db = (Raise e, db') -> committed db' = committed db.
Proof.
  unfold upload_orders.
  destruct (negb (Text.endswith _ _)).
  - intros [= <- <-]. reflexivity.
  - unfold try_catch.
    match goal with |- (let (_, _) := ?b ?d in _) = _ -> _ =>
      destruct (b d) as [[m|e0] db1] eqn:E end.
    + discriminate.
    + apply rc_upload_body in E.
      unfold bind, db_rollback, raise. intros [= <- <-]. exact E.
Qed.

(** C5: ingestion is all or nothing.  Whenever the handler raises, the
    session it leaves is the one the request started with on the unchanged
    store: nothing is committed, and the reference rows flushed on the way
    are rolled back with the rest. *)
Theorem upload_orders_all_or_nothing today file store e db' :
  upload_orders today file (SessionLocal store) = (Raise e, db') ->
  db' = SessionLocal store.
Proof.
  unfold upload_orders.
  destruct (negb (Text.endswith _ _)).
  - intros [= <- <-]. reflexivity.
  - unfold try_catch.
    match goal with |- (let (_, _) := ?b ?d in _) = _ -> _ =>
      destruct (b d) as [[m|e0] db1] eqn:E end.
    + discriminate.
    + pose proof (rc_upload_body today file _ _ _ E) as C. simpl in C.
      unfold bind, db_rollback, raise. intros [= <- <-].
      unfold SessionLocal. rewrite C. reflexivity.
Qed.

Lemma upload_orders_all_or_nothing_witness :
  snd (upload_orders Sample.today Sample.one_row_file (SessionLocal Sample.empty_store))
  = SessionLocal Sample.empty_store.
Proof.
  apply (upload_orders_all_or_nothing Sample.today Sample.one_row_file Sample.empty_store
           (HTTPException 500 "'payment_schedule' is an invalid keyword argument for Order")).
  reflexivity.
Defined.

(** Half way through that call the three reference rows are in the
    transaction; the rollback is what removes them. *)
Example inline_reference_rows_are_flushed :
  working (snd (upload_row Sample.today Sample.acme_row (SessionLocal Sample.empty_store)))
  = mktables
      [Supplier.Build (Some 1) (Some "ACME") (Some "010") None false]
      [Item.Build (Some 1) (Some "bolt") None (Some (S754_finite false 5427189394702336 (-42)))
         false false]
      [Unit.Build (Some 1) (Some "box") (Some "") false]
      [].
Proof. reflexivity. Qed.

Lemma ar_bind {A B} (m : M A) (k : A -> M B) :
  (forall a, always_raises (k a)) -> always_raises (bind m k).
Proof.
  intros H db. unfold bind. destruct (m db) as [[a|e] db1]; [apply H | eauto].
Qed.

(** The [models.Order(...)] call of the upload handler names two keywords
    the class does not have. *)
Lemma order_init_raises (o : Order.t) :
  declarative_init "Order" Order.attrs order_kwargs o =
    Raise (TypeError "'payment_schedule' is an invalid keyword argument for Order").
Proof. reflexivity. Qed.

Lemma upload_row_raises today row : always_raises (upload_row today row).
Proof.
  unfold upload_row. repeat (apply ar_bind; intros ?).
  intros db. rewrite order_init_raises. unfold lift. eauto.
Qed.

(** If the loop comes through, every row was empty and nothing was done. *)
Lemma upload_rows_ok today rows : forall orders db r db',
  upload_rows today rows orders db = (Ok r, db') ->
  r = orders /\ db' = db /\ forallb (fun row => negb (existsb truthy row)) rows = true.
Proof.
  induction rows as [|row rest IH]; intros orders db r db'; simpl.
  - intros [= <- <-]. auto.
  - destruct (negb (existsb truthy row)).
    + intros H. apply IH in H. simpl. exact H.
    + unfold bind. destruct (upload_row_raises today row db) as (e & db1 & ->).
      discriminate.
Qed.

(** No upload writes anything: a sheet with a data row that is not empty is
    answered 500 and rolled back, a sheet without one commits no change. *)
Lemma upload_orders_never_writes today file store :
  snd (get_db (upload_orders today file) store) = store /\
  forall msg, fst (get_db (upload_orders today file) store) = Ok msg ->
    msg = "Successfully uploaded 0 orders".
Proof.
  unfold get_db.
  destruct (upload_orders today file (SessionLocal store)) as [[msg|e] db'] eqn:E.
  - revert E. unfold upload_orders.
    destruct (negb (Text.endswith _ _)); [discriminate|].
    unfold try_catch, bind at 1, lift.
    destruct (UploadFile.workbook file) as [ws|e0]; [|discriminate].
    unfold bind at 1.
    destruct (upload_rows today (data_rows ws) [] (SessionLocal store))
      as [[orders|e1] db1] eqn:U; [|discriminate].
    apply upload_rows_ok in U. destruct U as (-> & -> & _).
    simpl. intros [= <- <-]. split; [reflexivity|]. intros m [= <-]. reflexivity.
  - apply upload_orders_raise_keeps_file in E. simpl. rewrite E.
    split; [reflexivity | discriminate].
Qed.

(** C6 (the code departs from it): a sheet with a header row, an empty row
    and one valid data row is to create one order and report one; the
    handler answers 500 and the store stays empty, because the order is
    built with the keywords payment_schedule and purchase_cycle, which the
    mapped class does not have. *)
Theorem upload_valid_row_creates_no_order :
  data_row_ok Sample.acme_row = true /\
  get_db (upload_orders Sample.today Sample.one_row_file) Sample.empty_store =
    (Raise (HTTPException 500
              "'payment_schedule' is an invalid keyword argument for Order"),
     Sample.empty_store).
Proof. split; reflexivity. Qed.

(** ** Creating a supplier *)

Lemma find_never {A} (p : A -> bool) l : find (fun x => p x && false) l = None.
Proof.
  induction l as [|x l IH]; simpl; [reflexivity|].
  now rewrite andb_false_r.
Qed.

(** A name some row already carries, deleted or not, is a conflict: the
    explicit check finds nothing, the UNIQUE constraint on the column does. *)
Lemma create_supplier_existing_name supplier store s :
  In s (suppliers store) ->
  Supplier.name s = Some (SupplierBase.name supplier) ->
  get_db (create_supplier supplier) store =
    (Raise (HTTPException 400 "already_exists"), store).
Proof.
  intros I N.
  assert (U : existsb (opt_str_eqb (Some (SupplierBase.name supplier)))
                (map Supplier.name (suppliers store)) = true).
  { apply existsb_exists. exists (Supplier.name s). split; [now apply in_map|].
    now apply opt_str_eqb_eq. }
  unfold get_db, create_supplier, try_catch, bind at 1, query_first, is_deleted_is_False.
  rewrite find_never.
  cbn [declarative_init find existsb Supplier.attrs String.eqb Ascii.eqb Bool.eqb negb orb].
  unfold bind, lift, flush_new, bind, db_flush, SessionLocal.
  cbn [pending working committed apply_changes].
  unfold insert_supplier, rbind, new_key. cbn [Supplier.id Supplier.name].
  unfold unique_name. rewrite U. reflexivity.
Qed.

(** A name no row carries is accepted; the new row comes back with its key. *)
Lemma create_supplier_fresh_name supplier store :
  (forall s, In s (suppliers store) -> Supplier.name s <> Some (SupplierBase.name supplier)) ->
  let row := Supplier.Build (Some (next_id (map Supplier.id (suppliers store))))
               (Some (SupplierBase.name supplier)) (SupplierBase.contact supplier)
               (SupplierBase.address supplier) false in
  get_db (create_supplier supplier) store =
    (Ok row, mktables (suppliers store ++ [row]) (items store) (units store) (orders store)).
Proof.
  intros F row.
  assert (U : existsb (opt_str_eqb (Some (SupplierBase.name supplier)))
                (map Supplier.name (suppliers store)) = false).
  { destruct (existsb _ _) eqn:E; [|reflexivity].
    apply existsb_exists in E. destruct E as [n [I E]].
    apply in_map_iff in I. destruct I as [s [<- I]].
    apply opt_str_eqb_eq in E. symmetry in E. now apply F in I. }
  unfold get_db, create_supplier, try_catch, bind at 1, query_first, is_deleted_is_False.
  rewrite find_never.
  cbn [declarative_init find existsb Supplier.attrs String.eqb Ascii.eqb Bool.eqb negb orb].
  unfold bind, lift, flush_new, db_commit, bind, db_flush, SessionLocal.
  cbn [pending working committed apply_changes].
  unfold insert_supplier, rbind, new_key. cbn [Supplier.id Supplier.name].
  unfold unique_name. rewrite U. reflexivity.
Qed.

(** C2 (the code departs from it): a name that only a soft-deleted supplier
    carries is to be accepted; the handler answers 400 "already_exists" and
    stores nothing, since its deleted-flag test is the constant False and
    the conflict comes from the UNIQUE constraint, which does not look at
    the flag. *)
Theorem create_supplier_rejects_deleted_name :
  find (fun s => opt_str_eqb (Supplier.name s) (Some "ACME")
                 && negb (Supplier.is_deleted s))
    (suppliers Sample.store_deleted_acme) = None /\
  get_db (create_supplier (SupplierBase.Build "ACME" None None)) Sample.store_deleted_acme =
    (Raise (HTTPException 400 "already_exists"), Sample.store_deleted_acme).
Proof. split; reflexivity. Qed.

(** * Further properties of the handlers *)

(** ** Deleting *)

Lemma delete_ids_In {A} (id : A -> option Z) ids l r :
  In r (delete_ids id ids l) <-> In r l /\ id_in ids (id r) = false.
Proof.
  unfold delete_ids. rewrite filter_In.
  destruct (id_in ids (id r)); simpl; intuition discriminate.
Qed.

Lemma id_in_spec ids key : id_in ids key = true <-> exists k, key = Some k /\ In k ids.
Proof.
  unfold id_in. rewrite existsb_exists. split.
  - intros [k [I E]]. apply opt_Z_eqb_eq in E. eauto.
  - intros [k [-> I]]. exists k. split; [exact I | now apply opt_Z_eqb_eq].
Qed.

Lemma find_by_id_deleted {A} (id : A -> option Z) ids k l :
  In k ids -> find_by_id id (Some k) (delete_ids id ids l) = None.
Proof.
  intros I. unfold find_by_id.
  destruct (find _ _) as [r|] eqn:F; [|reflexivity].
  apply find_some in F. destruct F as [F E].
  apply delete_ids_In in F. destruct F as [_ F].
  apply opt_Z_eqb_eq in E.
  assert (id_in ids (id r) = true) by (apply id_in_spec; eauto).
  congruence.
Qed.

(** X1: the three bulk deletes remove exactly the rows whose id is in the
    list, soft-deleted or not, skip the ids no row has, answer success in
    every case and leave the other tables alone, the orders that point at
    a removed row included. *)
Theorem bulk_delete_removes_exactly ids store :
  (get_db (Api.bulk_delete_suppliers ids) store =
     (Ok "Suppliers deleted successfully",
      mktables (delete_ids Supplier.id ids (suppliers store))
        (items store) (units store) (orders store)) /\
   forall s, In s (delete_ids Supplier.id ids (suppliers store)) <->
             In s (suppliers store) /\ forall k, In k ids -> Supplier.id s <> Some k) /\
  (get_db (Api.bulk_delete_items ids) store =
     (Ok "Items deleted successfully",
      mktables (suppliers store) (delete_ids Item.id ids (items store))
        (units store) (orders store)) /\
   forall i, In i (delete_ids Item.id ids (items store)) <->
             In i (items store) /\ forall k, In k ids -> Item.id i <> Some k) /\
  (get_db (Api.bulk_delete_units ids) store =
     (Ok "Units deleted successfully",
      mktables (suppliers store) (items store)
        (delete_ids Unit.id ids (units store)) (orders store)) /\
   forall u, In u (delete_ids Unit.id ids (units store)) <->
             In u (units store) /\ forall k, In k ids -> Unit.id u <> Some k).
Proof.
  assert (G : forall A (id : A -> option Z) (l : list A) r,
            In r (delete_ids id ids l) <->
            In r l /\ forall k, In k ids -> id r <> Some k).
  { intros A id l r. rewrite delete_ids_In. split; intros [I H]; split; auto.
    - intros k K E. assert (id_in ids (id r) = true) by (apply id_in_spec; eauto).
      congruence.
    - destruct (id_in ids (id r)) eqn:E; [|reflexivity].
      apply id_in_spec in E. destruct E as [k [E K]]. now apply H in K. }
  split; [|split]; (split; [reflexivity | intros r; apply G]).
Qed.

Lemma bulk_delete_removes_exactly_witness :
  get_db (Api.bulk_delete_suppliers [1; 5]) Sample2.store =
    (Ok "Suppliers deleted successfully",
     mktables [Sample2.beta] [Sample.bolt] [Sample2.box; Sample2.kg]
       [Sample.plain_order; Sample2.order9]) /\
  In Sample2.beta (delete_ids Supplier.id [1; 5] (suppliers Sample2.store)).
Proof.
  destruct (bulk_delete_removes_exactly [1; 5] Sample2.store) as [[E H] _].
  split; [exact E|]. apply H. split; [right; left; reflexivity|].
  intros k [<-|[<-|[]]]; discriminate.
Defined.

(** X2: a bulk delete leaves the orders that pointed at a removed row
    dangling.  After a supplier, an item or a unit is bulk-deleted, an order
    that pointed at it is still stored, no row carries the key it points
    at, and for such an order that is not soft-deleted the handler
    [read_orders] builds an entry with the placeholder in the place of the
    removed row; GET /orders/ itself answers 500, the list failing the
    response model, and leaves the store as the delete left it. *)
Theorem bulk_delete_leaves_dangling_orders ids store o k :
  In o (orders store) -> Order.is_deleted o = false -> In k ids ->
  (Order.supplier_id o = Some k ->
   exists store' views,
     get_db (Api.bulk_delete_suppliers ids) store =
       (Ok "Suppliers deleted successfully", store') /\
     In o (orders store') /\
     find_by_id Supplier.id (Order.supplier_id o) (suppliers store') = None /\
     get_db read_orders store' = (Ok views, store') /\
     In (masked_view store' o) views /\
     Loaded.supplier (masked_view store' o) = Some placeholder_supplier /\
     route orders_response read_orders store' = (InternalServerError, store')) /\
  (Order.item_id o = Some k ->
   exists store' views,
     get_db (Api.bulk_delete_items ids) store =
       (Ok "Items deleted successfully", store') /\
     In o (orders store') /\
     find_by_id Item.id (Order.item_id o) (items store') = None /\
     get_db read_orders store' = (Ok views, store') /\
     In (masked_view store' o) views /\
     Loaded.item (masked_view store' o) = Some placeholder_item /\
     route orders_response read_orders store' = (InternalServerError, store')) /\
  (Order.unit_id o = Some k ->
   exists store' views,
     get_db (Api.bulk_delete_units ids) store =
       (Ok "Units deleted successfully", store') /\
     In o (orders store') /\
     find_by_id Unit.id (Order.unit_id o) (units store') = None /\
     get_db read_orders store' = (Ok views, store') /\
     In (masked_view store' o) views /\
     Loaded.unit (masked_view store' o) = Some placeholder_unit /\
     route orders_response read_orders store' = (InternalServerError, store')).
Proof.
  intros I D K.
  assert (L : forall t, get_db read_orders t = (Ok (listing_spec t), t)).
  { intros t. unfold get_db. destruct (read_orders_spec (SessionLocal t)) as [p ->].
    reflexivity. }
  assert (V : forall t, orders t = orders store -> In (masked_view t o) (listing_spec t)).
  { intros t E. unfold listing_spec. apply in_map, filter_In. rewrite E.
    split; [exact I | now rewrite D]. }
  assert (R : forall t, orders t = orders store ->
                route orders_response read_orders t = (InternalServerError, t)).
  { intros t E. rewrite read_orders_route, E.
    replace (existsb (fun o => negb (Order.is_deleted o)) (orders store)) with true;
      [reflexivity|].
    symmetry. apply existsb_exists. exists o. split; [exact I | now rewrite D]. }
  split; [|split]; intros F.
  - exists (mktables (delete_ids Supplier.id ids (suppliers store))
              (items store) (units store) (orders store)).
    eexists. split; [reflexivity|]. split; [exact I|].
    assert (N : find_by_id Supplier.id (Order.supplier_id o)
                  (delete_ids Supplier.id ids (suppliers store)) = None)
      by (rewrite F; apply (find_by_id_deleted _ ids k _ K)).
    split; [exact N|]. split; [apply L|]. split; [apply V; reflexivity|].
    split; [|apply R; reflexivity].
    unfold masked_view. cbn [Loaded.supplier suppliers]. now rewrite N.
  - exists (mktables (suppliers store) (delete_ids Item.id ids (items store))
              (units store) (orders store)).
    eexists. split; [reflexivity|]. split; [exact I|].
    assert (N : find_by_id Item.id (Order.item_id o)
                  (delete_ids Item.id ids (items store)) = None)
      by (rewrite F; apply (find_by_id_deleted _ ids k _ K)).
    split; [exact N|]. split; [apply L|]. split; [apply V; reflexivity|].
    split; [|apply R; reflexivity].
    unfold masked_view. cbn [Loaded.item items]. now rewrite N.
  - exists (mktables (suppliers store) (items store)
              (delete_ids Unit.id ids (units store)) (orders store)).
    eexists. split; [reflexivity|]. split; [exact I|].
    assert (N : find_by_id Unit.id (Order.unit_id o)
                  (delete_ids Unit.id ids (units store)) = None)
      by (rewrite F; apply (find_by_id_deleted _ ids k _ K)).
    split; [exact N|]. split; [apply L|]. split; [apply V; reflexivity|].
    split; [|apply R; reflexivity].
    unfold masked_view. cbn [Loaded.unit units]. now rewrite N.
Qed.

Lemma bulk_delete_leaves_dangling_orders_witness :
  exists store' views,
    get_db (Api.bulk_delete_suppliers [2]) Sample2.store =
      (Ok "Suppliers deleted successfully", store') /\
    In Sample2.order9 (orders store') /\
    find_by_id Supplier.id (Order.supplier_id Sample2.order9) (suppliers store') = None /\
    get_db read_orders store' = (Ok views, store') /\
    In (masked_view store' Sample2.order9) views /\
    Loaded.supplier (masked_view store' Sample2.order9) = Some placeholder_supplier /\
    route orders_response read_orders store' = (InternalServerError, store').
Proof.
  apply (bulk_delete_leaves_dangling_orders [2] Sample2.store Sample2.order9 2).
  - right; left; reflexivity.
  - reflexivity.
  - left; reflexivity.
  - reflexivity.
Defined.

(** The loop of [delete_orders] reads only; it marks the first row of each
    id that has one. *)
Lemma mark_orders_spec ids : forall marked db,
  exists found,
    Api.mark_orders ids marked db = (Ok (marked ++ found)%list, db) /\
    (forall o, In o found <->
       exists k, In k ids /\ order_of k (working db) = Some o).
Proof.
  induction ids as [|k ids IH]; intros marked db; simpl.
  - exists []. rewrite app_nil_r. split; [reflexivity|].
    intros o. split; [intros [] | intros [k [[] _]]].
  - unfold bind at 1, query_first.
    fold (order_of k (working db)).
    destruct (order_of k (working db)) as [o|] eqn:F.
    + destruct (IH (marked ++ [o])%list db) as [found [E H]].
      exists (o :: found). rewrite E, <- app_assoc. split; [reflexivity|].
      intros x. split.
      * intros [<-|X]; [exists k; split; [now left | exact F]|].
        apply H in X. destruct X as [k' [K X]]. exists k'. split; [now right | exact X].
      * intros [k' [[<-|K] X]]; [left; congruence|].
        right. apply H. eauto.
    + destruct (IH marked db) as [found [E H]].
      exists found. split; [exact E|].
      intros x. rewrite H. split.
      * intros [k' [K X]]. exists k'. split; [now right | exact X].
      * intros [k' [[<-|K] X]]; [congruence | eauto].
Qed.

Lemma delete_marked_ids ids found l :
  (forall o, In o found <->
     exists k, In k ids /\ find (fun o => opt_Z_eqb (Order.id o) (Some k)) l = Some o) ->
  delete_marked found l = delete_ids Order.id ids l.
Proof.
  intros H. unfold delete_marked, delete_ids. apply filter_ext_in.
  intros r R. f_equal.
  destruct (id_in ids (Order.id r)) eqn:E.
  - apply id_in_spec in E. destruct E as [k [E K]].
    destruct (find (fun o => opt_Z_eqb (Order.id o) (Some k)) l) as [o|] eqn:F.
    + apply existsb_exists. exists o. split; [apply H; eauto|].
      apply find_some in F. destruct F as [_ F]. apply opt_Z_eqb_eq in F.
      apply opt_Z_eqb_eq. congruence.
    + exfalso. apply (find_none _ _ F) in R.
      rewrite E in R. simpl in R. rewrite Z.eqb_refl in R. discriminate.
  - destruct (existsb _ found) eqn:X; [|reflexivity].
    apply existsb_exists in X. destruct X as [o [O X]].
    apply H in O. destruct O as [k [K F]].
    apply find_some in F. destruct F as [_ F].
    apply opt_Z_eqb_eq in F. apply opt_Z_eqb_eq in X.
    assert (id_in ids (Order.id r) = true) by (apply id_in_spec; exists k; split; congruence).
    congruence.
Qed.

Lemma delete_orders_spec ids store :
  get_db (Api.delete_orders ids) store =
    (Ok "Orders deleted successfully",
     with_orders store (delete_ids Order.id ids (orders store))).
Proof.
  unfold get_db, Api.delete_orders, try_catch, bind at 1.
  destruct (mark_orders_spec ids [] (SessionLocal store)) as [found [-> H]].
  simpl app. unfold bind, execute, db_flush, db_commit, bind, db_flush, ret. simpl.
  rewrite (delete_marked_ids ids found (orders store) H). reflexivity.
Qed.

Lemma order_of_deleted ids store k :
  order_of k (with_orders store (delete_ids Order.id ids (orders store))) =
    if existsb (Z.eqb k) ids then None else order_of k store.
Proof.
  unfold order_of, with_orders. cbn [orders].
  destruct (existsb (Z.eqb k) ids) eqn:E.
  - apply existsb_exists in E. destruct E as [k' [K E]]. apply Z.eqb_eq in E. subst k'.
    apply (find_by_id_deleted Order.id ids k (orders store) K).
  - unfold delete_ids. induction (orders store) as [|o l IH]; simpl; [reflexivity|].
    destruct (opt_Z_eqb (Order.id o) (Some k)) eqn:O.
    + apply opt_Z_eqb_eq in O.
      assert (N : id_in ids (Order.id o) = false).
      { destruct (id_in ids (Order.id o)) eqn:X; [|reflexivity].
        apply id_in_spec in X. destruct X as [k' [X K]].
        assert (k' = k) by congruence. subst k'.
        assert (existsb (Z.eqb k) ids = true)
          by (apply existsb_exists; exists k; split; [exact K | apply Z.eqb_refl]).
        congruence. }
      rewrite N. simpl. rewrite O.
      replace (opt_Z_eqb (Some k) (Some k)) with true
        by (symmetry; now apply opt_Z_eqb_eq).
      reflexivity.
    + destruct (negb (id_in ids (Order.id o))); simpl; [rewrite O|]; exact IH.
Qed.

(** X3: [delete_orders] removes exactly the orders whose id is in the list,
    skips the ids no order has, answers success in every case and leaves
    the reference tables alone; afterwards an id of the list is unknown to
    an approval (404) and any other id finds the order it found before. *)
Theorem delete_orders_removes_exactly ids store :
  get_db (Api.delete_orders ids) store =
    (Ok "Orders deleted successfully",
     with_orders store (delete_ids Order.id ids (orders store))) /\
  (forall o, In o (delete_ids Order.id ids (orders store)) <->
             In o (orders store) /\ forall k, In k ids -> Order.id o <> Some k) /\
  (forall k now, In k ids ->
     get_db (approve_order now k "admin")
       (with_orders store (delete_ids Order.id ids (orders store))) =
     (Raise (HTTPException 404 "Order not found"),
      with_orders store (delete_ids Order.id ids (orders store)))) /\
  (forall k, ~ In k ids ->
     order_of k (with_orders store (delete_ids Order.id ids (orders store))) =
     order_of k store).
Proof.
  split; [apply delete_orders_spec|]. split; [|split].
  - intros o. rewrite delete_ids_In. split; intros [I H]; split; auto.
    + intros k K E. assert (id_in ids (Order.id o) = true) by (apply id_in_spec; eauto).
      congruence.
    + destruct (id_in ids (Order.id o)) eqn:E; [|reflexivity].
      apply id_in_spec in E. destruct E as [k [E K]]. now apply H in K.
  - intros k now K. unfold get_db. rewrite approve_missing; [reflexivity|].
    cbn [working SessionLocal]. rewrite order_of_deleted.
    replace (existsb (Z.eqb k) ids) with true; [reflexivity|].
    symmetry. apply existsb_exists. exists k. split; [exact K | apply Z.eqb_refl].
  - intros k K. rewrite order_of_deleted.
    destruct (existsb (Z.eqb k) ids) eqn:E; [|reflexivity].
    apply existsb_exists in E. destruct E as [k' [K' E]]. apply Z.eqb_eq in E.
    subst k'. contradiction.
Qed.

Lemma delete_orders_removes_exactly_witness :
  get_db (Api.delete_orders [7; 7; 3]) Sample2.store =
    (Ok "Orders deleted successfully",
     mktables [Sample.deleted_acme; Sample2.beta] [Sample.bolt] [Sample2.box; Sample2.kg]
       [Sample2.order9]) /\
  get_db (approve_order "26-11-04 10:00" 7 "admin")
    (with_orders Sample2.store (delete_ids Order.id [7; 7; 3] (orders Sample2.store))) =
    (Raise (HTTPException 404 "Order not found"),
     with_orders Sample2.store (delete_ids Order.id [7; 7; 3] (orders Sample2.store))) /\
  order_of 9 (with_orders Sample2.store (delete_ids Order.id [7; 7; 3] (orders Sample2.store))) =
    Some Sample2.order9.
Proof.
  destruct (delete_orders_removes_exactly [7; 7; 3] Sample2.store) as (E & _ & A & K).
  split; [exact E|]. split.
  - apply A. left. reflexivity.
  - rewrite K; [reflexivity|]. intros [H|[H|[H|[]]]]; discriminate.
Defined.

(** ** Creating reference rows *)

Lemma name_present {A} (name : A -> option string) key l :
  existsb (opt_str_eqb key) (map name l) = true <-> exists r, In r l /\ name r = key.
Proof.
  rewrite existsb_exists. split.
  - intros [n [I E]]. apply in_map_iff in I. destruct I as [r [<- I]].
    apply opt_str_eqb_eq in E. eauto.
  - intros [r [I E]]. exists (name r). split; [now apply in_map|].
    apply opt_str_eqb_eq. congruence.
Qed.

Lemma name_absent {A} (name : A -> option string) key l :
  existsb (opt_str_eqb key) (map name l) = false -> forall r, In r l -> name r <> key.
Proof.
  intros H r I E.
  assert (existsb (opt_str_eqb key) (map name l) = true) by (apply name_present; eauto).
  congruence.
Qed.

Lemma create_item_existing_name item store :
  existsb (opt_str_eqb (Some (ItemBase.name item))) (map Item.name (items store)) = true ->
  get_db (Api.create_item item) store =
    (Raise (HTTPException 400 "already_exists"), store).
Proof.
  intros U.
  unfold get_db, Api.create_item, try_catch, bind at 1, query_first, is_deleted_is_False.
  rewrite find_never.
  cbn [declarative_init find existsb Item.attrs String.eqb Ascii.eqb Bool.eqb negb orb].
  unfold bind, lift, flush_new, bind, db_flush, SessionLocal.
  cbn [pending working committed apply_changes].
  unfold insert_item, rbind, new_key. cbn [Item.id Item.name].
  unfold unique_name. rewrite U. reflexivity.
Qed.

Lemma create_item_fresh_name item store :
  existsb (opt_str_eqb (Some (ItemBase.name item))) (map Item.name (items store)) = false ->
  let row := Item.Build (Some (next_id (map Item.id (items store))))
               (Some (ItemBase.name item)) (ItemBase.description item)
               (ItemBase.price item) false false in
  get_db (Api.create_item item) store =
    (Ok row, mktables (suppliers store) (items store ++ [row])%list (units store) (orders store)).
Proof.
  intros U row.
  unfold get_db, Api.create_item, try_catch, bind at 1, query_first, is_deleted_is_False.
  rewrite find_never.
  cbn [declarative_init find existsb Item.attrs String.eqb Ascii.eqb Bool.eqb negb orb].
  unfold bind, lift, flush_new, db_commit, bind, db_flush, SessionLocal.
  cbn [pending working committed apply_changes].
  unfold insert_item, rbind, new_key. cbn [Item.id Item.name].
  unfold unique_name. rewrite U. reflexivity.
Qed.

Lemma create_unit_existing_name unit store :
  existsb (opt_str_eqb (Some (UnitBase.name unit))) (map Unit.name (units store)) = true ->
  get_db (Api.create_unit unit) store =
    (Raise (HTTPException 400 "already_exists"), store).
Proof.
  intros U.
  unfold get_db, Api.create_unit, try_catch, bind at 1, query_first, is_deleted_is_False.
  rewrite find_never.
  cbn [declarative_init find existsb Unit.attrs String.eqb Ascii.eqb Bool.eqb negb orb].
  unfold bind, lift, flush_new, bind, db_flush, SessionLocal.
  cbn [pending working committed apply_changes].
  unfold insert_unit, rbind, new_key. cbn [Unit.id Unit.name].
  unfold unique_name. rewrite U. reflexivity.
Qed.

Lemma create_unit_fresh_name unit store :
  existsb (opt_str_eqb (Some (UnitBase.name unit))) (map Unit.name (units store)) = false ->
  let row := Unit.Build (Some (next_id (map Unit.id (units store))))
               (Some (UnitBase.name unit))
               (Api.or_server_default (UnitBase.description unit)) false in
  get_db (Api.create_unit unit) store =
    (Ok row, mktables (suppliers store) (items store) (units store ++ [row])%list (orders store)).
Proof.
  intros U row.
  unfold get_db, Api.create_unit, try_catch, bind at 1, query_first, is_deleted_is_False.
  rewrite find_never.
  cbn [declarative_init find existsb Unit.attrs String.eqb Ascii.eqb Bool.eqb negb orb].
  unfold bind, lift, flush_new, db_commit, bind, db_flush, SessionLocal.
  cbn [pending working committed apply_changes].
  unfold insert_unit, rbind, new_key. cbn [Unit.id Unit.name].
  unfold unique_name. rewrite U. reflexivity.
Qed.

Lemma existsb_app_last {A} (p : A -> bool) l a : p a = true -> existsb p (l ++ [a]) = true.
Proof. intros H. rewrite existsb_app. simpl. rewrite H. now rewrite orb_true_r. Qed.

(** X4: [create_supplier] is decided by the names in the table alone.  A
    name some row carries, soft-deleted or not, is answered 400
    "already_exists" and nothing is stored.  Any other name is stored as
    one new last row with the next key and the fields of the request, is
    then listed by [read_suppliers], and is a conflict for every later
    request of that name. *)
Theorem create_supplier_outcome supplier store :
  (existsb (opt_str_eqb (Some (SupplierBase.name supplier)))
     (map Supplier.name (suppliers store)) = true ->
   get_db (create_supplier supplier) store =
     (Raise (HTTPException 400 "already_exists"), store)) /\
  (existsb (opt_str_eqb (Some (SupplierBase.name supplier)))
     (map Supplier.name (suppliers store)) = false ->
   exists row store',
     get_db (create_supplier supplier) store = (Ok row, store') /\
     row = Supplier.Build (Some (next_id (map Supplier.id (suppliers store))))
             (Some (SupplierBase.name supplier)) (SupplierBase.contact supplier)
             (SupplierBase.address supplier) false /\
     store' = mktables (suppliers store ++ [row])%list (items store) (units store)
                (orders store) /\
     get_db Api.read_suppliers store' = (Ok (suppliers store ++ [row])%list, store') /\
     forall again, SupplierBase.name again = SupplierBase.name supplier ->
       get_db (create_supplier again) store' =
         (Raise (HTTPException 400 "already_exists"), store')).
Proof.
  split.
  - intros U. apply name_present in U. destruct U as [s [I E]].
    now apply create_supplier_existing_name with (s := s).
  - intros U. eexists. eexists.
    split; [apply create_supplier_fresh_name; now apply name_absent|].
    split; [reflexivity|]. split; [reflexivity|]. split; [reflexivity|].
    intros again E.
    eapply create_supplier_existing_name; [apply in_or_app; right; left; reflexivity|].
    simpl. now rewrite E.
Qed.

Lemma create_supplier_outcome_witness :
  get_db (create_supplier (SupplierBase.Build "Beta" None None)) Sample2.store =
    (Raise (HTTPException 400 "already_exists"), Sample2.store) /\
  exists row store',
    get_db (create_supplier (SupplierBase.Build "Gamma" (Some "031") None)) Sample2.store =
      (Ok row, store') /\
    Supplier.id row = Some 3 /\
    get_db (create_supplier (SupplierBase.Build "Gamma" None None)) store' =
      (Raise (HTTPException 400 "already_exists"), store').
Proof.
  split.
  - apply (proj1 (create_supplier_outcome (SupplierBase.Build "Beta" None None)
                    Sample2.store)). reflexivity.
  - destruct (proj2 (create_supplier_outcome
                       (SupplierBase.Build "Gamma" (Some "031") None) Sample2.store)
                eq_refl) as (row & store' & E & R & _ & _ & A).
    exists row, store'. split; [exact E|]. split; [rewrite R; reflexivity|].
    apply A. reflexivity.
Defined.

(** X5: [create_item] decides like [create_supplier], by the names in the
    table whatever their deleted flag, and it never stores the
    [vat_excluded] of the request: the new item is not VAT-excluded even
    when the request says it is. *)
Theorem create_item_outcome item store :
  (existsb (opt_str_eqb (Some (ItemBase.name item))) (map Item.name (items store)) = true ->
   get_db (Api.create_item item) store =
     (Raise (HTTPException 400 "already_exists"), store)) /\
  (existsb (opt_str_eqb (Some (ItemBase.name item))) (map Item.name (items store)) = false ->
   exists row store',
     get_db (Api.create_item item) store = (Ok row, store') /\
     Item.id row = Some (next_id (map Item.id (items store))) /\
     Item.name row = Some (ItemBase.name item) /\
     Item.description row = ItemBase.description item /\
     Item.price row = ItemBase.price item /\
     Item.vat_excluded row = false /\
     Item.is_deleted row = false /\
     store' = mktables (suppliers store) (items store ++ [row])%list (units store)
                (orders store) /\
     get_db Api.read_items store' = (Ok (items store ++ [row])%list, store') /\
     forall again, ItemBase.name again = ItemBase.name item ->
       get_db (Api.create_item again) store' =
         (Raise (HTTPException 400 "already_exists"), store')).
Proof.
  split; [apply create_item_existing_name|].
  intros U. eexists. eexists.
  split; [apply create_item_fresh_name; exact U|].
  do 8 (split; [reflexivity|]).
  intros again E. apply create_item_existing_name.
  cbn [items]. rewrite map_app. apply existsb_app_last.
  simpl. rewrite E. apply String.eqb_refl.
Qed.

Lemma create_item_outcome_witness :
  exists row store',
    get_db (Api.create_item (ItemBase.Build "nut" None None (Some true))) Sample2.store =
      (Ok row, store') /\
    Item.vat_excluded row = false /\ Item.id row = Some 4.
Proof.
  destruct (proj2 (create_item_outcome (ItemBase.Build "nut" None None (Some true))
                     Sample2.store) eq_refl)
    as (row & store' & E & I & _ & _ & _ & V & _).
  exists row, store'. split; [exact E|]. split; [exact V | exact I].
Defined.

(** X6: [create_unit] decides like [create_supplier], and a unit created
    without a description is stored with the empty text, not with NULL. *)
Theorem create_unit_outcome unit store :
  (existsb (opt_str_eqb (Some (UnitBase.name unit))) (map Unit.name (units store)) = true ->
   get_db (Api.create_unit unit) store =
     (Raise (HTTPException 400 "already_exists"), store)) /\
  (existsb (opt_str_eqb (Some (UnitBase.name unit))) (map Unit.name (units store)) = false ->
   exists row store',
     get_db (Api.create_unit unit) store = (Ok row, store') /\
     Unit.id row = Some (next_id (map Unit.id (units store))) /\
     Unit.name row = Some (UnitBase.name unit) /\
     (UnitBase.description unit = None -> Unit.description row = Some "") /\
     (forall d, UnitBase.description unit = Some d -> Unit.description row = Some d) /\
     Unit.is_deleted row = false /\
     store' = mktables (suppliers store) (items store) (units store ++ [row])%list
                (orders store) /\
     get_db Api.read_units store' = (Ok (units store ++ [row])%list, store') /\
     forall again, UnitBase.name again = UnitBase.name unit ->
       get_db (Api.create_unit again) store' =
         (Raise (HTTPException 400 "already_exists"), store')).
Proof.
  split; [apply create_unit_existing_name|].
  intros U. eexists. eexists.
  split; [apply create_unit_fresh_name; exact U|].
  do 2 (split; [reflexivity|]).
  split; [intros D; simpl; now rewrite D|].
  split; [intros d D; simpl; now rewrite D|].
  do 3 (split; [reflexivity|]).
  intros again E. apply create_unit_existing_name.
  cbn [units]. rewrite map_app. apply existsb_app_last.
  simpl. rewrite E. apply String.eqb_refl.
Qed.

Lemma create_unit_outcome_witness :
  exists row store',
    get_db (Api.create_unit (UnitBase.Build "litre" None)) Sample2.store = (Ok row, store') /\
    Unit.description row = Some "" /\ Unit.id row = Some 3.
Proof.
  destruct (proj2 (create_unit_outcome (UnitBase.Build "litre" None) Sample2.store) eq_refl)
    as (row & store' & E & I & _ & D & _).
  exists row, store'. split; [exact E|]. split; [apply D; reflexivity | exact I].
Defined.

(** X7: [create_order] never creates an order.  Whatever the request and the
    store, the handler answers 500 with the message of the [TypeError] the
    constructor raises on the keyword payment_schedule, and the store is
    left as it was. *)
Theorem create_order_always_fails order store :
  get_db (Api.create_order order) store =
    (Raise (HTTPException 500
              "'payment_schedule' is an invalid keyword argument for Order"),
     store).
Proof. reflexivity. Qed.

(** ** Keys and names under the writes *)

Lemma existsb_false {A} (p : A -> bool) l :
  existsb p l = false <-> forall x, In x l -> p x = false.
Proof.
  induction l as [|a l IH]; simpl.
  - split; [intros _ x [] | reflexivity].
  - rewrite orb_false_iff, IH. split.
    + intros [P H] x [<-|I]; auto.
    + intros H. split; [apply H; now left | intros x I; apply H; now right].
Qed.

Lemma opt_Z_eqb_sym a b : opt_Z_eqb a b = opt_Z_eqb b a.
Proof. destruct a, b; simpl; auto using Z.eqb_sym. Qed.

Lemma fold_max_ge ks : forall a,
  a <= fold_left Z.max ks a /\ forall x, In x ks -> x <= fold_left Z.max ks a.
Proof.
  induction ks as [|k ks IH]; intros a; simpl.
  - split; [lia | intros x []].
  - destruct (IH (Z.max a k)) as [H G]. split; [lia|].
    intros x [<-|I]; [lia | auto].
Qed.

(** The next key lies above every key in use. *)
Lemma next_id_above ids k : In (Some k) ids -> k < next_id ids.
Proof.
  intros I. unfold next_id.
  assert (J : In k (flat_map (fun i => match i with Some k => [k] | None => [] end) ids)).
  { apply in_flat_map. exists (Some k). split; [exact I | now left]. }
  destruct (flat_map _ ids) as [|k0 ks]; [destruct J|].
  destruct (fold_max_ge ks k0) as [H G].
  destruct J as [<-|J]; [lia|]. specialize (G k J). lia.
Qed.

Lemma next_id_free ids : existsb (opt_Z_eqb (Some (next_id ids))) ids = false.
Proof.
  apply existsb_false. intros [k|] I; [|reflexivity].
  apply next_id_above in I. simpl. apply Z.eqb_neq. lia.
Qed.

Lemma keys_ok_app ids k :
  keys_ok ids = true -> existsb (opt_Z_eqb (Some k)) ids = false ->
  keys_ok (ids ++ [Some k]) = true.
Proof.
  induction ids as [|[a|] ids IH]; simpl; intros H E; [reflexivity| |discriminate].
  apply andb_prop in H. destruct H as [H1 H2].
  apply orb_false_iff in E. destruct E as [E1 E2].
  rewrite existsb_app, IH by assumption. cbn [existsb opt_Z_eqb].
  rewrite Z.eqb_sym, E1. apply negb_true_iff in H1. rewrite H1. reflexivity.
Qed.

Lemma names_ok_app names n :
  names_ok names = true -> existsb (opt_str_eqb n) names = false ->
  names_ok (names ++ [n]) = true.
Proof.
  induction names as [|a names IH]; simpl; intros H E.
  - now destruct n.
  - apply andb_prop in H. destruct H as [H1 H2].
    apply orb_false_iff in E. destruct E as [E1 E2].
    rewrite IH by assumption. rewrite andb_true_r.
    destruct a as [a|]; [|reflexivity].
    rewrite existsb_app. cbn [existsb]. rewrite opt_str_eqb_sym, E1.
    apply negb_true_iff in H1. rewrite H1. reflexivity.
Qed.

Lemma existsb_map_filter {A B} (f : A -> B) (q : B -> bool) (p : A -> bool) l :
  existsb q (map f l) = false -> existsb q (map f (filter p l)) = false.
Proof.
  rewrite !existsb_false. intros H y I. apply H.
  apply in_map_iff in I. destruct I as [x [E I]]. apply filter_In in I.
  apply in_map_iff. exists x. tauto.
Qed.

Lemma keys_ok_filter {A} (id : A -> option Z) p l :
  keys_ok (map id l) = true -> keys_ok (map id (filter p l)) = true.
Proof.
  induction l as [|x l IH]; simpl; [auto|].
  destruct (id x) as [a|] eqn:E; [|discriminate].
  intros H. apply andb_prop in H. destruct H as [H1 H2].
  destruct (p x); simpl; [|auto]. rewrite E, IH by assumption.
  apply negb_true_iff in H1. now rewrite existsb_map_filter.
Qed.

Lemma names_ok_filter {A} (name : A -> option string) p l :
  names_ok (map name l) = true -> names_ok (map name (filter p l)) = true.
Proof.
  induction l as [|x l IH]; simpl; [auto|].
  intros H. apply andb_prop in H. destruct H as [H1 H2].
  destruct (p x); simpl; [|auto]. rewrite IH by assumption. rewrite andb_true_r.
  destruct (name x) as [n|]; [|reflexivity].
  apply negb_true_iff in H1. now rewrite existsb_map_filter.
Qed.

Lemma map_id_update_order k row l :
  Order.id row = Some k ->
  map Order.id (update_order (Some k) (fun _ => row) l) = map Order.id l.
Proof.
  intros K. induction l as [|o l IH]; simpl; [reflexivity|].
  destruct (opt_Z_eqb (Order.id o) (Some k)) eqn:E; simpl.
  - apply opt_Z_eqb_eq in E. now rewrite K, E.
  - now rewrite IH.
Qed.

Lemma In_update_order k row l o :
  In o (update_order (Some k) (fun _ => row) l) -> o = row \/ In o l.
Proof.
  induction l as [|x l IH]; simpl; [tauto|].
  destruct (opt_Z_eqb (Order.id x) (Some k)); simpl; intuition.
Qed.

Lemma map_id_update_row {A} (id : A -> option Z) k row l :
  id row = Some k ->
  map id (update_row id (Some k) (fun _ => row) l) = map id l.
Proof.
  intros K. induction l as [|o l IH]; simpl; [reflexivity|].
  destruct (opt_Z_eqb (id o) (Some k)) eqn:E; simpl.
  - apply opt_Z_eqb_eq in E. now rewrite K, E.
  - now rewrite IH.
Qed.

Lemma In_update_row {A} (id : A -> option Z) k row l x :
  In x (update_row id (Some k) (fun _ => row) l) -> x = row \/ In x l.
Proof.
  induction l as [|y l IH]; simpl; [tauto|].
  destruct (opt_Z_eqb (id y) (Some k)); simpl; intuition.
Qed.

(** UPDATE keeps the names apart when no other row carries the new one. *)
Lemma names_ok_update_row {A} (id : A -> option Z) (name : A -> option string) k row l :
  keys_ok (map id l) = true ->
  names_ok (map name l) = true ->
  name_taken id name (Some k) (name row) l = false ->
  names_ok (map name (update_row id (Some k) (fun _ => row) l)) = true.
Proof.
  unfold name_taken. destruct (name row) as [n|] eqn:N.
  - induction l as [|x l IH]; simpl; [reflexivity|].
    destruct (id x) as [a|] eqn:I; [|discriminate].
    intros HK HN T.
    apply andb_prop in HK. destruct HK as [K1 K2].
    apply andb_prop in HN. destruct HN as [N1 N2].
    apply orb_false_iff in T. destruct T as [T1 T2].
    apply negb_true_iff in K1.
    destruct (opt_Z_eqb (Some a) (Some k)) eqn:E; simpl.
    + apply opt_Z_eqb_eq in E. injection E as ->.
      rewrite N, N2, andb_true_r. apply negb_true_iff, existsb_false.
      intros m M. apply in_map_iff in M. destruct M as [y [<- M]].
      rewrite existsb_false in T2. specialize (T2 y M).
      rewrite existsb_false in K1.
      specialize (K1 (id y) (in_map id l y M)). rewrite opt_Z_eqb_sym in K1.
      rewrite K1 in T2. simpl in T2. now rewrite opt_str_eqb_sym.
    + rewrite IH by assumption. rewrite andb_true_r.
      destruct (name x) as [m|] eqn:X; [|reflexivity].
      apply negb_true_iff, existsb_false.
      intros m' M. apply in_map_iff in M. destruct M as [y [<- M]].
      apply In_update_row in M. destruct M as [->|M].
      * rewrite N. simpl in T1. exact T1.
      * apply negb_true_iff in N1. rewrite existsb_false in N1.
        apply N1, in_map, M.
  - intros HK HN _. clear HK.
    induction l as [|x l IH]; simpl in *; [reflexivity|].
    apply andb_prop in HN. destruct HN as [N1 N2].
    destruct (opt_Z_eqb (id x) (Some k)); simpl.
    + now rewrite N, N2.
    + rewrite IH by assumption. rewrite andb_true_r.
      destruct (name x) as [m|] eqn:X; [|reflexivity].
      apply negb_true_iff, existsb_false.
      intros m' M. apply in_map_iff in M. destruct M as [y [<- M]].
      apply In_update_row in M. destruct M as [->|M].
      * now rewrite N.
      * apply negb_true_iff in N1. rewrite existsb_false in N1.
        apply N1, in_map, M.
Qed.

Lemma forallb_filter {A} (p q : A -> bool) l :
  forallb p l = true -> forallb p (filter q l) = true.
Proof.
  rewrite !forallb_forall. intros H x I. apply filter_In in I. apply H, I.
Qed.

Lemma length_update_order key f l : List.length (update_order key f l) = List.length l.
Proof.
  induction l as [|o l IH]; simpl; [reflexivity|].
  destruct (opt_Z_eqb (Order.id o) key); simpl; congruence.
Qed.

Lemma length_filter_le {A} (p : A -> bool) l :
  (List.length (filter p l) <= List.length l)%nat.
Proof. induction l as [|x l IH]; simpl; [lia|]. destruct (p x); simpl; lia. Qed.

(** ** Updating *)

Lemma name_taken_spec {A} (id : A -> option Z) (name : A -> option string) key nm l :
  name_taken id name key (Some nm) l = true <->
  exists r, In r l /\ id r <> key /\ name r = Some nm.
Proof.
  unfold name_taken. rewrite existsb_exists. split.
  - intros [r [I E]]. apply andb_prop in E. destruct E as [K N].
    exists r. split; [exact I|]. split.
    + intros E. apply opt_Z_eqb_eq in E. rewrite E in K. discriminate.
    + now apply opt_str_eqb_eq.
  - intros [r [I [K N]]]. exists r. split; [exact I|].
    apply andb_true_intro. split.
    + destruct (opt_Z_eqb (id r) key) eqn:E; [|reflexivity].
      apply opt_Z_eqb_eq in E. contradiction.
    + now apply opt_str_eqb_eq.
Qed.

Lemma find_update_row {A} (id : A -> option Z) key (row r : A) l :
  find (fun x => opt_Z_eqb (id x) key) l = Some r ->
  id row = key ->
  find (fun x => opt_Z_eqb (id x) key) (update_row id key (fun _ => row) l) = Some row.
Proof.
  intros F K. induction l as [|x l IH]; simpl in *; [discriminate|].
  destruct (opt_Z_eqb (id x) key) eqn:E.
  - simpl. rewrite K.
    replace (opt_Z_eqb key key) with true by (symmetry; now apply opt_Z_eqb_eq).
    reflexivity.
  - simpl. rewrite E. auto.
Qed.

Lemma supplier_of_id k t s : supplier_of k t = Some s -> Supplier.id s = Some k.
Proof. intros H. apply find_some in H. apply opt_Z_eqb_eq, H. Qed.

Lemma unit_of_id k t u : unit_of k t = Some u -> Unit.id u = Some k.
Proof. intros H. apply find_some in H. apply opt_Z_eqb_eq, H. Qed.

Arguments name_taken : simpl never.
Arguments update_row : simpl never.

Lemma update_supplier_missing supplier_id supplier store :
  supplier_of supplier_id store = None ->
  get_db (Api.update_supplier supplier_id supplier) store =
    (Raise (HTTPException 404 "Supplier not found"), store).
Proof.
  intros H. unfold get_db, Api.update_supplier, bind, query_first. cbn.
  unfold supplier_of in H. rewrite H. reflexivity.
Qed.

Lemma update_supplier_eval supplier_id supplier store s b :
  supplier_of supplier_id store = Some s ->
  name_taken Supplier.id Supplier.name (Some supplier_id)
    (Some (SupplierBase.name supplier)) (suppliers store) = b ->
  let row := Supplier.Build (Some supplier_id) (Some (SupplierBase.name supplier))
               (SupplierBase.contact supplier) (SupplierBase.address supplier)
               (Supplier.is_deleted s) in
  get_db (Api.update_supplier supplier_id supplier) store =
    if b then (Raise (IntegrityError "UNIQUE constraint failed: suppliers.name"), store)
    else (Ok row,
          mktables (update_row Supplier.id (Some supplier_id) (fun _ => row)
                      (suppliers store))
            (items store) (units store) (orders store)).
Proof.
  intros H B row. pose proof (supplier_of_id _ _ _ H) as K.
  unfold get_db, Api.update_supplier, bind at 1, query_first, SessionLocal.
  simpl. unfold supplier_of in H. rewrite H.
  unfold bind, execute, db_commit, bind, db_flush, write_supplier.
  simpl. rewrite K, B. destruct b; reflexivity.
Qed.

Lemma update_unit_missing unit_id unit store :
  unit_of unit_id store = None ->
  get_db (Api.update_unit unit_id unit) store =
    (Raise (HTTPException 404 "Unit not found"), store).
Proof.
  intros H. unfold get_db, Api.update_unit, bind, query_first. cbn.
  unfold unit_of in H. rewrite H. reflexivity.
Qed.

(** X8: [update_supplier] answers 404 for an unknown id and changes nothing.
    For a known id it writes the three fields of the body over the row (a
    contact or an address the body leaves out is cleared) and keeps the key
    and the deleted flag.  When another row carries the new name the commit
    fails: the handler lets the [IntegrityError] through and nothing is
    stored. *)
Theorem update_supplier_outcome supplier_id supplier store :
  (supplier_of supplier_id store = None ->
   get_db (Api.update_supplier supplier_id supplier) store =
     (Raise (HTTPException 404 "Supplier not found"), store)) /\
  (forall s, supplier_of supplier_id store = Some s ->
     let row := Supplier.Build (Some supplier_id) (Some (SupplierBase.name supplier))
                  (SupplierBase.contact supplier) (SupplierBase.address supplier)
                  (Supplier.is_deleted s) in
     ((exists r, In r (suppliers store) /\ Supplier.id r <> Some supplier_id /\
                 Supplier.name r = Some (SupplierBase.name supplier)) ->
      get_db (Api.update_supplier supplier_id supplier) store =
        (Raise (IntegrityError "UNIQUE constraint failed: suppliers.name"), store)) /\
     ((forall r, In r (suppliers store) -> Supplier.id r <> Some supplier_id ->
                 Supplier.name r <> Some (SupplierBase.name supplier)) ->
      get_db (Api.update_supplier supplier_id supplier) store =
        (Ok row,
         mktables (update_row Supplier.id (Some supplier_id) (fun _ => row) (suppliers store))
           (items store) (units store) (orders store)) /\
      supplier_of supplier_id
        (mktables (update_row Supplier.id (Some supplier_id) (fun _ => row) (suppliers store))
           (items store) (units store) (orders store)) = Some row)).
Proof.
  split; [apply update_supplier_missing|].
  intros s H row.
  pose proof (fun b => update_supplier_eval supplier_id supplier store s b H) as E.
  split.
  - intros X. apply name_taken_spec in X. now rewrite (E true X).
  - intros X.
    assert (B : name_taken Supplier.id Supplier.name (Some supplier_id)
                  (Some (SupplierBase.name supplier)) (suppliers store) = false).
    { destruct (name_taken _ _ _ _ _) eqn:B; [|reflexivity].
      apply name_taken_spec in B. destruct B as [r [I [N M]]].
      exfalso. exact (X r I N M). }
    split; [now rewrite (E false B)|].
    unfold supplier_of. cbn [suppliers].
    apply (find_update_row Supplier.id (Some supplier_id) row s); [exact H | reflexivity].
Qed.

Lemma update_supplier_outcome_witness :
  get_db (Api.update_supplier 2 (SupplierBase.Build "ACME" None None)) Sample2.store =
    (Raise (IntegrityError "UNIQUE constraint failed: suppliers.name"), Sample2.store) /\
  get_db (Api.update_supplier 5 (SupplierBase.Build "Gamma" None None)) Sample2.store =
    (Raise (HTTPException 404 "Supplier not found"), Sample2.store) /\
  get_db (Api.update_supplier 2 (SupplierBase.Build "Gamma" None None)) Sample2.store =
    (Ok (Supplier.Build (Some 2) (Some "Gamma") None None false),
     mktables [Sample.deleted_acme; Supplier.Build (Some 2) (Some "Gamma") None None false]
       [Sample.bolt] [Sample2.box; Sample2.kg] [Sample.plain_order; Sample2.order9]).
Proof.
  split; [|split].
  - apply (proj2 (update_supplier_outcome 2 (SupplierBase.Build "ACME" None None)
                    Sample2.store) Sample2.beta eq_refl).
    exists Sample.deleted_acme. split; [left; reflexivity|]. split; [discriminate|reflexivity].
  - apply (proj1 (update_supplier_outcome 5 (SupplierBase.Build "Gamma" None None)
                    Sample2.store)). reflexivity.
  - destruct (proj2 (update_supplier_outcome 2 (SupplierBase.Build "Gamma" None None)
                       Sample2.store) Sample2.beta eq_refl) as [_ H].
    destruct H as [E F].
    + intros r [<-|[<-|[]]] N; [discriminate | exfalso; apply N; reflexivity].
    + exact E.
Defined.

Lemma find_never2 {A} (p q : A -> bool) l : find (fun x => p x && q x && false) l = None.
Proof. induction l as [|x l IH]; simpl; [reflexivity|]. now rewrite andb_false_r. Qed.

Lemma update_unit_eval unit_id unit store u b :
  unit_of unit_id store = Some u ->
  name_taken Unit.id Unit.name (Some unit_id) (Some (UnitBase.name unit)) (units store) = b ->
  let row := Unit.Build (Some unit_id) (Some (UnitBase.name unit))
               (Api.or_empty (UnitBase.description unit)) (Unit.is_deleted u) in
  get_db (Api.update_unit unit_id unit) store =
    if b then (Raise (HTTPException 500 "UNIQUE constraint failed: units.name"), store)
    else (Ok row,
          mktables (suppliers store) (items store)
            (update_row Unit.id (Some unit_id) (fun _ => row) (units store))
            (orders store)).
Proof.
  intros H B row. pose proof (unit_of_id _ _ _ H) as K.
  unfold get_db, Api.update_unit, bind at 1, query_first, SessionLocal.
  simpl. unfold unit_of in H. rewrite H.
  unfold bind at 1, is_deleted_is_False. simpl. rewrite find_never2.
  unfold bind, execute, db_commit, bind, db_flush, write_unit.
  simpl. rewrite K, B. destruct b; reflexivity.
Qed.

(** X9: [update_unit] answers 404 for an unknown id.  For a known id it
    stores the new name and description, a missing description as the empty
    text.  Its own test for a name conflict never fires: when another unit
    carries the new name, soft-deleted or not, the answer is 500, with a
    detail that holds the message of the UNIQUE constraint, and nothing is
    stored; 400 is never answered. *)
Theorem update_unit_outcome unit_id unit store :
  (unit_of unit_id store = None ->
   get_db (Api.update_unit unit_id unit) store =
     (Raise (HTTPException 404 "Unit not found"), store)) /\
  (forall u, unit_of unit_id store = Some u ->
     let row := Unit.Build (Some unit_id) (Some (UnitBase.name unit))
                  (Api.or_empty (UnitBase.description unit)) (Unit.is_deleted u) in
     ((exists r, In r (units store) /\ Unit.id r <> Some unit_id /\
                 Unit.name r = Some (UnitBase.name unit)) ->
      exists detail,
        get_db (Api.update_unit unit_id unit) store =
          (Raise (HTTPException 500 detail), store) /\
        Text.contains "UNIQUE constraint failed: units.name" detail = true) /\
     ((forall r, In r (units store) -> Unit.id r <> Some unit_id ->
                 Unit.name r <> Some (UnitBase.name unit)) ->
      get_db (Api.update_unit unit_id unit) store =
        (Ok row,
         mktables (suppliers store) (items store)
           (update_row Unit.id (Some unit_id) (fun _ => row) (units store))
           (orders store)) /\
      (UnitBase.description unit = None -> Unit.description row = Some ""))) /\
  (forall detail store',
     get_db (Api.update_unit unit_id unit) store <>
       (Raise (HTTPException 400 detail), store')).
Proof.
  pose proof (update_unit_missing unit_id unit store) as N.
  split; [exact N|]. split.
  - intros u H row. split.
    + intros X. apply name_taken_spec in X.
      rewrite (update_unit_eval unit_id unit store u true H X).
      eexists. split; reflexivity.
    + intros X.
      assert (B : name_taken Unit.id Unit.name (Some unit_id)
                    (Some (UnitBase.name unit)) (units store) = false).
      { destruct (name_taken _ _ _ _ _) eqn:B; [|reflexivity].
        apply name_taken_spec in B. destruct B as [r [I [K M]]].
        exfalso. exact (X r I K M). }
      split; [now rewrite (update_unit_eval unit_id unit store u false H B)|].
      intros D. simpl. now rewrite D.
  - intros detail store'.
    destruct (unit_of unit_id store) as [u|] eqn:H.
    + rewrite (update_unit_eval unit_id unit store u _ H eq_refl).
      destruct (name_taken _ _ _ _ _); discriminate.
    + rewrite (N eq_refl). discriminate.
Qed.

Lemma update_unit_outcome_witness :
  (exists detail,
     get_db (Api.update_unit 2 (UnitBase.Build "box" None)) Sample2.store =
       (Raise (HTTPException 500 detail), Sample2.store) /\
     Text.contains "UNIQUE constraint failed: units.name" detail = true) /\
  get_db (Api.update_unit 2 (UnitBase.Build "kilo" None)) Sample2.store =
    (Ok (Unit.Build (Some 2) (Some "kilo") (Some "") false),
     mktables [Sample.deleted_acme; Sample2.beta] [Sample.bolt]
       [Sample2.box; Unit.Build (Some 2) (Some "kilo") (Some "") false]
       [Sample.plain_order; Sample2.order9]).
Proof.
  destruct (update_unit_outcome 2 (UnitBase.Build "box" None) Sample2.store) as (_ & H & _).
  destruct (update_unit_outcome 2 (UnitBase.Build "kilo" None) Sample2.store) as (_ & G & _).
  split.
  - apply (proj1 (H Sample2.kg eq_refl)).
    exists Sample2.box. split; [left; reflexivity|]. split; [discriminate | reflexivity].
  - apply (proj2 (G Sample2.kg eq_refl)).
    intros r [<-|[<-|[]]] K; [discriminate | exfalso; apply K; reflexivity].
Defined.

(** A row that no lookup by name finds is inserted as the last row, under
    the next key. *)
Lemma flush_new_supplier db s :
  pending db = [] -> Supplier.id s = None ->
  find (fun x => opt_str_eqb (Supplier.name x) (Supplier.name s)) (suppliers (working db)) = None ->
  let row := Supplier.Build (Some (next_id (map Supplier.id (suppliers (working db)))))
               (Supplier.name s) (Supplier.contact s) (Supplier.address s)
               (Supplier.is_deleted s) in
  flush_new insert_supplier s db =
    (Ok row,
     mksession (committed db)
       (mktables (suppliers (working db) ++ [row]) (items (working db))
          (units (working db)) (orders (working db))) []).
Proof.
  intros P K F row. unfold flush_new, bind, db_flush. rewrite P. simpl.
  unfold insert_supplier, rbind, new_key. rewrite K.
  destruct (find_none_names Supplier.name _ _ F) as [_ U].
  rewrite (unique_name_free "suppliers" _ _ U). reflexivity.
Qed.

Lemma flush_new_item db i :
  pending db = [] -> Item.id i = None ->
  find (fun x => opt_str_eqb (Item.name x) (Item.name i)) (items (working db)) = None ->
  let row := Item.Build (Some (next_id (map Item.id (items (working db)))))
               (Item.name i) (Item.description i) (Item.price i) (Item.vat_excluded i)
               (Item.is_deleted i) in
  flush_new insert_item i db =
    (Ok row,
     mksession (committed db)
       (mktables (suppliers (working db)) (items (working db) ++ [row])
          (units (working db)) (orders (working db))) []).
Proof.
  intros P K F row. unfold flush_new, bind, db_flush. rewrite P. simpl.
  unfold insert_item, rbind, new_key. rewrite K.
  destruct (find_none_names Item.name _ _ F) as [_ U].
  rewrite (unique_name_free "items" _ _ U). reflexivity.
Qed.

Lemma flush_new_unit db u :
  pending db = [] -> Unit.id u = None ->
  find (fun x => opt_str_eqb (Unit.name x) (Unit.name u)) (units (working db)) = None ->
  let row := Unit.Build (Some (next_id (map Unit.id (units (working db)))))
               (Unit.name u) (Unit.description u) (Unit.is_deleted u) in
  flush_new insert_unit u db =
    (Ok row,
     mksession (committed db)
       (mktables (suppliers (working db)) (items (working db))
          (units (working db) ++ [row]) (orders (working db))) []).
Proof.
  intros P K F row. unfold flush_new, bind, db_flush. rewrite P. simpl.
  unfold insert_unit, rbind, new_key. rewrite K.
  destruct (find_none_names Unit.name _ _ F) as [_ U].
  rewrite (unique_name_free "units" _ _ U). reflexivity.
Qed.

Lemma bind_assoc {A B C} (m : M A) (f : A -> M B) (g : B -> M C) db :
  bind m (fun x => bind (f x) g) db = bind (bind m f) g db.
Proof. unfold bind. destruct (m db) as [[a|e] db1]; reflexivity. Qed.

(** The first lookup of [update_order], run on a session with nothing
    pending. *)
Lemma resolve_supplier_step name c t :
  (supplier <- query_first suppliers
                 (fun s => opt_str_eqb (Supplier.name s) (Some name)) ;;
   match supplier with
   | Some supplier => ret supplier
   | None =>
       supplier <- lift (declarative_init "Supplier" Supplier.attrs ["name"]
                           (Supplier.Build None (Some name) None None false)) ;;
       flush_new insert_supplier supplier
   end) (mksession c t []) =
  (Ok (fst (find_or_new_supplier name t)),
   mksession c (snd (find_or_new_supplier name t)) []).
Proof.
  unfold bind at 1, query_first, find_or_new_supplier. cbn [working].
  destruct (find _ (suppliers t)) as [s|] eqn:F; [reflexivity|].
  unfold bind, lift.
  cbn [declarative_init find existsb Supplier.attrs String.eqb Ascii.eqb Bool.eqb negb orb].
  rewrite flush_new_supplier by (try reflexivity; exact F). reflexivity.
Qed.

Lemma resolve_item_step name c t :
  (item <- query_first items (fun i => opt_str_eqb (Item.name i) (Some name)) ;;
   match item with
   | Some item => ret item
   | None =>
       item <- lift (declarative_init "Item" Item.attrs ["name"]
                       (Item.Build None (Some name) None None false false)) ;;
       flush_new insert_item item
   end) (mksession c t []) =
  (Ok (fst (find_or_new_item name t)), mksession c (snd (find_or_new_item name t)) []).
Proof.
  unfold bind at 1, query_first, find_or_new_item. cbn [working].
  destruct (find _ (items t)) as [i|] eqn:F; [reflexivity|].
  unfold bind, lift.
  cbn [declarative_init find existsb Item.attrs String.eqb Ascii.eqb Bool.eqb negb orb].
  rewrite flush_new_item by (try reflexivity; exact F). reflexivity.
Qed.

Lemma resolve_unit_step name c t :
  (unit <- query_first units (fun u => opt_str_eqb (Unit.name u) (Some name)) ;;
   match unit with
   | Some unit => ret unit
   | None =>
       unit <- lift (declarative_init "Unit" Unit.attrs ["name"]
                       (Unit.Build None (Some name) (Some "") false)) ;;
       flush_new insert_unit unit
   end) (mksession c t []) =
  (Ok (fst (find_or_new_unit name t)), mksession c (snd (find_or_new_unit name t)) []).
Proof.
  unfold bind at 1, query_first, find_or_new_unit. cbn [working].
  destruct (find _ (units t)) as [u|] eqn:F; [reflexivity|].
  unfold bind, lift.
  cbn [declarative_init find existsb Unit.attrs String.eqb Ascii.eqb Bool.eqb negb orb].
  rewrite flush_new_unit by (try reflexivity; exact F). reflexivity.
Qed.

Lemma find_or_new_supplier_orders name t :
  orders (snd (find_or_new_supplier name t)) = orders t.
Proof. unfold find_or_new_supplier. destruct (find _ _); reflexivity. Qed.

Lemma find_or_new_item_orders name t :
  orders (snd (find_or_new_item name t)) = orders t.
Proof. unfold find_or_new_item. destruct (find _ _); reflexivity. Qed.

Lemma find_or_new_unit_orders name t :
  orders (snd (find_or_new_unit name t)) = orders t.
Proof. unfold find_or_new_unit. destruct (find _ _); reflexivity. Qed.

Lemma update_order_missing order_id order store :
  order_of order_id store = None ->
  get_db (Api.update_order order_id order) store =
    (Raise (HTTPException 404 "Order not found"), store).
Proof.
  intros H. unfold get_db, Api.update_order, bind, query_first. simpl.
  unfold order_of in H. rewrite H. reflexivity.
Qed.

(** The handler, for an order it finds, is the function [update_order_result]. *)
Lemma update_order_found order_id order store o :
  order_of order_id store = Some o ->
  get_db (Api.update_order order_id order) store =
    (Ok (fst (update_order_result order_id order o store)),
     snd (update_order_result order_id order o store)).
Proof.
  intros H. pose proof (order_of_id _ _ _ H) as K.
  unfold get_db, Api.update_order, bind at 1, query_first at 1, SessionLocal.
  cbn [working]. unfold order_of in H. rewrite H.
  rewrite bind_assoc. unfold bind at 1. rewrite resolve_supplier_step.
  rewrite bind_assoc. unfold bind at 1. rewrite resolve_item_step.
  rewrite bind_assoc. unfold bind at 1. rewrite resolve_unit_step.
  unfold update_order_result.
  destruct (find_or_new_supplier _ store) as [s t1]. cbn [fst snd].
  destruct (find_or_new_item _ t1) as [i t2]. cbn [fst snd].
  destruct (find_or_new_unit _ t2) as [u t3]. cbn [fst snd].
  unfold bind, db_add, db_commit, bind, db_flush, ret.
  cbn [pending working committed app apply_changes apply_change rbind].
  cbn [Api.updated_order Order.id]. rewrite K. reflexivity.
Qed.

(** X10: [update_order] answers 404 for an unknown id and changes nothing.
    For a known id it always succeeds and is the function
    [update_order_result]: supplier, item and unit are resolved by name (the
    first row of the name whatever its deleted flag, else a new last row),
    the quantities, client, notes and date of the body and the three keys
    are written over the order, and the stored payment columns, the deleted
    flag and the four approval fields stay as they were, so that the
    payment_schedule and purchase_cycle of the body are not stored at all. *)
Theorem update_order_outcome order_id order store :
  (order_of order_id store = None ->
   get_db (Api.update_order order_id order) store =
     (Raise (HTTPException 404 "Order not found"), store)) /\
  (forall o, order_of order_id store = Some o ->
     exists o' store',
       get_db (Api.update_order order_id order) store = (Ok o', store') /\
       (o', store') = update_order_result order_id order o store /\
       order_of order_id store' = Some o' /\
       Order.quantity o' = Some (OrderCreate.quantity order) /\
       Order.price o' = Some (OrderCreate.price order) /\
       Order.total o' = Some (OrderCreate.total order) /\
       Order.client o' = Some (OrderCreate.client order) /\
       Order.notes o' = OrderCreate.notes order /\
       Order.date o' = OrderCreate.date order /\
       Order.payment_cycle o' = Order.payment_cycle o /\
       Order.payment_method o' = Order.payment_method o /\
       Order.is_deleted o' = Order.is_deleted o /\
       Order.approval_status o' = Order.approval_status o /\
       Order.approved_by o' = Order.approved_by o /\
       Order.approved_at o' = Order.approved_at o /\
       Order.rejection_reason o' = Order.rejection_reason o).
Proof.
  split; [apply update_order_missing|].
  intros o H. pose proof (order_of_id _ _ _ H) as K.
  exists (fst (update_order_result order_id order o store)),
         (snd (update_order_result order_id order o store)).
  split; [now apply update_order_found|].
  split; [now destruct (update_order_result order_id order o store)|].
  unfold update_order_result.
  pose proof (find_or_new_supplier_orders (OrderCreate.supplier_name order) store) as O1.
  destruct (find_or_new_supplier _ store) as [s t1].
  pose proof (find_or_new_item_orders (OrderCreate.item_name order) t1) as O2.
  destruct (find_or_new_item _ t1) as [i t2].
  pose proof (find_or_new_unit_orders (OrderCreate.unit_name order) t2) as O3.
  destruct (find_or_new_unit _ t2) as [u t3].
  cbn [fst snd] in *.
  split; [|repeat split].
  apply (order_of_updated order_id t3 o); [|exact K].
  unfold order_of. rewrite O3, O2, O1. exact H.
Qed.

Lemma update_order_outcome_witness :
  exists o' store',
    get_db (Api.update_order 9 Sample2.nuts) Sample2.store = (Ok o', store') /\
    order_of 9 store' = Some o' /\
    Order.item_id o' = Some 4 /\
    Order.approval_status o' = Some "approved" /\
    Order.payment_cycle o' = None.
Proof.
  destruct (proj2 (update_order_outcome 9 Sample2.nuts Sample2.store) Sample2.order9 eq_refl)
    as (o' & store' & E & R & F & _ & _ & _ & _ & _ & _ & P & _ & _ & A & _).
  exists o', store'. split; [exact E|]. split; [exact F|].
  injection R as -> _. repeat split.
Defined.

(** ** What the endpoints do to the store *)

Lemma steps_one t u : step t u -> steps t u.
Proof. intros H. eapply steps_cons; [exact H | apply steps_refl]. Qed.

Lemma steps_trans t u v : steps t u -> steps u v -> steps t v.
Proof.
  induction 1 as [|t u w S _ IH]; [auto|].
  intros H. eapply steps_cons; [exact S | auto].
Qed.

Lemma find_or_new_supplier_steps name t : steps t (snd (find_or_new_supplier name t)).
Proof.
  unfold find_or_new_supplier.
  destruct (find _ (suppliers t)) eqn:F; [apply steps_refl|].
  apply steps_one, step_new_supplier. now apply find_none_names in F.
Qed.

Lemma find_or_new_item_steps name t : steps t (snd (find_or_new_item name t)).
Proof.
  unfold find_or_new_item.
  destruct (find _ (items t)) eqn:F; [apply steps_refl|].
  apply steps_one, step_new_item. now apply find_none_names in F.
Qed.

Lemma find_or_new_unit_steps name t : steps t (snd (find_or_new_unit name t)).
Proof.
  unfold find_or_new_unit.
  destruct (find _ (units t)) eqn:F; [apply steps_refl|].
  apply steps_one, step_new_unit. now apply find_none_names in F.
Qed.

Lemma update_order_result_steps order_id order o t :
  order_of order_id t = Some o ->
  steps t (snd (update_order_result order_id order o t)).
Proof.
  intros H. unfold update_order_result.
  pose proof (find_or_new_supplier_steps (OrderCreate.supplier_name order) t) as S1.
  pose proof (find_or_new_supplier_orders (OrderCreate.supplier_name order) t) as O1.
  destruct (find_or_new_supplier _ t) as [s t1].
  pose proof (find_or_new_item_steps (OrderCreate.item_name order) t1) as S2.
  pose proof (find_or_new_item_orders (OrderCreate.item_name order) t1) as O2.
  destruct (find_or_new_item _ t1) as [i t2].
  pose proof (find_or_new_unit_steps (OrderCreate.unit_name order) t2) as S3.
  pose proof (find_or_new_unit_orders (OrderCreate.unit_name order) t2) as O3.
  destruct (find_or_new_unit _ t2) as [u t3].
  cbn [fst snd] in *.
  eapply steps_trans; [exact S1|]. eapply steps_trans; [exact S2|].
  eapply steps_trans; [exact S3|].
  apply steps_one, (step_set_order t3 order_id o).
  - unfold order_of. rewrite O3, O2, O1. exact H.
  - exact (order_of_id _ _ _ H).
  - reflexivity.
Qed.

(** Every request is a run of single writes. *)
Lemma serve_steps r store : steps store (serve r store).
Proof.
  destruct r; unfold serve.
  - destruct (existsb (opt_str_eqb (Some (SupplierBase.name supplier)))
                (map Supplier.name (suppliers store))) eqn:E.
    + apply name_present in E. destruct E as [s [I N]].
      rewrite (create_supplier_existing_name supplier store s I N). apply steps_refl.
    + rewrite (create_supplier_fresh_name supplier store (name_absent _ _ _ E)).
      apply steps_one, step_new_supplier, E.
  - apply steps_refl.
  - apply steps_one, step_delete_suppliers.
  - destruct (existsb (opt_str_eqb (Some (ItemBase.name item)))
                (map Item.name (items store))) eqn:E.
    + rewrite (create_item_existing_name item store E). apply steps_refl.
    + rewrite (create_item_fresh_name item store E).
      apply steps_one, step_new_item, E.
  - apply steps_refl.
  - apply steps_one, step_delete_items.
  - destruct (existsb (opt_str_eqb (Some (UnitBase.name unit)))
                (map Unit.name (units store))) eqn:E.
    + rewrite (create_unit_existing_name unit store E). apply steps_refl.
    + rewrite (create_unit_fresh_name unit store E).
      apply steps_one, step_new_unit, E.
  - apply steps_refl.
  - apply steps_one, step_delete_units.
  - unfold get_db. destruct (read_orders_spec (SessionLocal store)) as [c E].
    rewrite E. apply steps_refl.
  - apply steps_refl.
  - destruct (order_of order_id store) as [o|] eqn:H.
    + rewrite (update_order_found order_id order store o H).
      now apply update_order_result_steps.
    + rewrite (update_order_missing order_id order store H). apply steps_refl.
  - rewrite delete_orders_spec. apply steps_one, step_delete_orders.
  - rewrite (proj1 (upload_orders_never_writes today file store)). apply steps_refl.
  - destruct (supplier_of supplier_id store) as [s|] eqn:H.
    + rewrite (update_supplier_eval supplier_id supplier store s _ H eq_refl).
      destruct (name_taken _ _ _ _ _) eqn:B; [apply steps_refl|].
      apply steps_one, (step_set_supplier store supplier_id s); auto.
    + rewrite (update_supplier_missing supplier_id supplier store H). apply steps_refl.
  - destruct (unit_of unit_id store) as [u|] eqn:H.
    + rewrite (update_unit_eval unit_id unit store u _ H eq_refl).
      destruct (name_taken _ _ _ _ _) eqn:B; [apply steps_refl|].
      apply steps_one, (step_set_unit store unit_id u); auto.
    + rewrite (update_unit_missing unit_id unit store H). apply steps_refl.
  - destruct (String.eqb password "admin") eqn:P.
    + apply String.eqb_eq in P. subst password.
      destruct (order_of order_id store) as [o|] eqn:H.
      * rewrite (approve_existing now order_id store o H).
        apply steps_one, (step_set_order store order_id o);
          [exact H | exact (order_of_id _ _ _ H) | reflexivity].
      * unfold get_db. rewrite approve_missing by exact H. apply steps_refl.
    + apply String.eqb_neq in P. unfold get_db.
      rewrite approve_wrong_password by exact P. apply steps_refl.
  - destruct (order_of order_id store) as [o|] eqn:H.
    + rewrite (reject_existing now order_id reason store o H).
      apply steps_one, (step_set_order store order_id o);
        [exact H | exact (order_of_id _ _ _ H) | reflexivity].
    + unfold get_db. rewrite reject_missing by exact H. apply steps_refl.
Qed.

Lemma serve_all_steps rs : forall store, steps store (serve_all rs store).
Proof.
  induction rs as [|r rs IH]; intros store; [apply steps_refl|].
  unfold serve_all. simpl. eapply steps_trans; [apply serve_steps | apply IH].
Qed.

(** ** Invariants of the store *)

Lemma integrity_parts t :
  integrity t = true <->
  (keys_ok (map Supplier.id (suppliers t)) = true /\
   names_ok (map Supplier.name (suppliers t)) = true) /\
  (keys_ok (map Item.id (items t)) = true /\
   names_ok (map Item.name (items t)) = true) /\
  (keys_ok (map Unit.id (units t)) = true /\
   names_ok (map Unit.name (units t)) = true) /\
  keys_ok (map Order.id (orders t)) = true.
Proof. unfold integrity. rewrite !andb_true_iff. tauto. Qed.

Lemma step_integrity t u : step t u -> integrity t = true -> integrity u = true.
Proof.
  intros S H. apply integrity_parts in H.
  destruct H as ((SK & SN) & (IK & IN') & (UK & UN) & OK).
  apply integrity_parts.
  destruct S as [name contact address F | name description price F | name description F
                | ids | ids | ids | ids
                | k s row L K D T | k x row L K D T | k o row L K D];
    cbn [suppliers items units orders with_orders]; repeat split; try assumption.
  - rewrite map_app. apply keys_ok_app; [assumption | apply next_id_free].
  - rewrite map_app. now apply names_ok_app.
  - rewrite map_app. apply keys_ok_app; [assumption | apply next_id_free].
  - rewrite map_app. now apply names_ok_app.
  - rewrite map_app. apply keys_ok_app; [assumption | apply next_id_free].
  - rewrite map_app. now apply names_ok_app.
  - now apply keys_ok_filter.
  - now apply names_ok_filter.
  - now apply keys_ok_filter.
  - now apply names_ok_filter.
  - now apply keys_ok_filter.
  - now apply names_ok_filter.
  - now apply keys_ok_filter.
  - now rewrite map_id_update_row.
  - now apply names_ok_update_row.
  - now rewrite map_id_update_row.
  - now apply names_ok_update_row.
  - now rewrite map_id_update_order.
Qed.

Lemma steps_integrity t u : steps t u -> integrity t = true -> integrity u = true.
Proof. induction 1; eauto using step_integrity. Qed.

Lemma step_orders t u :
  step t u ->
  (List.length (orders u) <= List.length (orders t))%nat /\
  forall o, In o (orders u) -> exists o0, In o0 (orders t) /\ Order.id o0 = Order.id o.
Proof.
  assert (Same : (List.length (orders t) <= List.length (orders t))%nat /\
                 forall o, In o (orders t) ->
                   exists o0, In o0 (orders t) /\ Order.id o0 = Order.id o).
  { split; [lia | intros o I; now exists o]. }
  intros S.
  destruct S as [name contact address F | name description price F | name description F
                | ids | ids | ids | ids
                | k s row L K D T | k x row L K D T | k o row L K D];
    cbn [orders with_orders]; try exact Same.
  - split; [apply length_filter_le|].
    intros o I. apply filter_In in I. exists o. tauto.
  - split; [rewrite length_update_order; lia|].
    intros x I. apply In_update_order in I. destruct I as [->|I]; [|now exists x].
    exists o. split; [exact (proj1 (find_some _ _ L))|].
    rewrite K. exact (order_of_id _ _ _ L).
Qed.

Lemma steps_orders t u :
  steps t u ->
  (List.length (orders u) <= List.length (orders t))%nat /\
  forall o, In o (orders u) -> exists o0, In o0 (orders t) /\ Order.id o0 = Order.id o.
Proof.
  induction 1 as [t | t u v S _ [L IH]].
  - split; [lia | intros o I; now exists o].
  - destruct (step_orders _ _ S) as [L1 H1]. split; [lia|].
    intros o I. destruct (IH o I) as [o1 [I1 E1]].
    destruct (H1 o1 I1) as [o0 [I0 E0]]. exists o0. split; [exact I0 | congruence].
Qed.

Lemma all_live_parts t :
  all_live t = true <->
  forallb (fun s => negb (Supplier.is_deleted s)) (suppliers t) = true /\
  forallb (fun i => negb (Item.is_deleted i)) (items t) = true /\
  forallb (fun u => negb (Unit.is_deleted u)) (units t) = true /\
  forallb (fun o => negb (Order.is_deleted o)) (orders t) = true.
Proof. unfold all_live. rewrite !andb_true_iff. tauto. Qed.

Lemma forallb_app_last {A} (p : A -> bool) l a :
  forallb p l = true -> p a = true -> forallb p (l ++ [a]) = true.
Proof. intros H P. rewrite forallb_app, H. simpl. now rewrite P. Qed.

Lemma step_all_live t u : step t u -> all_live t = true -> all_live u = true.
Proof.
  intros S H. apply all_live_parts in H. destruct H as (HS & HI & HU & HO).
  apply all_live_parts.
  destruct S as [name contact address F | name description price F | name description F
                | ids | ids | ids | ids
                | k s row L K D T | k x row L K D T | k o row L K D];
    cbn [suppliers items units orders with_orders]; repeat split;
    try assumption; try (now apply forallb_app_last); try (now apply forallb_filter).
  - apply forallb_forall. intros y I. apply In_update_row in I.
    rewrite forallb_forall in HS. destruct I as [->|I]; [|auto].
    rewrite D. exact (HS s (proj1 (find_some _ _ L))).
  - apply forallb_forall. intros y I. apply In_update_row in I.
    rewrite forallb_forall in HU. destruct I as [->|I]; [|auto].
    rewrite D. exact (HU x (proj1 (find_some _ _ L))).
  - apply forallb_forall. intros y I. apply In_update_order in I.
    rewrite forallb_forall in HO. destruct I as [->|I]; [|auto].
    rewrite D. exact (HO o (proj1 (find_some _ _ L))).
Qed.

Lemma steps_all_live t u : steps t u -> all_live t = true -> all_live u = true.
Proof. induction 1; eauto using step_all_live. Qed.

(** X11: the endpoints keep the integrity of the store.  When every row has
    a key, no two rows of a table share one and no two suppliers, items or
    units share a name, the same holds after any sequence of requests to the
    endpoints modelled (all of main.py's but PUT /items/{item_id}), whatever
    the requests are and whether they succeed or fail. *)
Theorem requests_keep_integrity rs store :
  integrity store = true -> integrity (serve_all rs store) = true.
Proof. apply steps_integrity, serve_all_steps. Qed.

Lemma requests_keep_integrity_witness :
  integrity Sample2.store = true /\
  integrity
    (serve_all [POST_units (UnitBase.Build "kg" None);
                PUT_orders 9 Sample2.nuts;
                PUT_suppliers 2 (SupplierBase.Build "ACME" None None);
                DELETE_suppliers [1];
                PUT_suppliers 2 (SupplierBase.Build "ACME" None None)]
       Sample2.store) = true.
Proof.
  split; [reflexivity|]. apply requests_keep_integrity. reflexivity.
Defined.

(** X12: no endpoint adds an order.  After any sequence of requests to the
    endpoints modelled the orders table is no longer than before and every
    order in it carries the key of an order that was there before; from a
    store without orders none is ever reached. *)
Theorem requests_add_no_order rs store :
  (List.length (orders (serve_all rs store)) <= List.length (orders store))%nat /\
  (forall o, In o (orders (serve_all rs store)) ->
     exists o0, In o0 (orders store) /\ Order.id o0 = Order.id o) /\
  (orders store = [] -> orders (serve_all rs store) = []).
Proof.
  destruct (steps_orders _ _ (serve_all_steps rs store)) as [L H].
  split; [exact L|]. split; [exact H|].
  intros E. rewrite E in L. destruct (orders (serve_all rs store)); [reflexivity|].
  simpl in L. lia.
Qed.

Lemma requests_add_no_order_witness :
  orders
    (serve_all [POST_suppliers (SupplierBase.Build "ACME" None None);
                POST_orders (OrderBase.Build 1 1 1 Py.zero Py.zero Py.zero
                               "monthly" "weekly" "010" None None);
                POST_orders_upload Sample.today Sample.one_row_file]
       Sample.empty_store) = [].
Proof.
  apply (proj2 (proj2 (requests_add_no_order _ Sample.empty_store))). reflexivity.
Defined.

(** X13: no endpoint soft-deletes.  When no row of the store has its deleted
    flag set, none has after any sequence of requests to the endpoints
    modelled: the flag is only ever copied or written as false. *)
Theorem requests_never_soft_delete rs store :
  all_live store = true -> all_live (serve_all rs store) = true.
Proof. apply steps_all_live, serve_all_steps. Qed.

Lemma requests_never_soft_delete_witness :
  all_live
    (serve_all [POST_suppliers (SupplierBase.Build "ACME" None None);
                POST_items (ItemBase.Build "bolt" None None (Some true));
                DELETE_suppliers [1];
                PUT_units 1 (UnitBase.Build "box" None)]
       Sample.empty_store) = true.
Proof. apply requests_never_soft_delete. reflexivity. Defined.

(** ** Writing an order twice, and what it points at *)

Lemma find_app_last {A} (p : A -> bool) l r :
  find p l = None -> p r = true -> find p (l ++ [r]) = Some r.
Proof.
  induction l as [|x l IH]; simpl; intros F P; [now rewrite P|].
  destruct (p x); [discriminate | auto].
Qed.

Lemma opt_str_eqb_refl a : opt_str_eqb a a = true.
Proof. now apply opt_str_eqb_eq. Qed.

Lemma opt_Z_eqb_refl a : opt_Z_eqb a a = true.
Proof. now apply opt_Z_eqb_eq. Qed.

Lemma find_or_new_supplier_again name t t' :
  suppliers t' = suppliers (snd (find_or_new_supplier name t)) ->
  find_or_new_supplier name t' = (fst (find_or_new_supplier name t), t').
Proof.
  unfold find_or_new_supplier at 1 3.
  destruct (find _ (suppliers t)) as [s|] eqn:F; cbn [fst snd suppliers]; intros E;
    unfold find_or_new_supplier; rewrite E.
  - now rewrite F.
  - rewrite (find_app_last _ _ _ F); [reflexivity | apply opt_str_eqb_refl].
Qed.

Lemma find_or_new_item_again name t t' :
  items t' = items (snd (find_or_new_item name t)) ->
  find_or_new_item name t' = (fst (find_or_new_item name t), t').
Proof.
  unfold find_or_new_item at 1 3.
  destruct (find _ (items t)) as [s|] eqn:F; cbn [fst snd items]; intros E;
    unfold find_or_new_item; rewrite E.
  - now rewrite F.
  - rewrite (find_app_last _ _ _ F); [reflexivity | apply opt_str_eqb_refl].
Qed.

Lemma find_or_new_unit_again name t t' :
  units t' = units (snd (find_or_new_unit name t)) ->
  find_or_new_unit name t' = (fst (find_or_new_unit name t), t').
Proof.
  unfold find_or_new_unit at 1 3.
  destruct (find _ (units t)) as [s|] eqn:F; cbn [fst snd units]; intros E;
    unfold find_or_new_unit; rewrite E.
  - now rewrite F.
  - rewrite (find_app_last _ _ _ F); [reflexivity | apply opt_str_eqb_refl].
Qed.

(** Each lookup leaves the other tables alone. *)
Lemma find_or_new_item_frame name t :
  suppliers (snd (find_or_new_item name t)) = suppliers t /\
  units (snd (find_or_new_item name t)) = units t.
Proof. unfold find_or_new_item. destruct (find _ _); split; reflexivity. Qed.

Lemma find_or_new_unit_frame name t :
  suppliers (snd (find_or_new_unit name t)) = suppliers t /\
  items (snd (find_or_new_unit name t)) = items t.
Proof. unfold find_or_new_unit. destruct (find _ _); split; reflexivity. Qed.

Lemma update_order_twice k row l :
  Order.id row = Some k ->
  update_order (Some k) (fun _ => row) (update_order (Some k) (fun _ => row) l) =
  update_order (Some k) (fun _ => row) l.
Proof.
  intros K. induction l as [|o l IH]; simpl; [reflexivity|].
  destruct (opt_Z_eqb (Order.id o) (Some k)) eqn:E; simpl.
  - now rewrite K, opt_Z_eqb_refl.
  - now rewrite E, IH.
Qed.

Lemma updated_order_twice order s i u o :
  Api.updated_order order s i u (Api.updated_order order s i u o) =
  Api.updated_order order s i u o.
Proof. reflexivity. Qed.

(** X14: PUT /orders/{order_id} is idempotent.  Sent again with the same
    body, the request gives the same answer and leaves the store as the
    first one left it: the rows it created the first time are found by name
    the second time. *)
Theorem update_order_idempotent order_id order store o' store' :
  get_db (Api.update_order order_id order) store = (Ok o', store') ->
  get_db (Api.update_order order_id order) store' = (Ok o', store').
Proof.
  intros E.
  destruct (order_of order_id store) as [o|] eqn:H;
    [|rewrite (update_order_missing _ _ _ H) in E; discriminate].
  rewrite (update_order_found _ _ _ _ H) in E.
  pose proof (order_of_id _ _ _ H) as K.
  assert (K' : Order.id o' = Some order_id).
  { injection E as <- _. unfold update_order_result.
    destruct (find_or_new_supplier _ store) as [s t1].
    destruct (find_or_new_item _ t1) as [i t2].
    destruct (find_or_new_unit _ t2) as [u t3]. exact K. }
  assert (H' : order_of order_id store' = Some o').
  { injection E as <- <-. unfold update_order_result.
    pose proof (find_or_new_supplier_orders (OrderCreate.supplier_name order) store) as O1.
    destruct (find_or_new_supplier _ store) as [s t1].
    pose proof (find_or_new_item_orders (OrderCreate.item_name order) t1) as O2.
    destruct (find_or_new_item _ t1) as [i t2].
    pose proof (find_or_new_unit_orders (OrderCreate.unit_name order) t2) as O3.
    destruct (find_or_new_unit _ t2) as [u t3]. cbn [fst snd] in *.
    apply (order_of_updated order_id t3 o); [|exact K].
    unfold order_of. rewrite O3, O2, O1. exact H. }
  rewrite (update_order_found _ _ _ _ H'). clear H'.
  injection E as <- <-. unfold update_order_result at 1 2.
  unfold update_order_result in K'. unfold update_order_result.
  pose proof (find_or_new_supplier_again (OrderCreate.supplier_name order) store) as A1.
  destruct (find_or_new_supplier _ store) as [s t1].
  pose proof (find_or_new_item_again (OrderCreate.item_name order) t1) as A2.
  pose proof (find_or_new_item_frame (OrderCreate.item_name order) t1) as [F2 _].
  destruct (find_or_new_item _ t1) as [i t2].
  pose proof (find_or_new_unit_again (OrderCreate.unit_name order) t2) as A3.
  pose proof (find_or_new_unit_frame (OrderCreate.unit_name order) t2) as [F3 G3].
  destruct (find_or_new_unit _ t2) as [u t3]. cbn [fst snd] in *.
  rewrite A1 by (cbn [with_orders suppliers]; congruence).
  rewrite A2 by (cbn [with_orders items]; congruence).
  rewrite A3 by reflexivity.
  cbn [fst snd with_orders orders suppliers items units].
  rewrite updated_order_twice, update_order_twice by exact K'. reflexivity.
Qed.

Lemma update_order_idempotent_witness :
  exists o' store',
    get_db (Api.update_order 9 Sample2.nuts) Sample2.store = (Ok o', store') /\
    get_db (Api.update_order 9 Sample2.nuts) store' = (Ok o', store').
Proof.
  eexists. eexists. split; [reflexivity|].
  apply (update_order_idempotent 9 Sample2.nuts Sample2.store). reflexivity.
Defined.

Lemma find_by_key {A} (id : A -> option Z) l r :
  keys_ok (map id l) = true -> In r l ->
  find_by_id id (id r) l = Some r.
Proof.
  induction l as [|x l IH]; simpl; intros K I; [destruct I|].
  destruct (id x) as [a|] eqn:X; [|discriminate].
  apply andb_prop in K. destruct K as [K1 K2]. apply negb_true_iff in K1.
  destruct I as [->|I].
  - unfold find_by_id. rewrite X. cbn [find]. rewrite X, opt_Z_eqb_refl. reflexivity.
  - specialize (IH K2 I). rewrite existsb_false in K1.
    specialize (K1 (id r) (in_map id l r I)).
    unfold find_by_id in *. destruct (id r) as [k|] eqn:R; [|discriminate].
    cbn [find]. rewrite X, K1. exact IH.
Qed.

Lemma find_or_new_supplier_row name t :
  In (fst (find_or_new_supplier name t)) (suppliers (snd (find_or_new_supplier name t))) /\
  Supplier.name (fst (find_or_new_supplier name t)) = Some name.
Proof.
  unfold find_or_new_supplier. destruct (find _ (suppliers t)) as [s|] eqn:F; cbn.
  - apply find_some in F. split; [tauto | now apply opt_str_eqb_eq].
  - split; [apply in_or_app; right; now left | reflexivity].
Qed.

Lemma find_or_new_item_row name t :
  In (fst (find_or_new_item name t)) (items (snd (find_or_new_item name t))) /\
  Item.name (fst (find_or_new_item name t)) = Some name.
Proof.
  unfold find_or_new_item. destruct (find _ (items t)) as [s|] eqn:F; cbn.
  - apply find_some in F. split; [tauto | now apply opt_str_eqb_eq].
  - split; [apply in_or_app; right; now left | reflexivity].
Qed.

Lemma find_or_new_unit_row name t :
  In (fst (find_or_new_unit name t)) (units (snd (find_or_new_unit name t))) /\
  Unit.name (fst (find_or_new_unit name t)) = Some name.
Proof.
  unfold find_or_new_unit. destruct (find _ (units t)) as [s|] eqn:F; cbn.
  - apply find_some in F. split; [tauto | now apply opt_str_eqb_eq].
  - split; [apply in_or_app; right; now left | reflexivity].
Qed.

(** X15: the order written by PUT /orders/{order_id} points at rows of the
    names of the body.  In a store with integrity, after a successful
    update the order stored under the id is the one answered, and its
    supplier_id, item_id and unit_id are keys under which the store left
    holds a supplier, an item and a unit of the names given in the body. *)
Theorem update_order_links_named_rows order_id order store o' store' :
  integrity store = true ->
  get_db (Api.update_order order_id order) store = (Ok o', store') ->
  order_of order_id store' = Some o' /\
  exists s i u,
    find_by_id Supplier.id (Order.supplier_id o') (suppliers store') = Some s /\
    Supplier.name s = Some (OrderCreate.supplier_name order) /\
    find_by_id Item.id (Order.item_id o') (items store') = Some i /\
    Item.name i = Some (OrderCreate.item_name order) /\
    find_by_id Unit.id (Order.unit_id o') (units store') = Some u /\
    Unit.name u = Some (OrderCreate.unit_name order).
Proof.
  intros G E.
  destruct (order_of order_id store) as [o|] eqn:H;
    [|rewrite (update_order_missing _ _ _ H) in E; discriminate].
  rewrite (update_order_found _ _ _ _ H) in E.
  pose proof (order_of_id _ _ _ H) as K.
  unfold update_order_result in E.
  pose proof (find_or_new_supplier_steps (OrderCreate.supplier_name order) store) as S1.
  pose proof (find_or_new_supplier_orders (OrderCreate.supplier_name order) store) as O1.
  pose proof (find_or_new_supplier_row (OrderCreate.supplier_name order) store) as [I1 N1].
  destruct (find_or_new_supplier _ store) as [s t1].
  pose proof (find_or_new_item_steps (OrderCreate.item_name order) t1) as S2.
  pose proof (find_or_new_item_orders (OrderCreate.item_name order) t1) as O2.
  pose proof (find_or_new_item_row (OrderCreate.item_name order) t1) as [I2 N2].
  pose proof (find_or_new_item_frame (OrderCreate.item_name order) t1) as [F2 _].
  destruct (find_or_new_item _ t1) as [i t2].
  pose proof (find_or_new_unit_steps (OrderCreate.unit_name order) t2) as S3.
  pose proof (find_or_new_unit_orders (OrderCreate.unit_name order) t2) as O3.
  pose proof (find_or_new_unit_row (OrderCreate.unit_name order) t2) as [I3 N3].
  pose proof (find_or_new_unit_frame (OrderCreate.unit_name order) t2) as [F3 G3].
  destruct (find_or_new_unit _ t2) as [u t3]. cbn [fst snd] in *.
  injection E as <- <-.
  pose proof (steps_integrity _ _ (steps_trans _ _ _ S1 (steps_trans _ _ _ S2 S3)) G) as G3'.
  apply integrity_parts in G3'.
  destruct G3' as ((SK & _) & (IK & _) & (UK & _) & _).
  split.
  - apply (order_of_updated order_id t3 o); [|exact K].
    unfold order_of. rewrite O3, O2, O1. exact H.
  - exists s, i, u.
    cbn [with_orders suppliers items units Api.updated_order
         Order.supplier_id Order.item_id Order.unit_id].
    rewrite (find_by_key Supplier.id (suppliers t3) s SK) by (rewrite F3, F2; exact I1).
    rewrite (find_by_key Item.id (items t3) i IK) by (rewrite G3; exact I2).
    rewrite (find_by_key Unit.id (units t3) u UK) by exact I3.
    repeat split; assumption.
Qed.

Lemma update_order_links_named_rows_witness :
  exists o' store' i,
    get_db (Api.update_order 9 Sample2.nuts) Sample2.store = (Ok o', store') /\
    find_by_id Item.id (Order.item_id o') (items store') = Some i /\
    Item.name i = Some "nut".
Proof.
  destruct (update_order_links_named_rows 9 Sample2.nuts Sample2.store
              (fst (update_order_result 9 Sample2.nuts Sample2.order9 Sample2.store))
              (snd (update_order_result 9 Sample2.nuts Sample2.order9 Sample2.store))
              eq_refl eq_refl)
    as (_ & s & i & u & _ & _ & FI & NI & _).
  eexists. eexists. exists i. split; [reflexivity|]. split; [exact FI | exact NI].
Defined.

(** ** The frame of the order writes *)

Lemma find_update_order_other k key row l :
  Order.id row = Some key -> k <> key ->
  find (fun o => opt_Z_eqb (Order.id o) (Some k))
    (update_order (Some key) (fun _ => row) l) =
  find (fun o => opt_Z_eqb (Order.id o) (Some k)) l.
Proof.
  intros R N. induction l as [|x l IH]; simpl; [reflexivity|].
  destruct (opt_Z_eqb (Order.id x) (Some key)) eqn:E; simpl.
  - apply opt_Z_eqb_eq in E. rewrite R, E. simpl.
    replace (key =? k) with false by (symmetry; apply Z.eqb_neq; congruence).
    reflexivity.
  - now rewrite IH.
Qed.

(** X16: approving, rejecting or updating one order leaves every other order
    as it was, keeps the keys of the orders table in their sequence, and
    (for an approval or a rejection) leaves suppliers, items and units
    untouched. *)
Theorem order_writes_touch_one_order order_id k store :
  k <> order_id ->
  (forall now password,
     let store' := snd (get_db (approve_order now order_id password) store) in
     order_of k store' = order_of k store /\
     map Order.id (orders store') = map Order.id (orders store) /\
     suppliers store' = suppliers store /\ items store' = items store /\
     units store' = units store) /\
  (forall now reason,
     let store' := snd (get_db (reject_order now order_id reason) store) in
     order_of k store' = order_of k store /\
     map Order.id (orders store') = map Order.id (orders store) /\
     suppliers store' = suppliers store /\ items store' = items store /\
     units store' = units store) /\
  (forall order,
     let store' := snd (get_db (Api.update_order order_id order) store) in
     order_of k store' = order_of k store /\
     map Order.id (orders store') = map Order.id (orders store)).
Proof.
  intros N.
  assert (Set_ : forall o row, order_of order_id store = Some o ->
            Order.id row = Some order_id ->
            let store' := with_orders store
                            (update_order (Some order_id) (fun _ => row) (orders store)) in
            order_of k store' = order_of k store /\
            map Order.id (orders store') = map Order.id (orders store) /\
            suppliers store' = suppliers store /\ items store' = items store /\
            units store' = units store).
  { intros o row H R store'. unfold store', order_of. cbn [with_orders orders].
    rewrite find_update_order_other, map_id_update_order by assumption.
    repeat split. }
  split; [|split].
  - intros now password store'. unfold store'.
    destruct (String.eqb password "admin") eqn:P.
    + apply String.eqb_eq in P. subst password.
      destruct (order_of order_id store) as [o|] eqn:H.
      * rewrite (approve_existing now order_id store o H). cbn [snd].
        apply (Set_ o); [reflexivity | exact (order_of_id _ _ _ H)].
      * unfold get_db. rewrite approve_missing by exact H. repeat split.
    + apply String.eqb_neq in P. unfold get_db.
      rewrite approve_wrong_password by exact P. repeat split.
  - intros now reason store'. unfold store'.
    destruct (order_of order_id store) as [o|] eqn:H.
    + rewrite (reject_existing now order_id reason store o H). cbn [snd].
      apply (Set_ o); [reflexivity | exact (order_of_id _ _ _ H)].
    + unfold get_db. rewrite reject_missing by exact H. repeat split.
  - intros order store'. unfold store'.
    destruct (order_of order_id store) as [o|] eqn:H.
    + rewrite (update_order_found _ _ _ _ H). cbn [snd].
      unfold update_order_result.
      pose proof (find_or_new_supplier_orders (OrderCreate.supplier_name order) store) as O1.
      destruct (find_or_new_supplier _ store) as [s t1].
      pose proof (find_or_new_item_orders (OrderCreate.item_name order) t1) as O2.
      destruct (find_or_new_item _ t1) as [i t2].
      pose proof (find_or_new_unit_orders (OrderCreate.unit_name order) t2) as O3.
      destruct (find_or_new_unit _ t2) as [u t3]. cbn [fst snd] in *.
      unfold order_of. cbn [with_orders orders].
      rewrite find_update_order_other, map_id_update_order
        by (try exact N; exact (order_of_id _ _ _ H)).
      rewrite O3, O2, O1. split; reflexivity.
    + rewrite (update_order_missing _ _ _ H). split; reflexivity.
Qed.

Lemma order_writes_touch_one_order_witness :
  order_of 7 (snd (get_db (approve_order "26-11-04 10:00" 9 "admin") Sample2.store)) =
    Some Sample.plain_order /\
  order_of 7 (snd (get_db (Api.update_order 9 Sample2.nuts) Sample2.store)) =
    Some Sample.plain_order.
Proof.
  destruct (order_writes_touch_one_order 9 7 Sample2.store) as (A & _ & U); [discriminate|].
  split.
  - exact (proj1 (A "26-11-04 10:00" "admin")).
  - exact (proj1 (U Sample2.nuts)).
Defined.

(** ** Dates read back *)

Lemma Zrange_In n : forall lo z, lo <= z < lo + Z.of_nat n -> In z (Zrange lo n).
Proof.
  induction n as [|n IH]; intros lo z H; [lia|].
  simpl. destruct (Z.eq_dec lo z) as [E|E]; [now left|].
  right. apply IH. lia.
Qed.

Lemma years_ok : forallb year_text_ok (Zrange 1 (Z.to_nat 9999)) = true.
Proof. vm_compute. reflexivity. Qed.

Lemma months_days_ok :
  forallb (fun c =>
    forallb (fun m => forallb (month_day_text_ok c m) (Zrange 1 (Z.to_nat 31)))
      (Zrange 1 (Z.to_nat 12)))
    ["-"; "/"; "."]%char = true.
Proof. vm_compute. reflexivity. Qed.

Lemma year_ok y : 1 <= y <= 9999 -> year_text_ok y = true.
Proof.
  intros H. pose proof years_ok as A. rewrite forallb_forall in A.
  apply A, Zrange_In. lia.
Qed.

Lemma month_day_ok c m d :
  In c ["-"; "/"; "."]%char -> 1 <= m <= 12 -> 1 <= d <= 31 ->
  month_day_text_ok c m d = true.
Proof.
  intros C M D. pose proof months_days_ok as A. rewrite forallb_forall in A.
  specialize (A c C). rewrite forallb_forall in A.
  assert (I : In m (Zrange 1 (Z.to_nat 12))) by (apply Zrange_In; lia).
  specialize (A m I). rewrite forallb_forall in A.
  apply A, Zrange_In. lia.
Qed.

Lemma chars_app a b : Text.chars (a ++ b) = (Text.chars a ++ Text.chars b)%list.
Proof.
  unfold Text.chars. induction a as [|c a IH]; simpl; [reflexivity|]. now rewrite IH.
Qed.

Lemma text_chars s : Text.text (Text.chars s) = s.
Proof. apply string_of_list_ascii_of_string. Qed.

Lemma digit_not_blank c : Text.is_digit c = true -> Text.is_space c = false.
Proof. destruct c as [[] [] [] [] [] [] [] []]; vm_compute; congruence. Qed.

Lemma digit_not_dot c : Text.is_digit c = true -> Ascii.eqb c "." = false.
Proof. destruct c as [[] [] [] [] [] [] [] []]; vm_compute; congruence. Qed.

(** A text that begins and ends with a digit has nothing to strip. *)
Lemma strip_between_digits a mid b :
  forallb Text.is_digit a = true -> a <> [] ->
  forallb Text.is_digit b = true -> b <> [] ->
  Text.strip_chars (a ++ mid ++ b) = (a ++ mid ++ b)%list.
Proof.
  intros A NA B NB. unfold Text.strip_chars, Text.strip_by.
  assert (L : forall l x l', l = x :: l' -> Text.is_digit x = true ->
                Text.lstrip_by Text.is_space l = l).
  { intros l x l' -> X. simpl. now rewrite (digit_not_blank x X). }
  destruct a as [|x a']; [contradiction|]. simpl in A. apply andb_prop in A.
  set (l := ((x :: a') ++ mid ++ b)%list).
  rewrite (L l x (a' ++ mid ++ b)%list eq_refl (proj1 A)).
  destruct (rev b) as [|y rb] eqn:R.
  { exfalso. apply NB. rewrite <- (rev_involutive b), R. reflexivity. }
  assert (Y : Text.is_digit y = true).
  { rewrite forallb_forall in B. apply B, in_rev. rewrite R. now left. }
  rewrite (L (rev l) y (rb ++ rev mid ++ rev (x :: a'))%list).
  - apply rev_involutive.
  - subst l. rewrite !rev_app_distr, R. cbn [app]. now rewrite <- app_assoc.
  - exact Y.
Qed.

Lemma prefix_dot c s : String.prefix "." (String c s) = Ascii.eqb c ".".
Proof.
  destruct (Ascii.eqb c ".") eqn:E.
  - apply Ascii.eqb_eq in E. subst c. apply prefix_correct. now destruct s.
  - destruct (String.prefix "." (String c s)) eqn:P; [|reflexivity].
    apply prefix_correct in P. simpl in P. injection P as P _.
    apply Ascii.eqb_neq in E. contradiction.
Qed.

Lemma contains_dot s :
  Text.contains "." s = existsb (fun c => Ascii.eqb c ".") (Text.chars s).
Proof.
  unfold Text.chars. induction s as [|c s IH]; [reflexivity|].
  change (Text.contains "." (String c s))
    with (String.prefix "." (String c s) || Text.contains "." s).
  rewrite IH, prefix_dot. reflexivity.
Qed.

Lemma digits_no_dot l :
  forallb Text.is_digit l = true -> existsb (fun c => Ascii.eqb c ".") l = false.
Proof.
  intros H. apply existsb_false. rewrite forallb_forall in H.
  intros c I. apply digit_not_dot, H, I.
Qed.

Lemma split_chars_digits l :
  forallb Text.is_digit l = true -> Text.split_chars "." l = [l].
Proof.
  induction l as [|c l IH]; simpl; [reflexivity|].
  intros H. apply andb_prop in H. destruct H as [C H].
  rewrite (digit_not_dot c C), (IH H). reflexivity.
Qed.

Lemma split_chars_app l rest :
  forallb Text.is_digit l = true ->
  Text.split_chars "." (l ++ "."%char :: rest) = l :: Text.split_chars "." rest.
Proof.
  induction l as [|c l IH]; simpl; [reflexivity|].
  intros H. apply andb_prop in H. destruct H as [C H].
  rewrite (digit_not_dot c C), (IH H). reflexivity.
Qed.

(** The patterns read a prefix: what follows does not matter. *)
Lemma digit_in_app lo hi l v l' r :
  Strptime.digit_in lo hi l = Some (v, l') ->
  Strptime.digit_in lo hi (l ++ r) = Some (v, (l' ++ r)%list).
Proof.
  destruct l as [|x l0]; simpl; [discriminate|].
  destruct (Text.digit_val x); [|discriminate].
  destruct (_ && _); [|discriminate]. now intros [= <- <-].
Qed.

Lemma two_digits_app a b c d l v l' r :
  Strptime.two_digits a b c d l = Some (v, l') ->
  Strptime.two_digits a b c d (l ++ r) = Some (v, (l' ++ r)%list).
Proof.
  unfold Strptime.two_digits.
  destruct (Strptime.digit_in a b l) as [[x l1]|] eqn:E1; [|discriminate].
  rewrite (digit_in_app _ _ _ _ _ r E1).
  destruct (Strptime.digit_in c d l1) as [[y l2]|] eqn:E2; [|discriminate].
  rewrite (digit_in_app _ _ _ _ _ r E2). now intros [= <- <-].
Qed.

Lemma year4_app l v l' r :
  Strptime.year4 l = Some (v, l') ->
  Strptime.year4 (l ++ r) = Some (v, (l' ++ r)%list).
Proof.
  unfold Strptime.year4.
  destruct (Strptime.two_digits 0 9 0 9 l) as [[x l1]|] eqn:E1; [|discriminate].
  rewrite (two_digits_app _ _ _ _ _ _ _ r E1).
  destruct (Strptime.two_digits 0 9 0 9 l1) as [[y l2]|] eqn:E2; [|discriminate].
  rewrite (two_digits_app _ _ _ _ _ _ _ r E2). now intros [= <- <-].
Qed.

Lemma first_some_tag {A B C} (g : B -> C) (f : A -> option B) (h : A -> option C) l :
  (forall a, h a = option_map g (f a)) ->
  Strptime.first_some h l = option_map g (Strptime.first_some f l).
Proof.
  intros H. induction l as [|a l IH]; simpl; [reflexivity|].
  rewrite H. destruct (f a); simpl; [reflexivity | exact IH].
Qed.

Lemma re_match_month_day c1 c2 l :
  Strptime.re_match c1 c2 l =
  match Strptime.year4 l with
  | Some (y, l1) =>
      match Strptime.expect c1 l1 with
      | Some l2 => option_map (fun r => (y, fst (fst r), snd (fst r), snd r))
                     (month_day c2 l2)
      | None => None
      end
  | None => None
  end.
Proof.
  unfold Strptime.re_match, month_day.
  destruct (Strptime.year4 l) as [[y l1]|]; [|reflexivity].
  destruct (Strptime.expect c1 l1) as [l2|]; [|reflexivity].
  apply first_some_tag. intros [m l3]. simpl.
  destruct (Strptime.expect c2 l3); [|reflexivity].
  destruct (Strptime.day_alts l0) as [|[d l5] ?]; reflexivity.
Qed.

Lemma strptime_pattern s c1 c2 :
  Strptime.strptime s
    (String "%" (String "Y" (String c1 (String "%" (String "m"
       (String c2 (String "%" (String "d" EmptyString)))))))) =
  match Strptime.re_match c1 c2 (Text.chars s) with
  | Some (y, m, d, []) =>
      if valid_date (mkdate y m d) then Ok (mkdate y m d)
      else Raise (ValueError "day is out of range for month")
  | Some _ => Raise (ValueError "unconverted data remains")
  | None => Raise (ValueError "time data does not match format")
  end.
Proof. reflexivity. Qed.

Lemma valid_date_bounds d :
  valid_date d = true ->
  1 <= year d <= 9999 /\ 1 <= month d <= 12 /\ 1 <= day d <= 31.
Proof.
  unfold valid_date. rewrite !andb_true_iff, !Z.leb_le.
  assert (days_in_month (year d) (month d) <= 31).
  { unfold days_in_month. destruct (month d =? 2); [destruct (is_leap _); lia|].
    destruct (_ || _); lia. }
  lia.
Qed.

Lemma digits_ok_parts w z :
  digits_ok w z = true ->
  forallb Text.is_digit (Text.chars (pad w z)) = true /\
  Text.chars (pad w z) <> [] /\
  py_int (pad w z) = Ok z.
Proof.
  unfold digits_ok, py_int. rewrite !andb_true_iff. intros [[A B] C].
  split; [exact A|]. split.
  - intros E. rewrite E in B. discriminate.
  - destruct (Py.int_of_str (pad w z)); [|discriminate].
    apply Z.eqb_eq in C. now subst.
Qed.

(** The characters of a written date. *)
Lemma chars_written c d :
  Text.chars (written (String c EmptyString) d) =
  (Text.chars (pad 4 (year d)) ++
   [c] ++ Text.chars (pad 2 (month d)) ++ c :: Text.chars (pad 2 (day d)))%list.
Proof. unfold written. rewrite !chars_app. reflexivity. Qed.

Lemma strip_written c d :
  valid_date d = true -> In c ["-"; "/"; "."]%char ->
  Text.strip (written (String c EmptyString) d) = written (String c EmptyString) d.
Proof.
  intros V C. destruct (valid_date_bounds d V) as (Y & M & D).
  pose proof (year_ok _ Y) as HY. unfold year_text_ok in HY.
  apply andb_prop in HY. destruct HY as [HY _].
  apply digits_ok_parts in HY. destruct HY as (Y1 & Y2 & _).
  pose proof (month_day_ok c _ _ C M D) as HD. unfold month_day_text_ok in HD.
  rewrite !andb_true_iff in HD. destruct HD as [[_ HD] _].
  apply digits_ok_parts in HD. destruct HD as (D1 & D2 & _).
  unfold Text.strip. rewrite chars_written.
  replace (Text.chars (pad 4 (year d)) ++
           [c] ++ Text.chars (pad 2 (month d)) ++ c :: Text.chars (pad 2 (day d)))%list
    with (Text.chars (pad 4 (year d)) ++
          ([c] ++ Text.chars (pad 2 (month d)) ++ [c]) ++ Text.chars (pad 2 (day d)))%list
    by (now rewrite <- !app_assoc).
  rewrite strip_between_digits by assumption.
  rewrite <- (text_chars (written _ d)) at 1. rewrite chars_written.
  now rewrite <- !app_assoc.
Qed.

(** [strptime] reads a written date under the pattern of its separator, and
    fails under the pattern of another. *)
Lemma strptime_written c1 c d :
  valid_date d = true -> In c ["-"; "/"; "."]%char ->
  Strptime.strptime (written (String c EmptyString) d)
    (String "%" (String "Y" (String c1 (String "%" (String "m"
       (String c1 (String "%" (String "d" EmptyString)))))))) =
  if Ascii.eqb c c1 then Ok d
  else Raise (ValueError "time data does not match format").
Proof.
  intros V C. destruct (valid_date_bounds d V) as (Y & M & D).
  pose proof (year_ok _ Y) as HY. unfold year_text_ok in HY.
  apply andb_prop in HY. destruct HY as [_ HY].
  destruct (Strptime.year4 (Text.chars (pad 4 (year d)))) as [[v [|? ?]]|] eqn:E4;
    try discriminate.
  apply Z.eqb_eq in HY. subst v.
  pose proof (month_day_ok c _ _ C M D) as HD. unfold month_day_text_ok in HD.
  rewrite !andb_true_iff in HD. destruct HD as [_ HD].
  rewrite strptime_pattern, re_match_month_day, chars_written.
  rewrite (year4_app _ _ _ _ E4). cbn [app Strptime.expect].
  destruct (Ascii.eqb c c1) eqn:E; [|reflexivity].
  apply Ascii.eqb_eq in E. subst c1.
  destruct (month_day c _) as [[[m' d'] [|? ?]]|]; try discriminate.
  apply andb_prop in HD. destruct HD as [HM HD'].
  apply Z.eqb_eq in HM, HD'. subst m' d'. cbn [option_map fst snd].
  destruct d as [y m dd]. cbn [year month day] in *. now rewrite V.
Qed.

(** X17: the date chain reads back what it writes.  For every date of the
    calendar, a text cell holding it year first and zero-padded, with ".",
    "-" or "/" between the fields, is normalised to that date whatever today
    is; so is a date cell, through its ISO text. *)
Theorem normalize_date_reads_written today d c :
  valid_date d = true -> In c ["."; "-"; "/"]%char ->
  normalize_date today (PStr (written (String c EmptyString) d)) = d /\
  normalize_date today (PDate d) = d.
Proof.
  intros V C.
  assert (C' : In c ["-"; "/"; "."]%char) by (simpl in *; tauto).
  destruct (valid_date_bounds d V) as (Y & M & D).
  assert (Dash : In "-"%char ["-"; "/"; "."]%char) by (now left).
  assert (Slash : In "/"%char ["-"; "/"; "."]%char) by (right; now left).
  assert (NoDot : forall c0, In c0 ["-"; "/"]%char ->
            normalize_date today (PStr (written (String c0 EmptyString) d)) = d /\
            split_step (written (String c0 EmptyString) d) = Ok None /\
            try_formats (written (String c0 EmptyString) d) date_formats = Some d).
  { intros c0 C0.
    assert (C0' : In c0 ["-"; "/"; "."]%char) by (simpl in *; tauto).
    pose proof (year_ok _ Y) as HY. unfold year_text_ok in HY.
    apply andb_prop in HY. destruct HY as [HY _].
    apply digits_ok_parts in HY. destruct HY as (Y1 & _ & _).
    pose proof (month_day_ok c0 _ _ C0' M D) as HD. unfold month_day_text_ok in HD.
    rewrite !andb_true_iff in HD. destruct HD as [[HM HD] _].
    apply digits_ok_parts in HM. destruct HM as (M1 & _ & _).
    apply digits_ok_parts in HD. destruct HD as (D1 & _ & _).
    assert (S : split_step (written (String c0 EmptyString) d) = Ok None).
    { unfold split_step. rewrite contains_dot, chars_written.
      rewrite !existsb_app. cbn [existsb].
      rewrite !digits_no_dot by assumption.
      destruct C0 as [<-|[<-|[]]]; reflexivity. }
    assert (T : try_formats (written (String c0 EmptyString) d) date_formats = Some d).
    { unfold date_formats, try_formats.
      rewrite (strip_written c0 d V C0').
      rewrite (strptime_written "." c0 d V C0').
      rewrite (strptime_written "-" c0 d V C0').
      rewrite (strptime_written "/" c0 d V C0').
      destruct C0 as [<-|[<-|[]]]; reflexivity. }
    split; [|split; assumption].
    unfold normalize_date. cbn [py_str]. rewrite S. cbn [rbind]. now rewrite T. }
  split.
  - destruct C as [<-|C]; [|apply NoDot, C].
    pose proof (year_ok _ Y) as HY. unfold year_text_ok in HY.
    apply andb_prop in HY. destruct HY as [HY _].
    apply digits_ok_parts in HY. destruct HY as (Y1 & _ & Y3).
    pose proof (month_day_ok "." _ _ C' M D) as HD. unfold month_day_text_ok in HD.
    rewrite !andb_true_iff in HD. destruct HD as [[HM HD] _].
    apply digits_ok_parts in HM. destruct HM as (M1 & _ & M3).
    apply digits_ok_parts in HD. destruct HD as (D1 & _ & D3).
    assert (S : split_step (written "." d) = Ok (Some d)).
    { unfold split_step. rewrite contains_dot, chars_written.
      rewrite !existsb_app. cbn [existsb app]. rewrite Ascii.eqb_refl.
      rewrite orb_true_r. cbn [orb].
      unfold date_of_parts. rewrite (strip_written "." d V C').
      unfold Text.split. rewrite chars_written. cbn [app].
      rewrite split_chars_app, split_chars_app, split_chars_digits by assumption.
      cbn [map List.length Nat.eqb nth]. rewrite !text_chars, Y3, M3, D3.
      cbn [rbind]. unfold datetime_ymd.
      replace (fits_c_int (year d) && fits_c_int (month d) && fits_c_int (day d))
        with true.
      - destruct d as [y m dd]. cbn [year month day negb] in *. now rewrite V.
      - symmetry. unfold fits_c_int. rewrite !andb_true_iff, !Z.leb_le, !Z.ltb_lt. lia. }
    unfold normalize_date. cbn [py_str]. rewrite S. reflexivity.
  - destruct (NoDot "-"%char (or_introl eq_refl)) as (_ & S & T).
    unfold normalize_date. cbn [py_str].
    change (isoformat d) with (written "-" d). rewrite S. cbn [rbind]. now rewrite T.
Qed.

Lemma normalize_date_reads_written_witness :
  normalize_date Sample.today (PStr "2024.02.29") = mkdate 2024 2 29 /\
  normalize_date Sample.today (PDate (mkdate 2024 2 29)) = mkdate 2024 2 29.
Proof.
  apply (normalize_date_reads_written Sample.today (mkdate 2024 2 29) "."%char);
    [reflexivity | now left].
Defined.

(** ** The outcomes of an upload *)

Lemma upload_rows_blank today rows : forall acc db,
  forallb (fun row => negb (existsb truthy row)) rows = true ->
  upload_rows today rows acc db = (Ok acc, db).
Proof.
  induction rows as [|row rest IH]; intros acc db; simpl; [reflexivity|].
  intros H. apply andb_prop in H. destruct H as [B H]. rewrite B. now apply IH.
Qed.

Lemma upload_rows_fails today rows : forall acc db,
  forallb (fun row => negb (existsb truthy row)) rows = false ->
  exists e db', upload_rows today rows acc db = (Raise e, db').
Proof.
  intros acc db H.
  destruct (upload_rows today rows acc db) as [[r|e] db'] eqn:E; [|eauto].
  apply upload_rows_ok in E. destruct E as (_ & _ & E). congruence.
Qed.

(** X18: the answers of POST /orders/upload.  A file name that does not end
    in ".xlsx" (in this case of the letters) is answered 400; a workbook that
    cannot be read is answered 500 with the text of the error; a workbook
    whose data rows are all blank is answered "Successfully uploaded 0
    orders"; every other workbook is answered 500.  In each case the store is
    what it was. *)
Theorem upload_orders_outcome today file store :
  snd (get_db (upload_orders today file) store) = store /\
  (Text.endswith (UploadFile.filename file) ".xlsx" = false ->
   fst (get_db (upload_orders today file) store) =
     Raise (HTTPException 400 "Only .xlsx files are allowed")) /\
  (Text.endswith (UploadFile.filename file) ".xlsx" = true ->
   (forall e, UploadFile.workbook file = Raise e ->
      fst (get_db (upload_orders today file) store) =
        Raise (HTTPException 500 (exn_str e))) /\
   (forall ws, UploadFile.workbook file = Ok ws ->
      (forallb (fun row => negb (existsb truthy row)) (data_rows ws) = true ->
       fst (get_db (upload_orders today file) store) =
         Ok "Successfully uploaded 0 orders") /\
      (forallb (fun row => negb (existsb truthy row)) (data_rows ws) = false ->
       exists detail,
         fst (get_db (upload_orders today file) store) =
           Raise (HTTPException 500 detail)))).
Proof.
  split; [apply upload_orders_never_writes|]. split.
  - intros N. unfold get_db, upload_orders. rewrite N. reflexivity.
  - intros Y. split.
    + intros e W. unfold get_db, upload_orders. rewrite Y, W. reflexivity.
    + intros ws W. split; intros B.
      * unfold get_db, upload_orders. rewrite Y, W. cbn [negb].
        unfold try_catch, bind at 1, lift. unfold bind at 1.
        rewrite (upload_rows_blank today _ [] _ B). reflexivity.
      * unfold get_db, upload_orders. rewrite Y, W. cbn [negb].
        unfold try_catch, bind at 1, lift. unfold bind at 1.
        destruct (upload_rows_fails today _ [] (SessionLocal store) B) as (e & db' & ->).
        exists (exn_str e). reflexivity.
Qed.

Lemma upload_orders_outcome_witness :
  fst (get_db (upload_orders Sample.today (UploadFile.Build "orders.XLSX" (Ok [])))
         Sample.empty_store) =
    Raise (HTTPException 400 "Only .xlsx files are allowed") /\
  fst (get_db (upload_orders Sample.today
                 (UploadFile.Build "orders.xlsx" (Ok [Sample.header; Sample.blank_row])))
         Sample.empty_store) =
    Ok "Successfully uploaded 0 orders" /\
  exists detail,
    fst (get_db (upload_orders Sample.today Sample.one_row_file) Sample.empty_store) =
      Raise (HTTPException 500 detail).
Proof.
  destruct (upload_orders_outcome Sample.today (UploadFile.Build "orders.XLSX" (Ok []))
              Sample.empty_store) as (_ & A & _).
  destruct (upload_orders_outcome Sample.today
              (UploadFile.Build "orders.xlsx" (Ok [Sample.header; Sample.blank_row]))
              Sample.empty_store) as (_ & _ & B).
  destruct (upload_orders_outcome Sample.today Sample.one_row_file Sample.empty_store)
    as (_ & _ & C).
  split; [exact (A eq_refl)|]. split.
  - exact (proj1 (proj2 (B eq_refl) _ eq_refl) eq_refl).
  - exact (proj2 (proj2 (C eq_refl) _ eq_refl) eq_refl).
Defined.

(** ** Numbers *)

Lemma filter_twice {A} (p : A -> bool) l : filter p (filter p l) = filter p l.
Proof.
  induction l as [|x l IH]; simpl; [reflexivity|].
  destruct (p x) eqn:P; simpl; [now rewrite P, IH | exact IH].
Qed.

Lemma remove_twice c s : Text.remove c (Text.remove c s) = Text.remove c s.
Proof.
  unfold Text.remove, Text.chars, Text.text.
  now rewrite list_ascii_of_string_of_list_ascii, filter_twice.
Qed.

Lemma prefix_eq c s : String.prefix "=" (String c s) = Ascii.eqb c "=".
Proof.
  destruct (Ascii.eqb c "=") eqn:E.
  - apply Ascii.eqb_eq in E. subst c. apply prefix_correct. now destruct s.
  - destruct (String.prefix "=" (String c s)) eqn:P; [|reflexivity].
    apply prefix_correct in P. simpl in P. injection P as P _.
    apply Ascii.eqb_neq in E. contradiction.
Qed.

Lemma lstrip_keeps_last blank l x :
  blank x = false -> exists l', Text.lstrip_by blank (l ++ [x]) = (l' ++ [x])%list.
Proof.
  intros B. induction l as [|c l IH]; simpl.
  - rewrite B. now exists [].
  - destruct (blank c); [exact IH | now exists (c :: l)].
Qed.

(** A text that starts with "=" is no float literal. *)
Lemma float_of_str_formula s : Py.float_of_str (String "=" s) = None.
Proof.
  unfold Py.float_of_str, Text.strip_by.
  change (Text.chars (String "=" s)) with ("="%char :: Text.chars s).
  change (Text.lstrip_by Text.is_c_space ("="%char :: Text.chars s))
    with ("="%char :: Text.chars s).
  change (rev ("="%char :: Text.chars s)) with (rev (Text.chars s) ++ ["="%char])%list.
  destruct (lstrip_keeps_last Text.is_c_space (rev (Text.chars s)) "="%char eq_refl)
    as [l' ->].
  rewrite rev_app_distr. reflexivity.
Qed.

(** X19: [get_float_value] fails on nothing but an int too large for a
    double: whenever it raises, the cell is a non-zero int whose conversion
    overflows and the exception is that OverflowError.  Texts, floats, bools,
    dates and empty cells always give a number. *)
Theorem get_float_value_raises_only_overflow v e :
  get_float_value v = Raise e ->
  e = OverflowError "int too large to convert to float" /\
  exists n, v = PInt n /\ n <> 0 /\ Py.float_of_int n = Raise e.
Proof.
  intros H. destruct (get_float_value_raises_only_on_int v e H) as [n ->].
  unfold get_float_value in H. cbn [truthy] in H.
  destruct (Z.eq_dec n 0) as [->|N]; [discriminate|].
  replace (negb (negb (n =? 0))) with false in H
    by (symmetry; apply negb_false_iff, negb_true_iff, Z.eqb_neq, N).
  split; [|exists n; auto].
  unfold Py.float_of_int in H. destruct (Py.is_infinite _); congruence.
Qed.

Lemma get_float_value_raises_only_overflow_witness :
  exists n, PInt (2 ^ 1024) = PInt n /\ n <> 0 /\
    Py.float_of_int n = Raise (OverflowError "int too large to convert to float").
Proof.
  apply (get_float_value_raises_only_overflow (PInt (2 ^ 1024))
           (OverflowError "int too large to convert to float")).
  vm_compute. reflexivity.
Defined.

(** X20: [get_float_value] drops the commas of a text wherever they stand:
    a text and the same text without its commas give the same answer. *)
Theorem get_float_value_ignores_commas s :
  get_float_value (PStr s) = get_float_value (PStr (Text.remove "," s)).
Proof.
  rewrite !get_float_value_str, remove_twice. f_equal.
  destruct s as [|c s]; [reflexivity|].
  change (String.eqb (String c s) "") with false. cbv iota.
  unfold Text.startswith. rewrite prefix_eq.
  destruct (Ascii.eqb c "=") eqn:E.
  - apply Ascii.eqb_eq in E. subst c.
    change (Text.remove "," (String "=" s)) with (String "="%char (Text.remove "," s)).
    rewrite prefix_eq. reflexivity.
  - destruct (Text.remove "," (String c s)) as [|c' r] eqn:R; [reflexivity|].
    change (String.eqb (String c' r) "") with false. cbv iota.
    rewrite prefix_eq. destruct (Ascii.eqb c' "=") eqn:E'; [|reflexivity].
    apply Ascii.eqb_eq in E'. subst c'. now rewrite float_of_str_formula.
Qed.
